(** * CASE_PROMPTS: the two LangChain generation pipelines

    Shallow embedding of [script_bot.py] (Telegram bot generator) and
    [script_post.py] (text post generator): five dependent model calls, a
    markdown-fence unwrapper on the generated code, and a final file write;
    and of the prompt lookup and the text input of [common_prompts.py], the
    menu that starts the bot generator.

    Python [str] values are sequences of Unicode code points; the model
    gateway, LangChain's JSON parser and prompt formatter, and Python's
    [repr] are collaborators outside the repository and are taken as
    section variables. *)

From Stdlib Require Import String Ascii.
From stdpp Require Import gmap list fin_maps.


Open Scope string_scope.
Open Scope list_scope.

(** ** Python strings *)

Module PyStr.

(** A [str] is a list of code points. *)
Abbreviation str := (list N).

(** UTF-8 decoding of a source literal into code points. *)
Fixpoint utf8_decode (bs : list N) : str :=
  match bs with
  | [] => []
  | b :: r0 =>
    if (b <? 128)%N then b :: utf8_decode r0
    else match r0 with
    | [] => []
    | b1 :: r1 =>
      if (b <? 224)%N then ((b mod 32) * 64 + b1 mod 64)%N :: utf8_decode r1
      else match r1 with
      | [] => []
      | b2 :: r2 =>
        if (b <? 240)%N
        then ((b mod 16) * 4096 + (b1 mod 64) * 64 + b2 mod 64)%N :: utf8_decode r2
        else match r2 with
        | [] => []
        | b3 :: r3 =>
          ((b mod 8) * 262144 + (b1 mod 64) * 4096 + (b2 mod 64) * 64 + b3 mod 64)%N
            :: utf8_decode r3
        end
      end
    end
  end.

Definition lit (s : string) : str :=
  utf8_decode (N_of_ascii <$> list_ascii_of_string s).

(** [s.startswith(p)] *)
Fixpoint starts_with (p s : str) : bool :=
  match p, s with
  | [], _ => true
  | _ :: _, [] => false
  | a :: p', b :: s' => (a =? b)%N && starts_with p' s'
  end.

(** [s.find(sub)], with [None] for Python's [-1]. *)
Fixpoint find (sub s : str) : option nat :=
  if starts_with sub s then Some 0
  else match s with
       | [] => None
       | _ :: s' => S <$> find sub s'
       end.

(** [sub in s] *)
Definition contains (sub s : str) : bool := bool_decide (is_Some (find sub s)).

(** [s.split(sep)] for a non-empty separator: the pieces between the
    non-overlapping occurrences of [sep], scanning from the left.  [skip]
    counts the characters of a matched separator still to be passed over. *)
Fixpoint split_go (sep : str) (skip : nat) (s : str) : list str :=
  match s with
  | [] => [[]]
  | c :: s' =>
    match skip with
    | S k => split_go sep k s'
    | O =>
      if starts_with sep s then [] :: split_go sep (length sep - 1) s'
      else match split_go sep 0 s' with
           | piece :: rest => (c :: piece) :: rest
           | [] => [[c]]
           end
    end
  end.

Definition split (sep s : str) : list str := split_go sep 0 s.

(** Characters removed by [str.strip()] (those with [str.isspace()]). *)
Definition is_space (c : N) : bool :=
  ((9 <=? c) && (c <=? 13) || (28 <=? c) && (c <=? 32)
   || (c =? 133) || (c =? 160) || (c =? 5760)
   || (8192 <=? c) && (c <=? 8202)
   || (c =? 8232) || (c =? 8233) || (c =? 8239) || (c =? 8287) || (c =? 12288))%N.

Fixpoint lstrip (s : str) : str :=
  match s with
  | [] => []
  | c :: s' => if is_space c then lstrip s' else s
  end.

Definition rstrip (s : str) : str := reverse (lstrip (reverse s)).

(** [s.strip()] *)
Definition strip (s : str) : str := rstrip (lstrip s).

(** [s[:n]] *)
Definition slice_to (n : nat) (s : str) : str := take n s.

(** Decimal digits of a natural number, as [str(n)] prints them. *)
Fixpoint digits_go (fuel n : nat) (acc : str) : str :=
  match fuel with
  | O => acc
  | S fuel' =>
    let acc' := (48 + N.of_nat (n mod 10))%N :: acc in
    if (n / 10 =? 0)%nat then acc' else digits_go fuel' (n / 10) acc'
  end.

Definition str_of_nat (n : nat) : str := digits_go (S n) n [].

(** [sep * n] *)
Definition repeat_str (s : str) (n : nat) : str := concat (replicate n s).

End PyStr.
Import PyStr.

(** ** Python values, exceptions and the world the scripts run in *)

Set Warnings "-register-all".

(** Values the JSON parser can hand back. *)
Inductive pyval :=
| VNone
| VBool (b : bool)
| VInt (z : Z)
| VFloat (mantissa exponent : Z)
| VStr (s : str)
| VList (l : list pyval)
| VDict (d : gmap str pyval).

Abbreviation dict := (gmap str pyval).

(** The exceptions that occur in the scripts.  [GatewayError] stands for
    what the model client raises (connection, authentication, quota).
    [SystemExit] and [KeyboardInterrupt] derive from [BaseException] only,
    so an [except Exception] clause lets them through. *)
Inductive exn :=
| SystemExit (code : nat)
| KeyboardInterrupt
| GatewayError (msg : str)
| OutputParserException (msg : str)
| AttributeError (msg : str)
| TypeError (msg : str)
| IndexError (msg : str)
| OSError (msg : str).

Definition is_KeyboardInterrupt (e : exn) : bool :=
  match e with
  | KeyboardInterrupt => true
  | _ => false
  end.

Definition is_Exception (e : exn) : bool :=
  match e with
  | SystemExit _ | KeyboardInterrupt => false
  | _ => true
  end.

(** [str(e)] *)
Definition exn_str (e : exn) : str :=
  match e with
  | SystemExit c => str_of_nat c
  | KeyboardInterrupt => []
  | GatewayError m | OutputParserException m | AttributeError m
  | TypeError m | IndexError m | OSError m => m
  end.

Inductive Result (A : Type) :=
| Ok (a : A)
| Raise (e : exn).
Arguments Ok {A} a.
Arguments Raise {A} e.

Inductive Level := DEBUG | INFO | WARNING | ERROR.

(** What a run does to the outside, in order. *)
Inductive Event :=
| EvLog (lvl : Level) (msg : str)
| EvPrint (msg : str)
| EvGateway (prompt : str)
| EvOpen (path : str)
| EvWrite (path : str) (data : str).

(** What the file system will refuse: nothing, the [open], or the write
    after [k] successful ones. *)
Inductive Fault :=
| NoFault
| OpenFails (e : exn)
| WriteFails (k : nat) (e : exn).

Record DateTime := mkDateTime {
  year : nat; month : nat; day : nat; hour : nat; minute : nat; second : nat
}.

Record World := mkWorld {
  env : gmap str str;         (* the process environment, os.getenv *)
  clock : DateTime;           (* what datetime.now() reads *)
  files : gmap str str;       (* path -> content *)
  fs_fault : Fault;
  calls : nat;                (* gateway calls made so far *)
  trace : list Event;
}.

Definition emit (ev : Event) (w : World) : World :=
  mkWorld (env w) (clock w) (files w) (fs_fault w) (calls w) (trace w ++ [ev]).

Definition set_files (fs : gmap str str) (w : World) : World :=
  mkWorld (env w) (clock w) fs (fs_fault w) (calls w) (trace w).

Definition set_fault (f : Fault) (w : World) : World :=
  mkWorld (env w) (clock w) (files w) f (calls w) (trace w).

Definition count_call (w : World) : World :=
  mkWorld (env w) (clock w) (files w) (fs_fault w) (S (calls w)) (trace w).

(** ** The monad of the scripts: state and exceptions *)

Definition M (A : Type) : Type := World -> Result A * World.

Definition ret {A} (a : A) : M A := fun w => (Ok a, w).

Definition raise {A} (e : exn) : M A := fun w => (Raise e, w).

Definition bind {A B} (m : M A) (k : A -> M B) : M B :=
  fun w => match m w with
           | (Ok a, w') => k a w'
           | (Raise e, w') => (Raise e, w')
           end.

(** [try: body except ...: handler], for the exceptions the clauses catch *)
Definition try_with {A} (body : M A) (catches : exn -> bool) (handler : exn -> M A) : M A :=
  fun w => match body w with
           | (Ok a, w') => (Ok a, w')
           | (Raise e, w') => if catches e then handler e w' else (Raise e, w')
           end.

(** [try: body except Exception as e: handler(e)] *)
Definition try_except {A} (body : M A) (handler : exn -> M A) : M A :=
  try_with body is_Exception handler.

Definition lift {A} (r : Result A) : M A := fun w => (r, w).

Declare Scope py_scope.
Delimit Scope py_scope with py.
Notation "'do' x <- m ; k" := (bind m (fun x => k))
  (at level 10, x name, m at level 100, k at level 200) : py_scope.
Notation "'run' m ; k" := (bind m (fun _ => k))
  (at level 10, m at level 100, k at level 200) : py_scope.
Open Scope py_scope.

Definition print (msg : str) : M unit := fun w => (Ok tt, emit (EvPrint msg) w).

Definition log (lvl : Level) (msg : str) : M unit :=
  fun w => (Ok tt, emit (EvLog lvl msg) w).

(** [os.getenv(name)] reads the process environment. *)
Definition getenv (name : string) : M (option str) :=
  fun w => (Ok (env w !! lit name), w).

(** [datetime.now()] *)
Definition now : M DateTime := fun w => (Ok (clock w), w).

(** The file at [path] emptied, and with [data] added at its end. *)
Definition truncated (path : str) (w : World) : World :=
  set_files (<[path := []]> (files w)) w.

Definition appended (path data : str) (w : World) : World :=
  set_files (<[path := default [] (files w !! path) ++ data]> (files w)) w.

(** [open(path, 'w', encoding='utf-8')]: the file is emptied, unless the
    file system refuses. *)
Definition open_w (path : str) : M unit :=
  fun w =>
    let w1 := emit (EvOpen path) w in
    match fs_fault w with
    | OpenFails e => (Raise e, w1)
    | _ => (Ok tt, truncated path w1)
    end.

(** [f.write(data)] on the file opened at [path] *)
Definition f_write (path : str) (data : str) : M unit :=
  fun w =>
    match fs_fault w with
    | WriteFails O e => (Raise e, w)
    | WriteFails (S k) e =>
      (Ok tt, emit (EvWrite path data) (appended path data (set_fault (WriteFails k e) w)))
    | _ => (Ok tt, emit (EvWrite path data) (appended path data w))
    end.

(** ** Python builtins on values *)

Definition nl : str := [10%N].
Definition dquote : str := [34%N].

(** [l[i]] on a list of strings *)
Definition py_index (l : list str) (i : nat) : Result str :=
  match l !! i with
  | Some x => Ok x
  | None => Raise (IndexError (lit "list index out of range"))
  end.

(** [d.get(k, dflt)] on a dict *)
Definition dict_get (d : dict) (k : string) (dflt : pyval) : pyval :=
  default dflt (d !! lit k).

(** [d.get(k, 'text')] *)
Definition dget (d : dict) (k : string) (text : string) : pyval :=
  dict_get d k (VStr (lit text)).

(** The first [result.get(...)] on what the parser returned: only a dict
    has the method, anything else raises [AttributeError]. *)
Definition expect_dict (v : pyval) : M dict :=
  match v with
  | VDict d => ret d
  | _ => raise (AttributeError (lit "object has no attribute 'get'"))
  end.

(** [v[:n]]: strings and lists can be sliced, the other JSON values raise
    ([TypeError]; a dict raises [KeyError] from Python 3.12 on, which an
    [except Exception] clause treats alike). *)
Definition py_slice_to (n : nat) (v : pyval) : Result pyval :=
  match v with
  | VStr s => Ok (VStr (take n s))
  | VList l => Ok (VList (take n l))
  | _ => Raise (TypeError (lit "object is not subscriptable"))
  end.

(** [len(v)] *)
Definition py_len (v : pyval) : Result nat :=
  match v with
  | VStr s => Ok (length s)
  | VList l => Ok (length l)
  | VDict d => Ok (size d)
  | _ => Raise (TypeError (lit "object has no len()"))
  end.

(** [bool(v)] *)
Definition truthy (v : pyval) : bool :=
  match v with
  | VNone => false
  | VBool b => b
  | VInt z => negb (z =? 0)%Z
  | VFloat m _ => negb (m =? 0)%Z
  | VStr s => negb (bool_decide (s = []))
  | VList l => match l with [] => false | _ => true end
  | VDict d => negb (bool_decide (d = ∅))
  end.

(** [v != 'text'] *)
Definition differs_from (v : pyval) (text : str) : bool :=
  match v with
  | VStr s => negb (bool_decide (s = text))
  | _ => true
  end.

(** [v.strip()]: a string method. *)
Definition py_strip (v : pyval) : Result str :=
  match v with
  | VStr s => Ok (strip s)
  | _ => Raise (AttributeError (lit "object has no attribute 'strip'"))
  end.

(** Line boundaries of [str.splitlines()]. *)
Definition is_linebreak (c : N) : bool :=
  ((10 <=? c) && (c <=? 13) || (28 <=? c) && (c <=? 30)
   || (c =? 133) || (c =? 8232) || (c =? 8233))%N.

Fixpoint splitlines_go (after_cr : bool) (s : str) : list str :=
  match s with
  | [] => []
  | c :: s' =>
    if after_cr && (c =? 10)%N then splitlines_go false s'
    else if is_linebreak c then [] :: splitlines_go (c =? 13)%N s'
    else match splitlines_go false s' with
         | [] => [[c]]
         | l :: ls => (c :: l) :: ls
         end
  end.

(** [s.splitlines()] *)
Definition splitlines (s : str) : list str := splitlines_go false s.

(** Two-digit and four-digit zero padding of [strftime]. *)
Definition pad (width n : nat) : str :=
  let d := str_of_nat n in replicate (width - length d) 48%N ++ d.

(** [t.strftime('%Y-%m-%d %H:%M:%S')] *)
Definition strftime (t : DateTime) : str :=
  pad 4 (year t) ++ lit "-" ++ pad 2 (month t) ++ lit "-" ++ pad 2 (day t)
  ++ lit " " ++ pad 2 (hour t) ++ lit ":" ++ pad 2 (minute t) ++ lit ":"
  ++ pad 2 (second t).

(** ** The prompt templates

    Ten fixed templates, one per chain; their text plays no part below. *)
Inductive Template :=
| BotAnalysisTpl | BotToolsTpl | BotStructureTpl | BotCodeTpl | BotReviewTpl
| PostAnalysisTpl | PostStyleTpl | PostStructureTpl | PostContentTpl | PostReviewTpl.

Definition TAG : str := lit "```python".
Definition FENCE : str := lit "```".

(** The markdown clean-up of [code_chain] (script_bot.py, lines 314-317):
    the text inside the first fence, if there is one. *)
Definition fenced_part (code : str) : Result str :=
  if contains TAG code then
    match py_index (split TAG code) 1 with
    | Ok part => py_index (split FENCE part) 0
    | Raise e => Raise e
    end
  else if contains FENCE code then
    match py_index (split FENCE code) 1 with
    | Ok part => py_index (split FENCE part) 0
    | Raise e => Raise e
    end
  else Ok code.

(** The clean-up followed by [code = code.strip()] (line 319). *)
Definition unwrap (code : str) : Result str :=
  match fenced_part code with
  | Ok code' => Ok (strip code')
  | Raise e => Raise e
  end.

(** The collaborators.  [gateway n prompt] is what the model answers to
    [prompt] on the call made after [n] earlier ones: a text, or an
    exception.  [json_parse] is LangChain's [SimpleJsonOutputParser]
    ([None] when it raises [OutputParserException]), [format_prompt] its
    [ChatPromptTemplate] rendering, [repr] Python's printing of a value
    that is not a string. *)
Class Collaborators := {
  gateway : nat -> str -> Result str;
  json_parse : str -> option pyval;
  format_prompt : Template -> list (string * pyval) -> str;
  repr : pyval -> str;
}.

Section Chains.
Context `{Collaborators}.

(** [f"{v}"] *)
Definition py_str (v : pyval) : str :=
  match v with
  | VStr s => s
  | _ => repr v
  end.

(** [(prompt | llm).invoke(vars)]: one call of the model. *)
Definition invoke_llm (tpl : Template) (vars : list (string * pyval)) : M str :=
  fun w =>
    let prompt := format_prompt tpl vars in
    (gateway (calls w) prompt, emit (EvGateway prompt) (count_call w)).

(** [(prompt | llm | SimpleJsonOutputParser()).invoke(vars)] *)
Definition invoke_json (tpl : Template) (vars : list (string * pyval)) : M pyval :=
  do text <- invoke_llm tpl vars;
  match json_parse text with
  | Some v => ret v
  | None => raise (OutputParserException (lit "Invalid json output: " ++ text))
  end.

(** [create_llm], the same in both scripts: without a key the process
    exits; the client it returns is the [gateway]. *)
Definition create_llm : M unit :=
  do key <- getenv "OPENAI_API_KEY";
  do base_url <- getenv "OPENAI_BASE_URL";
  do model <- getenv "OPENAI_MODEL";
  let model := default (lit "gpt-4o-mini") model in
  if bool_decide (default [] key = []) then
    run log ERROR (lit "OPENAI_API_KEY не найден в .env файле!");
    run print (lit "❌ OPENAI_API_KEY не найден в .env файле!");
    raise (SystemExit 1)
  else
    run (if negb (bool_decide (strip (default [] base_url) = []))
         then log DEBUG (lit "Используется ProxyAPI: " ++ default [] base_url)
         else ret tt);
    run log DEBUG (lit "Создан LLM клиент: model=" ++ model ++ lit ", temperature=0.7");
    ret tt.

(** [setup_logger], the same in both scripts, reads [LOG_LEVEL] and
    configures the logging module; the trace keeps every record whatever
    the level. *)
Definition setup_logger : M unit :=
  do level_name <- getenv "LOG_LEVEL";
  ret tt.

(** The shape shared by the eight JSON chains:
    [try: result = chain.invoke(vars); logger.info(...result.get...);
     return result
     except Exception as e: logger.warning(...); return defaults]. *)
Definition json_chain (name : string) (tpl : Template)
    (vars : list (string * pyval)) (done_msg : dict -> Result str)
    (defaults : dict) : M dict :=
  try_except
    (do result <- invoke_json tpl vars;
     do fields <- expect_dict result;
     do msg <- lift (done_msg fields);
     run log INFO msg;
     ret fields)
    (fun e =>
       run log WARNING (lit "Ошибка парсинга в " ++ lit name ++ lit ": " ++ exn_str e
                        ++ lit ". Используются значения по умолчанию");
       ret defaults).

(** A dict literal with string values. *)
Definition mk_dict (l : list (string * string)) : dict :=
  list_to_map ((fun kv => (lit kv.1, VStr (lit kv.2))) <$> l).

End Chains.

(** *** script_bot.py *)
Module Bot.
Section Bot.
Context `{Collaborators}.

Definition analysis_defaults : dict :=
  mk_dict [("bot_purpose", "Базовый функционал");
           ("key_features", "Обработка команд");
           ("user_interactions", "Команды");
           ("complexity_level", "simple");
           ("special_requirements", "Нет")].

(** The keyword arguments of the [chain.invoke] call of [analysis_chain]. *)
Definition analysis_vars (description : str) : list (string * pyval) :=
  [("description", VStr description)].

Definition analysis_chain (description : str) : M dict :=
  run log INFO (lit "Запуск analysis_chain");
  run log DEBUG (lit "Описание: " ++ slice_to 100 description ++ lit "...");
  run create_llm;
  json_chain "analysis_chain" BotAnalysisTpl
    (analysis_vars description)
    (fun result => Ok (lit "Analysis chain завершен: complexity="
                       ++ py_str (dget result "complexity_level" "N/A")))
    analysis_defaults.

Definition tools_defaults : dict :=
  mk_dict [("framework_version", "aiogram 3.x");
           ("database", "none");
           ("additional_libraries", EmptyString);
           ("api_integrations", EmptyString);
           ("middleware_needs", "logging");
           ("state_management", "none")].

(** The keyword arguments of the [chain.invoke] call of [tools_selection_chain]. *)
Definition tools_selection_vars (analysis : dict) (description : str) : list (string * pyval) :=
  [("description", VStr description);
   ("bot_purpose", dget analysis "bot_purpose" EmptyString);
   ("key_features", dget analysis "key_features" EmptyString);
   ("user_interactions", dget analysis "user_interactions" EmptyString);
   ("complexity_level", dget analysis "complexity_level" "simple");
   ("special_requirements", dget analysis "special_requirements" EmptyString)].

Definition tools_selection_chain (analysis : dict) (description : str) : M dict :=
  run log INFO (lit "Запуск tools_selection_chain");
  run create_llm;
  json_chain "tools_selection_chain" BotToolsTpl
    (tools_selection_vars analysis description)
    (fun result => Ok (lit "Tools selection завершен: db="
                       ++ py_str (dget result "database" "N/A") ++ lit ", state="
                       ++ py_str (dget result "state_management" "N/A")))
    tools_defaults.

Definition structure_defaults : dict :=
  mk_dict [("commands", "/start, /help");
           ("handlers", "command_handler, message_handler");
           ("states", EmptyString);
           ("keyboards", EmptyString);
           ("modules", "main");
           ("data_models", EmptyString);
           ("helper_functions", EmptyString)].

(** The keyword arguments of the [chain.invoke] call of [structure_chain]. *)
Definition structure_vars (analysis tools : dict) (description : str) : list (string * pyval) :=
  [("description", VStr description);
   ("bot_purpose", dget analysis "bot_purpose" EmptyString);
   ("key_features", dget analysis "key_features" EmptyString);
   ("complexity_level", dget analysis "complexity_level" "simple");
   ("framework_version", dget tools "framework_version" "aiogram 3.x");
   ("database", dget tools "database" "none");
   ("additional_libraries", dget tools "additional_libraries" EmptyString);
   ("state_management", dget tools "state_management" "none")].

Definition structure_chain (analysis tools : dict) (description : str) : M dict :=
  run log INFO (lit "Запуск structure_chain");
  run create_llm;
  json_chain "structure_chain" BotStructureTpl
    (structure_vars analysis tools description)
    (fun result =>
       let commands := dget result "commands" EmptyString in
       let handlers := dget result "handlers" EmptyString in
       Ok (lit "Structure chain завершен: commands=" ++ py_str commands
           ++ lit ", handlers=" ++ py_str handlers))
    structure_defaults.

(** The keyword arguments of the [chain.invoke] call of [code_chain]. *)
Definition code_vars (analysis tools structure : dict) (description : str) : list (string * pyval) :=
  [("description", VStr description);
   ("bot_purpose", dget analysis "bot_purpose" EmptyString);
   ("key_features", dget analysis "key_features" EmptyString);
   ("complexity_level", dget analysis "complexity_level" "simple");
   ("framework_version", dget tools "framework_version" "aiogram 3.x");
   ("database", dget tools "database" "none");
   ("additional_libraries", dict_get tools "additional_libraries" (VList []));
   ("state_management", dget tools "state_management" "none");
   ("commands", dict_get structure "commands" (VList []));
   ("handlers", dict_get structure "handlers" (VList []));
   ("states", dict_get structure "states" (VList []));
   ("keyboards", dict_get structure "keyboards" (VList []));
   ("modules", dict_get structure "modules" (VList []));
   ("data_models", dict_get structure "data_models" (VList []));
   ("helper_functions", dict_get structure "helper_functions" (VList []))].

Definition code_chain (analysis tools structure : dict) (description : str) : M str :=
  run log INFO (lit "Запуск code_chain");
  run create_llm;
  do content <- invoke_llm BotCodeTpl
    (code_vars analysis tools structure description);
  do code <- lift (unwrap content);
  run log INFO (lit "Code chain завершен: " ++ str_of_nat (length code) ++ lit " символов, "
                ++ str_of_nat (length (splitlines code)) ++ lit " строк");
  ret code.

Definition review_defaults : dict :=
  mk_dict [("is_valid", "yes");
           ("syntax_errors", "none");
           ("structure_issues", "none");
           ("import_issues", "none");
           ("recommendations", "Код готов к использованию")].

(** The keyword arguments of the [chain.invoke] call of [review_chain]. *)
Definition review_vars (code : str) : list (string * pyval) :=
  [("code", VStr code)].

Definition review_chain (code : str) : M dict :=
  run log INFO (lit "Запуск review_chain");
  run log DEBUG (lit "Проверка кода: " ++ str_of_nat (length code) ++ lit " символов");
  run create_llm;
  json_chain "review_chain" BotReviewTpl
    (review_vars code)
    (fun result => Ok (lit "Review chain завершен: is_valid="
                       ++ py_str (dget result "is_valid" "N/A")))
    review_defaults.

Definition bar : str := repeat_str (lit "=") 80.

Definition output_file : str := lit "generated_bot.py".

(** [generate_bot], lines 379-438: the five chains and their console report. *)
Definition generate_bot_stages (description : str) : M (dict * str) :=
  run log INFO bar;
  run log INFO (lit "Запуск генерации Telegram бота");
  run log INFO (lit "Описание: " ++ description);
  run log INFO bar;
  run print (nl ++ bar);
  run print (lit "🤖 ГЕНЕРАТОР TELEGRAM БОТОВ (LangChain Pipeline)");
  run print bar;
  run print (nl ++ lit "📊 ШАГ 1/4: Анализ задания бота...");
  do analysis <- analysis_chain description;
  run print (lit "✅ Анализ завершен");
  run print (lit "   • Назначение: " ++ py_str (dget analysis "bot_purpose" "N/A"));
  run print (lit "   • Уровень сложности: " ++ py_str (dget analysis "complexity_level" "N/A"));
  let key_features := dget analysis "key_features" "N/A" in
  run (if (100 <? length (py_str key_features))%nat
       then print (lit "   • Ключевые функции: " ++ slice_to 100 (py_str key_features) ++ lit "...")
       else print (lit "   • Ключевые функции: " ++ py_str key_features));
  run print (nl ++ lit "🔧 ШАГ 2/4: Подбор инструментов для генерации...");
  do tools <- tools_selection_chain analysis description;
  run print (lit "✅ Инструменты подобраны");
  run print (lit "   • Framework: " ++ py_str (dget tools "framework_version" "N/A"));
  run print (lit "   • База данных: " ++ py_str (dget tools "database" "none"));
  run print (lit "   • Управление состояниями: " ++ py_str (dget tools "state_management" "none"));
  let additional_libs := dget tools "additional_libraries" EmptyString in
  run (if truthy additional_libs && differs_from additional_libs (lit "none")
       then print (lit "   • Доп. библиотеки: " ++ py_str additional_libs)
       else ret tt);
  run print (nl ++ lit "🏗️ ШАГ 3/4: Создание структуры кода...");
  do structure <- structure_chain analysis tools description;
  run print (lit "✅ Структура создана");
  let commands := dget structure "commands" "N/A" in
  run print (lit "   • Команды: " ++ py_str commands);
  let handlers := dget structure "handlers" "N/A" in
  run print (lit "   • Обработчики: " ++ py_str handlers);
  let keyboards := dget structure "keyboards" EmptyString in
  run (if truthy keyboards
       then print (lit "   • Клавиатуры: " ++ py_str keyboards)
       else ret tt);
  run print (nl ++ lit "💻 ШАГ 4/4: Реализация кода бота...");
  do code <- code_chain analysis tools structure description;
  run print (lit "✅ Код реализован");
  run print (lit "   • Размер: " ++ str_of_nat (length code) ++ lit " символов");
  run print (lit "   • Строк кода: " ++ str_of_nat (length (splitlines code)));
  run print (nl ++ lit "🔍 ФИНАЛЬНАЯ ПРОВЕРКА: Валидация кода...");
  do review <- review_chain code;
  run print (lit "✅ Проверка завершена");
  run print (lit "   • Статус: " ++ py_str (dget review "is_valid" "yes"));
  run print (lit "   • Синтаксические ошибки: " ++ py_str (dget review "syntax_errors" "none"));
  let recommendations := dict_get review "recommendations" VNone in
  run (if truthy recommendations
          && differs_from recommendations (lit "Код готов к использованию")
       then print (nl ++ lit "💡 Рекомендации: " ++ py_str recommendations)
       else ret tt);
  ret (tools, code).

(** [generate_bot], lines 440-468: the file write and the closing report. *)
Definition generate_bot_save (tools : dict) (code : str) : M str :=
  do saved <- try_except
    (run open_w output_file;
     run f_write output_file code;
     run log INFO (lit "Бот сохранен в файл: " ++ output_file);
     ret true)
    (fun e =>
       run log ERROR (lit "Ошибка при сохранении файла: " ++ exn_str e);
       run print (nl ++ lit "❌ Ошибка при сохранении файла: " ++ exn_str e);
       ret false);
  if negb saved then ret code
  else
    run print (nl ++ bar);
    run print (lit "✅ БОТ УСПЕШНО СГЕНЕРИРОВАН: " ++ output_file);
    run print bar;
    run print (nl ++ lit "📝 Для запуска бота:");
    run print (lit "   1. Установите зависимости: pip install aiogram python-dotenv");
    let additional_libs := dget tools "additional_libraries" EmptyString in
    do extra <-
      (if truthy additional_libs && differs_from additional_libs (lit "none")
       then do stripped <- lift (py_strip additional_libs);
            ret (negb (bool_decide (stripped = [])))
       else ret false);
    run (if extra
         then
           run print (lit "   2. Установите доп. библиотеки: pip install " ++ py_str additional_libs);
           run print (lit "   3. Добавьте BOT_TOKEN в .env файл");
           print (lit "   4. Запустите: python " ++ output_file)
         else
           run print (lit "   2. Добавьте BOT_TOKEN в .env файл");
           print (lit "   3. Запустите: python " ++ output_file));
    run print [];
    ret code.

Definition generate_bot (description : str) : M str :=
  do r <- generate_bot_stages description;
  generate_bot_save r.1 r.2.

Definition main (argv : list str) : M unit :=
  run setup_logger;
  run log INFO (lit "Запуск script_bot.py");
  match argv !! 1 with
  | None =>
    run log ERROR (lit "Не указано описание бота");
    run print (lit "❌ Использование: python script_bot.py " ++ dquote
               ++ lit "Описание бота" ++ dquote);
    run print (nl ++ lit "Пример:");
    run print (lit "   python script_bot.py " ++ dquote
               ++ lit "Бот, который отправляет случайные мемы" ++ dquote);
    raise (SystemExit 1)
  | Some description =>
    run log INFO (lit "Получено описание: " ++ description);
    try_with
      (run generate_bot description;
       log INFO (lit "Генерация бота успешно завершена"))
      (fun e => is_KeyboardInterrupt e || is_Exception e)
      (fun e =>
         if is_KeyboardInterrupt e then
           run log WARNING (lit "Генерация прервана пользователем");
           run print (nl ++ nl ++ lit "❌ Генерация прервана пользователем");
           raise (SystemExit 0)
         else
           run log ERROR (lit "Ошибка при генерации бота: " ++ exn_str e);
           run print (nl ++ lit "❌ Ошибка при генерации бота: " ++ exn_str e);
           raise (SystemExit 1))
  end.

End Bot.
End Bot.

(** *** script_post.py *)
Module Post.
Section Post.
Context `{Collaborators}.

(** [source_text if source_text else "Не предоставлен"] *)
Definition source_or_missing (source_text : str) : str :=
  if bool_decide (source_text = []) then lit "Не предоставлен" else source_text.

Definition analysis_defaults : dict :=
  mk_dict [("post_goal", "Информирование");
           ("target_audience", "Широкая аудитория");
           ("key_messages", "Основная информация по теме");
           ("tone_style", "Нейтральный");
           ("desired_length", "medium")].

(** The keyword arguments of the [chain.invoke] call of [analysis_chain]. *)
Definition analysis_vars (topic source_text : str) : list (string * pyval) :=
  [("topic", VStr topic);
   ("source_text", VStr (source_or_missing source_text))].

Definition analysis_chain (topic source_text : str) : M dict :=
  run log INFO (lit "Запуск analysis_chain");
  run log DEBUG (lit "Тема: " ++ slice_to 100 topic ++ lit "...");
  run create_llm;
  json_chain "analysis_chain" PostAnalysisTpl
    (analysis_vars topic source_text)
    (fun result => Ok (lit "Analysis chain завершен: goal="
                       ++ py_str (dget result "post_goal" "N/A")))
    analysis_defaults.

Definition style_defaults : dict :=
  mk_dict [("structure", "Заголовок, основной текст, заключение");
           ("use_emoji", "no");
           ("emoji_style", EmptyString);
           ("cta", "Нет");
           ("hashtags", "Нет");
           ("formatting", "Абзацы")].

(** The keyword arguments of the [chain.invoke] call of [style_selection_chain]. *)
Definition style_selection_vars (analysis : dict) (topic : str) : list (string * pyval) :=
  [("topic", VStr topic);
   ("post_goal", dget analysis "post_goal" EmptyString);
   ("target_audience", dget analysis "target_audience" EmptyString);
   ("key_messages", dget analysis "key_messages" EmptyString);
   ("tone_style", dget analysis "tone_style" EmptyString);
   ("desired_length", dget analysis "desired_length" "medium")].

Definition style_selection_chain (analysis : dict) (topic : str) : M dict :=
  run log INFO (lit "Запуск style_selection_chain");
  run create_llm;
  json_chain "style_selection_chain" PostStyleTpl
    (style_selection_vars analysis topic)
    (fun result => Ok (lit "Style selection завершен: emoji="
                       ++ py_str (dget result "use_emoji" "N/A")))
    style_defaults.

Definition structure_defaults : dict :=
  mk_dict [("headline", "Заголовок");
           ("intro", "Вступление");
           ("main_blocks", "Основной контент");
           ("conclusion", "Заключение");
           ("cta_text", EmptyString)].

(** The keyword arguments of the [chain.invoke] call of [structure_chain]. *)
Definition structure_vars (analysis style : dict) (topic : str) : list (string * pyval) :=
  [("topic", VStr topic);
   ("post_goal", dget analysis "post_goal" EmptyString);
   ("target_audience", dget analysis "target_audience" EmptyString);
   ("tone_style", dget analysis "tone_style" EmptyString);
   ("structure", dget style "structure" EmptyString);
   ("use_emoji", dget style "use_emoji" "no");
   ("cta", dget style "cta" EmptyString);
   ("hashtags", dget style "hashtags" EmptyString)].

Definition structure_chain (analysis style : dict) (topic : str) : M dict :=
  run log INFO (lit "Запуск structure_chain");
  run create_llm;
  json_chain "structure_chain" PostStructureTpl
    (structure_vars analysis style topic)
    (fun result =>
       match py_slice_to 50 (dget result "headline" "N/A") with
       | Ok head => Ok (lit "Structure chain завершен: headline=" ++ py_str head)
       | Raise e => Raise e
       end)
    structure_defaults.

(** The keyword arguments of the [chain.invoke] call of [content_generation_chain]. *)
Definition content_generation_vars (analysis style structure : dict)
    (topic source_text : str) : list (string * pyval) :=
  [("topic", VStr topic);
   ("source_text", VStr (source_or_missing source_text));
   ("post_goal", dget analysis "post_goal" EmptyString);
   ("target_audience", dget analysis "target_audience" EmptyString);
   ("tone_style", dget analysis "tone_style" EmptyString);
   ("desired_length", dget analysis "desired_length" "medium");
   ("structure_format", dget style "structure" EmptyString);
   ("use_emoji", dget style "use_emoji" "no");
   ("formatting", dget style "formatting" EmptyString);
   ("headline", dget structure "headline" EmptyString);
   ("intro", dget structure "intro" EmptyString);
   ("main_blocks", dget structure "main_blocks" EmptyString);
   ("conclusion", dget structure "conclusion" EmptyString);
   ("cta_text", dget structure "cta_text" EmptyString)].

Definition content_generation_chain (analysis style structure : dict)
    (topic source_text : str) : M str :=
  run log INFO (lit "Запуск content_generation_chain");
  run create_llm;
  do result <- invoke_llm PostContentTpl
    (content_generation_vars analysis style structure topic source_text);
  let post_content := strip result in
  run log INFO (lit "Content generation завершен: " ++ str_of_nat (length post_content)
                ++ lit " символов");
  ret post_content.

Definition review_defaults : dict :=
  mk_dict [("is_ready", "yes");
           ("completeness", "Пост завершен");
           ("structure_quality", "Хорошая структура");
           ("engagement", "Достаточно вовлекающий");
           ("recommendations", "Пост готов к публикации")].

(** The keyword arguments of the [chain.invoke] call of [review_chain]. *)
Definition review_vars (post_content : str) : list (string * pyval) :=
  [("post_content", VStr post_content)].

Definition review_chain (post_content : str) : M dict :=
  run log INFO (lit "Запуск review_chain");
  run log DEBUG (lit "Проверка поста: " ++ str_of_nat (length post_content) ++ lit " символов");
  run create_llm;
  json_chain "review_chain" PostReviewTpl
    (review_vars post_content)
    (fun result => Ok (lit "Review chain завершен: is_ready="
                       ++ py_str (dget result "is_ready" "N/A")))
    review_defaults.

Definition bar : str := repeat_str (lit "=") 80.
Definition dashes : str := repeat_str (lit "-") 80.

Definition output_file : str := lit "generated_post.txt".

(** [print] of a value cut to [n] characters when its text is longer. *)
Definition print_cut (label : str) (n : nat) (v : pyval) : M unit :=
  if (n <? length (py_str v))%nat
  then print (label ++ slice_to n (py_str v) ++ lit "...")
  else print (label ++ py_str v).

(** [generate_post], lines 364-426: the five chains and their console report. *)
Definition generate_post_stages (topic source_text : str) : M str :=
  run log INFO bar;
  run log INFO (lit "Запуск генерации текстового поста");
  run log INFO (lit "Тема: " ++ topic);
  run log INFO bar;
  run print (nl ++ bar);
  run print (lit "📝 ГЕНЕРАТОР ТЕКСТОВЫХ ПОСТОВ (LangChain Pipeline)");
  run print bar;
  run print (nl ++ lit "📊 ШАГ 1/4: Анализ темы и материала...");
  do analysis <- analysis_chain topic source_text;
  run print (lit "✅ Анализ завершен");
  run print (lit "   • Цель: " ++ py_str (dget analysis "post_goal" "N/A"));
  run print (lit "   • Аудитория: " ++ py_str (dget analysis "target_audience" "N/A"));
  run print (lit "   • Тон: " ++ py_str (dget analysis "tone_style" "N/A"));
  run print (nl ++ lit "🎨 ШАГ 2/4: Подбор стиля и формата...");
  do style <- style_selection_chain analysis topic;
  run print (lit "✅ Стиль подобран");
  let structure_info := dget style "structure" "N/A" in
  run print_cut (lit "   • Структура: ") 50 structure_info;
  run print (lit "   • Emoji: " ++ py_str (dget style "use_emoji" "N/A"));
  let cta_info := dget style "cta" "N/A" in
  run print_cut (lit "   • CTA: ") 50 cta_info;
  run print (nl ++ lit "🏗️ ШАГ 3/4: Создание структуры контента...");
  do structure <- structure_chain analysis style topic;
  run print (lit "✅ Структура создана");
  let headline := dget structure "headline" "N/A" in
  do headline_len <- lift (py_len headline);
  run (if (60 <? headline_len)%nat
       then do head <- lift (py_slice_to 60 headline);
            print (lit "   • Заголовок: " ++ py_str head ++ lit "...")
       else print (lit "   • Заголовок: " ++ py_str headline));
  run print (nl ++ lit "✍️ ШАГ 4/4: Генерация финального поста...");
  do post_content <- content_generation_chain analysis style structure topic source_text;
  run print (lit "✅ Пост сгенерирован");
  run print (lit "   • Размер: " ++ str_of_nat (length post_content) ++ lit " символов");
  run print (lit "   • Строк: " ++ str_of_nat (length (splitlines post_content)));
  run print (nl ++ lit "🔍 ФИНАЛЬНАЯ ПРОВЕРКА: Валидация контента...");
  do review <- review_chain post_content;
  run print (lit "✅ Проверка завершена");
  run print (lit "   • Готовность: " ++ py_str (dget review "is_ready" "yes"));
  let structure_quality := dget review "structure_quality" "N/A" in
  run print_cut (lit "   • Качество структуры: ") 50 structure_quality;
  let recommendations := dict_get review "recommendations" VNone in
  run (if truthy recommendations
          && differs_from recommendations (lit "Пост готов к публикации")
       then print (nl ++ lit "💡 Рекомендации: " ++ py_str recommendations)
       else ret tt);
  ret post_content.

(** The header written before the post: topic, generation time, a rule. *)
Definition header (topic : str) (t : DateTime) : list str :=
  [lit "# ТЕМА: " ++ topic ++ nl;
   lit "# Дата генерации: " ++ strftime t ++ nl;
   bar ++ nl ++ nl].

(** [generate_post], lines 428-451: the file write and the closing report. *)
Definition generate_post_save (topic post_content : str) : M str :=
  do saved <- try_except
    (run open_w output_file;
     run f_write output_file (lit "# ТЕМА: " ++ topic ++ nl);
     do t <- now;
     run f_write output_file (lit "# Дата генерации: " ++ strftime t ++ nl);
     run f_write output_file (bar ++ nl ++ nl);
     run f_write output_file post_content;
     run log INFO (lit "Пост сохранен в файл: " ++ output_file);
     ret true)
    (fun e =>
       run log ERROR (lit "Ошибка при сохранении файла: " ++ exn_str e);
       run print (nl ++ lit "❌ Ошибка при сохранении файла: " ++ exn_str e);
       ret false);
  if negb saved then ret post_content
  else
    run print (nl ++ bar);
    run print (lit "✅ ПОСТ УСПЕШНО СГЕНЕРИРОВАН: " ++ output_file);
    run print bar;
    run print (nl ++ lit "📄 СОДЕРЖИМОЕ ПОСТА:");
    run print dashes;
    run print post_content;
    run print dashes;
    run print [];
    ret post_content.

Definition generate_post (topic source_text : str) : M str :=
  do post_content <- generate_post_stages topic source_text;
  generate_post_save topic post_content.

Definition main (argv : list str) : M unit :=
  run setup_logger;
  run log INFO (lit "Запуск script_post.py");
  match argv !! 1 with
  | None =>
    run log ERROR (lit "Не указана тема поста");
    run print (lit "❌ Использование: python script_post.py " ++ dquote ++ lit "Тема поста"
               ++ dquote ++ lit " [" ++ dquote ++ lit "Исходный текст" ++ dquote ++ lit "]");
    run print (nl ++ lit "Примеры:");
    run print (lit "   python script_post.py " ++ dquote
               ++ lit "Искусственный интеллект в медицине" ++ dquote);
    run print (lit "   python script_post.py " ++ dquote ++ lit "Новая технология" ++ dquote
               ++ lit " " ++ dquote ++ lit "Подробный текст статьи..." ++ dquote);
    raise (SystemExit 1)
  | Some topic =>
    let source_text := default [] (argv !! 2) in
    run log INFO (lit "Получена тема: " ++ topic);
    run (if negb (bool_decide (source_text = []))
         then log INFO (lit "Предоставлен исходный текст: "
                        ++ str_of_nat (length source_text) ++ lit " символов")
         else ret tt);
    try_with
      (run generate_post topic source_text;
       log INFO (lit "Генерация поста успешно завершена"))
      (fun e => is_KeyboardInterrupt e || is_Exception e)
      (fun e =>
         if is_KeyboardInterrupt e then
           run log WARNING (lit "Генерация прервана пользователем");
           run print (nl ++ nl ++ lit "❌ Генерация прервана пользователем");
           raise (SystemExit 0)
         else
           run log ERROR (lit "Ошибка при генерации поста: " ++ exn_str e);
           run print (nl ++ lit "❌ Ошибка при генерации поста: " ++ exn_str e);
           raise (SystemExit 1))
  end.

End Post.
End Post.

(** ** Vocabulary of the statements *)

(** The text before the first occurrence of [sub], all of it when there
    is none. *)
Definition before (sub s : str) : str :=
  match find sub s with
  | Some i => take i s
  | None => s
  end.

(** No white space at either end. *)
Definition trimmed (s : str) : Prop :=
  (forall c, head s = Some c -> is_space c = false)
  /\ (forall c, last s = Some c -> is_space c = false).

Definition backtick : N := 96%N.

(** A usable key is set: [create_llm] goes through. *)
Definition has_key (w : World) : Prop :=
  default [] (env w !! lit "OPENAI_API_KEY") <> [].

Definition is_Ok {A} (r : Result A) : bool :=
  match r with
  | Ok _ => true
  | Raise _ => false
  end.

(** Events that leave the file system alone. *)
Definition quiet (ev : Event) : bool :=
  match ev with
  | EvOpen _ | EvWrite _ _ => false
  | _ => true
  end.

Definition is_gateway (ev : Event) : bool :=
  match ev with
  | EvGateway _ => true
  | _ => false
  end.

Definition is_open (ev : Event) : bool :=
  match ev with
  | EvOpen _ => true
  | _ => false
  end.

Fixpoint count_events (f : Event -> bool) (evs : list Event) : nat :=
  match evs with
  | [] => 0
  | ev :: evs' => (if f ev then 1 else 0) + count_events f evs'
  end.

(** From [w] to [w'] the model was called [n] times and nothing else
    changed but the trace, which grew by quiet events. *)
Record quiet_step (n : nat) (w w' : World) : Prop := {
  qs_env : env w' = env w;
  qs_clock : clock w' = clock w;
  qs_files : files w' = files w;
  qs_fault : fs_fault w' = fs_fault w;
  qs_calls : calls w' = calls w + n;
  qs_trace : exists evs, trace w' = trace w ++ evs
                         /\ Forall (fun ev => quiet ev = true) evs
                         /\ count_events is_gateway evs = n;
}.

(** [m] is a quiet computation that calls the model at most [n] times,
    and exactly [n] times when it returns (always, if [always]). *)
Definition Calls {A} (always : bool) (n : nat) (m : M A) : Prop :=
  forall w, exists k,
    quiet_step k w (m w).2 /\ k <= n
    /\ (always || is_Ok (m w).1 = true -> k = n).

(** The eight invocations of a JSON chain and the two of a generating
    chain, with their arguments. *)
Inductive StructuredCall :=
| BotAnalysis (description : str)
| BotTools (analysis : dict) (description : str)
| BotStructure (analysis tools : dict) (description : str)
| BotReview (code : str)
| PostAnalysis (topic source_text : str)
| PostStyle (analysis : dict) (topic : str)
| PostStructure (analysis style : dict) (topic : str)
| PostReview (post_content : str).

Inductive GenerationCall :=
| BotCode (analysis tools structure : dict) (description : str)
| PostContent (analysis style structure : dict) (topic source_text : str).

Section Calls.
Context `{Collaborators}.

(** What a JSON chain returns, given the model's reply and the function
    that writes its completion message. *)
Definition json_outcome (reply : Result str) (done_msg : dict -> Result str)
    (defaults : dict) : Result dict :=
  let fallback e := if is_Exception e then Ok defaults else Raise e in
  match reply with
  | Raise e => fallback e
  | Ok text =>
    match json_parse text with
    | Some (VDict d) =>
      match done_msg d with
      | Ok _ => Ok d
      | Raise e => fallback e
      end
    | Some _ => Ok defaults
    | None => Ok defaults
    end
  end.

Definition run_call (c : StructuredCall) : M dict :=
  match c with
  | BotAnalysis d => Bot.analysis_chain d
  | BotTools a d => Bot.tools_selection_chain a d
  | BotStructure a t d => Bot.structure_chain a t d
  | BotReview code => Bot.review_chain code
  | PostAnalysis t src => Post.analysis_chain t src
  | PostStyle a t => Post.style_selection_chain a t
  | PostStructure a sty t => Post.structure_chain a sty t
  | PostReview post => Post.review_chain post
  end.

(** The prompt sent to the model. *)
Definition prompt_of (c : StructuredCall) : str :=
  match c with
  | BotAnalysis d => format_prompt BotAnalysisTpl (Bot.analysis_vars d)
  | BotTools a d => format_prompt BotToolsTpl (Bot.tools_selection_vars a d)
  | BotStructure a t d => format_prompt BotStructureTpl (Bot.structure_vars a t d)
  | BotReview code => format_prompt BotReviewTpl (Bot.review_vars code)
  | PostAnalysis t src => format_prompt PostAnalysisTpl (Post.analysis_vars t src)
  | PostStyle a t => format_prompt PostStyleTpl (Post.style_selection_vars a t)
  | PostStructure a sty t => format_prompt PostStructureTpl (Post.structure_vars a sty t)
  | PostReview post => format_prompt PostReviewTpl (Post.review_vars post)
  end.

Definition run_generation (c : GenerationCall) : M str :=
  match c with
  | BotCode a t st d => Bot.code_chain a t st d
  | PostContent a sty st t src => Post.content_generation_chain a sty st t src
  end.

Definition generation_prompt (c : GenerationCall) : str :=
  match c with
  | BotCode a t st d => format_prompt BotCodeTpl (Bot.code_vars a t st d)
  | PostContent a sty st t src =>
    format_prompt PostContentTpl (Post.content_generation_vars a sty st t src)
  end.

End Calls.

(** The default mapping a chain declares in its [except] branch. *)
Definition defaults_of (c : StructuredCall) : dict :=
  match c with
  | BotAnalysis _ => Bot.analysis_defaults
  | BotTools _ _ => Bot.tools_defaults
  | BotStructure _ _ _ => Bot.structure_defaults
  | BotReview _ => Bot.review_defaults
  | PostAnalysis _ _ => Post.analysis_defaults
  | PostStyle _ _ => Post.style_defaults
  | PostStructure _ _ _ => Post.structure_defaults
  | PostReview _ => Post.review_defaults
  end.

(** A value that [v[:n]] accepts. *)
Definition sliceable (v : pyval) : Prop :=
  match v with
  | VStr _ | VList _ => True
  | _ => False
  end.

(** The chain can write its completion message from the record [d]:
    always, except that [structure_chain] of script_post.py slices the
    headline. *)
Definition message_ok (c : StructuredCall) (d : dict) : Prop :=
  match c with
  | PostStructure _ _ _ => sliceable (dget d "headline" "N/A")
  | _ => True
  end.

(** Every field of the chain's schema that the record holds is a string. *)
Definition fields_are_strings (c : StructuredCall) (d : dict) : Prop :=
  forall k v, is_Some (defaults_of c !! k) -> d !! k = Some v -> exists s, v = VStr s.

(** [m] returns, with a result satisfying [Q], whenever a key is set. *)
Definition Returns {A} (Q : A -> Prop) (m : M A) : Prop :=
  forall w, has_key w -> exists a, (m w).1 = Ok a /\ Q a /\ has_key (m w).2.

(** Two worlds in which a run meets the same key check and the same file
    system faults; clock, files, call count and trace may differ. *)
Definition same_setup (w1 w2 : World) : Prop :=
  (has_key w1 <-> has_key w2) /\ fs_fault w1 = fs_fault w2.

(** [m] gives the same result in any two such worlds and keeps them so. *)
Definition Det {A} (m : M A) : Prop :=
  forall w1 w2, same_setup w1 w2 ->
    (m w1).1 = (m w2).1 /\ same_setup (m w1).2 (m w2).2.

(** The file system refuses a save made of [writes] writes, with [e]: at
    the [open] or at one of the writes. *)
Definition refuses (writes : nat) (f : Fault) (e : exn) : Prop :=
  f = OpenFails e \/ exists k, k < writes /\ f = WriteFails k e.

(** A computation that can only return [a]. *)
Definition OnlyReturns {A} (a : A) (m : M A) : Prop :=
  forall w c, (m w).1 = Ok c -> c = a.

(** The messages logged at level WARNING, in order. *)
Definition warnings (evs : list Event) : list str :=
  omap (fun ev => match ev with EvLog WARNING msg => Some msg | _ => None end) evs.

(** ** A stub of the collaborators, and worlds to run it in *)

(** A model stub.  It answers the generating prompts with a text and every
    other prompt with [json_text], and fails on the call numbered [fail_at],
    if any; its parser accepts what starts with a brace. *)
Definition stub_reply (json_text p : str) : str :=
  if starts_with (lit "code") p then TAG ++ nl ++ lit "print(1)" ++ nl ++ FENCE
  else if starts_with (lit "post") p then lit " Hello " ++ nl
  else json_text.

Definition stub (fail_at : option nat) (json_text : str) : Collaborators := {|
  gateway n p :=
    if bool_decide (fail_at = Some n)
    then Raise (GatewayError (lit "connection refused"))
    else Ok (stub_reply json_text p);
  json_parse text :=
    if starts_with (lit "{") text
    then Some (VDict {[ lit "headline" := VStr (lit "Hi") ]})
    else None;
  format_prompt tpl vars :=
    match tpl with
    | BotCodeTpl => lit "code"
    | PostContentTpl => lit "post"
    | _ => lit "json"
    end;
  repr v := lit "?";
|}.

Definition world0 : World :=
  mkWorld {[ lit "OPENAI_API_KEY" := lit "sk-test" ]}
          (mkDateTime 2026 1 9 7 5 30) ∅ NoFault 0 [].

Definition world0_later : World :=
  mkWorld {[ lit "OPENAI_API_KEY" := lit "sk-test" ]}
          (mkDateTime 2026 1 9 7 5 31) ∅ NoFault 0 [].

(** The same world with a file system that refuses the [open], and with
    one that refuses the third write. *)
Definition world0_readonly : World :=
  set_fault (OpenFails (OSError (lit "Permission denied"))) world0.

Definition world0_disk_full : World :=
  set_fault (WriteFails 2 (OSError (lit "No space left on device"))) world0.

(** The same world with the output files of an earlier run in place. *)
Definition world0_rerun : World :=
  set_files {[ Bot.output_file := lit "old bot"; Post.output_file := lit "old post" ]} world0.

(** The prompts sent to the model, in the order of the calls. *)
Fixpoint prompts (evs : list Event) : list str :=
  match evs with
  | [] => []
  | EvGateway p :: evs' => p :: prompts evs'
  | _ :: evs' => prompts evs'
  end.

(** From [w] to [w'] the trace grew, and the prompts sent are [ps]. *)
Definition sent (ps : list str) (w w' : World) : Prop :=
  exists evs, trace w' = trace w ++ evs /\ prompts evs = ps.

(** Without a key, [m] ends the process with status 1, having called no
    model and touched no file. *)
Definition ExitsWithoutKey {A} (m : M A) : Prop :=
  forall w, ~ has_key w ->
    (m w).1 = Raise (SystemExit 1) /\ quiet_step 0 w (m w).2.





(** The name a JSON chain gives itself in its warning. *)
Definition name_of (c : StructuredCall) : string :=
  match c with
  | BotAnalysis _ | PostAnalysis _ _ => "analysis_chain"
  | BotTools _ _ => "tools_selection_chain"
  | PostStyle _ _ => "style_selection_chain"
  | BotStructure _ _ _ | PostStructure _ _ _ => "structure_chain"
  | BotReview _ | PostReview _ => "review_chain"
  end.

(** The warning of the [except] branch of a JSON chain. *)
Definition fallback_warning (name : string) (detail : str) : str :=
  lit "Ошибка парсинга в " ++ lit name ++ lit ": " ++ detail
  ++ lit ". Используются значения по умолчанию".

(** From [w] to [w'] the trace grew, and the warnings logged are [ws]. *)
Definition warned (ws : list str) (w w' : World) : Prop :=
  exists evs, trace w' = trace w ++ evs /\ warnings evs = ws.

(** *** common_prompts.py

    The interactive menu that starts the bot generator.  Its console is a
    list of what [input()] will give and a list of what was written to
    standard output; files are read through [read].  Standard input is
    reconfigured to replace what it cannot decode, so [input()] gives a
    line, [KeyboardInterrupt] or [EOFError]. *)
Module Menu.

(** What one call of [input()] gives: a line, or [KeyboardInterrupt].
    Behind the last element every call raises [EOFError]. *)
Inductive Input :=
| Line (s : str)
| CtrlC.

(** What [open(path, 'r', ...)] followed by [f.read()] gives. *)
Inductive Read :=
| Content (text : str)
| FileNotFound
| ReadFails (msg : str).

(** [l[i]] for a Python [int]: a negative index counts from the end. *)
Definition py_list_index {A} (l : list A) (i : Z) : Result A :=
  let n := Z.of_nat (length l) in
  let j := if (i <? 0)%Z then (i + n)%Z else i in
  if (j <? 0)%Z then Raise (IndexError (lit "list index out of range"))
  else match l !! Z.to_nat j with
       | Some x => Ok x
       | None => Raise (IndexError (lit "list index out of range"))
       end.

(** [PromptsManager.get_prompt] *)
Definition get_prompt (prompts : list dict) (index : Z) : Result (option dict) :=
  if (0 <? index)%Z && (index <=? Z.of_nat (length prompts))%Z
  then match py_list_index prompts (index - 1) with
       | Ok p => Ok (Some p)
       | Raise e => Raise e
       end
  else Ok None.

(** [print(msg)] and [print(msg, end='\r')] *)
Definition say (msg : str) (out : list str) : list str := out ++ [msg ++ nl].
Definition say_cr (msg : str) (out : list str) : list str := out ++ [msg ++ [13%N]].

Definition dashes : str := repeat_str (lit "-") 80.

(** [s.upper() == 'END']: the upper case of no other character is one of
    these three letters. *)
Definition is_END (s : str) : bool :=
  match s with
  | [e; n; d] =>
    ((e =? 69) || (e =? 101)) && ((n =? 78) || (n =? 110))
    && ((d =? 68) || (d =? 100))
  | _ => false
  end%N.

(** [sep.join(l)] *)
Fixpoint join (sep : str) (l : list str) : str :=
  match l with
  | [] => []
  | [x] => x
  | x :: l' => x ++ sep ++ join sep l'
  end.

(** [s.replace(a, b)] for single characters [a] and [b] *)
Definition replace_char (a b : N) (s : str) : str :=
  (fun c => if (c =? a)%N then b else c) <$> s.

(** [not line.strip()] *)
Definition blank (line : str) : bool := bool_decide (strip line = []).

(** [while lines and not lines[-1].strip(): lines.pop()] *)
Fixpoint drop_blank_front (lines : list str) : list str :=
  match lines with
  | [] => []
  | l :: lines' => if blank l then drop_blank_front lines' else lines
  end.

Definition drop_blank_end (lines : list str) : list str :=
  reverse (drop_blank_front (reverse lines)).

(** How the reading loop of [get_multiline_input] ends. *)
Inductive LoopEnd :=
| Collected (lines : list str)
| FromFile (content : str)
| Interrupted.

(** The [while True] loop of [get_multiline_input], lines 240-283. *)
Fixpoint input_loop (read : str -> Read) (first_line : bool) (lines : list str)
    (stdin : list Input) (out : list str) : LoopEnd * list Input * list str :=
  match stdin with
  | [] => (Collected lines, [], out)
  | CtrlC :: rest => (Interrupted, rest, out)
  | Line line :: rest =>
    if is_END (strip line) then (Collected lines, rest, out)
    else if first_line && starts_with (lit "file:") (strip line) then
      let file_path := strip (drop 5 (strip line)) in
      match read file_path with
      | Content content =>
        (FromFile content, rest,
         say dashes
           (say (lit "✅ Прочитано из файла: " ++ str_of_nat (length content)
                 ++ lit " символов") out))
      | FileNotFound =>
        input_loop read false lines rest
          (say (lit "Продолжайте ввод вручную или введите другой путь к файлу:")
             (say (lit "❌ Файл не найден: " ++ file_path) out))
      | ReadFails msg =>
        input_loop read false lines rest
          (say (lit "Продолжайте ввод вручную:")
             (say (lit "❌ Ошибка чтения файла: " ++ msg) out))
      end
    else
      let lines' := lines ++ [line] in
      input_loop read false lines' rest
        (if (length lines' mod 10 =? 0)%nat
         then say_cr (lit "  [Введено строк: " ++ str_of_nat (length lines') ++ lit "]") out
         else out)
  end.

(** [get_multiline_input], lines 226-305. *)
Definition get_multiline_input (read : str -> Read) (prompt : str)
    (stdin : list Input) (out : list str) : Result str * list Input * list str :=
  let out :=
    say dashes
      (say (lit "   3. Введите 'file:путь_к_файлу.txt' для чтения из файла")
         (say (lit "   2. Нажмите Ctrl+D (Mac/Linux) / Ctrl+Z (Windows) для завершения")
            (say (lit "   1. Вставьте текст, затем на новой строке напишите: END")
               (say (lit "💡 Варианты ввода:")
                  (say (nl ++ prompt) out))))) in
  match input_loop read true [] stdin out with
  | (Interrupted, rest, out) =>
    (Raise (SystemExit 0), rest, say (nl ++ nl ++ lit "❌ Ввод отменен") out)
  | (FromFile content, rest, out) => (Ok (strip content), rest, out)
  | (Collected lines, rest, out) =>
    let lines := drop_blank_end lines in
    let result := join nl lines in
    let out :=
      match lines with
      | [] => out
      | _ => say (nl ++ lit "✅ Введено строк: " ++ str_of_nat (length lines)
                  ++ lit ", символов: " ++ str_of_nat (length result)) out
      end in
    (Ok (strip (replace_char 65533 32 result)), rest, say dashes out)
  end.

End Menu.

(** A line that ends the input, and one that asks for a file. *)
Definition ends_input (line : str) : Prop := Menu.is_END (strip line) = true.

Definition names_file (line : str) : Prop :=
  starts_with (lit "file:") (strip line) = true.

(** ** Checks of the builtins on concrete inputs *)

Example lit_ascii : lit "```" = [96; 96; 96]%N.
Proof. reflexivity. Qed.

Example split_overlap :
  split (lit "```") (lit "a``````b") = [lit "a"; []; lit "b"]
  /\ split (lit "```") (lit "````x") = [[]; lit "`x"]
  /\ split (lit "```") (lit "x`````") = [lit "x"; lit "``"].
Proof. vm_compute. auto. Qed.

Example strftime_ex :
  strftime (mkDateTime 2026 1 9 7 5 30) = lit "2026-01-09 07:05:30".
Proof. reflexivity. Qed.

Example splitlines_ex :
  splitlines (lit "a" ++ [13; 10] ++ lit "b" ++ nl ++ nl ++ lit "c" ++ nl)%N
  = [lit "a"; lit "b"; []; lit "c"].
Proof. reflexivity. Qed.

(** ** Facts about [find] and [split] *)

Section StrFacts.
Implicit Types (sub sep p s t : str) (i j k : nat).

Lemma starts_with_prefix p s : starts_with p s = true <-> p `prefix_of` s.
Proof.
  revert s; induction p as [|a p IH]; intros [|b s]; simpl.
  - split; [intros _; apply prefix_nil | done].
  - split; [intros _; apply prefix_nil | done].
  - split; [done | intros Hp; by apply prefix_nil_inv in Hp].
  - rewrite andb_true_iff, N.eqb_eq, IH. split.
    + intros [-> Hp]. by apply prefix_cons.
    + intros Hp. split; [by apply prefix_cons_inv_1 in Hp | by apply prefix_cons_inv_2 in Hp].
Qed.

Lemma starts_with_app p s : starts_with p (p ++ s) = true.
Proof. apply starts_with_prefix, prefix_app_r. done. Qed.

Lemma starts_with_weaken p q s :
  starts_with (p ++ q) s = true -> starts_with p s = true.
Proof.
  rewrite !starts_with_prefix. intros Hp.
  etrans; [apply prefix_app_r; reflexivity | exact Hp].
Qed.

Lemma starts_with_length p s : starts_with p s = true -> length p <= length s.
Proof. rewrite starts_with_prefix. apply prefix_length. Qed.

Lemma starts_with_nil_r p : starts_with p [] = true -> p = [].
Proof. by destruct p. Qed.

(** The first occurrence: it is one, and there is none before it. *)
Lemma find_Some sub s i :
  find sub s = Some i <->
  starts_with sub (drop i s) = true
  /\ forall j, j < i -> starts_with sub (drop j s) = false.
Proof.
  revert i; induction s as [|c s IH]; intros i.
  - simpl. destruct (starts_with sub []) eqn:E.
    + split.
      * intros [= <-]. split; [done | lia].
      * intros [_ Hlt]. destruct i; [done|].
        specialize (Hlt 0 ltac:(lia)). simpl in Hlt. congruence.
    + split; [done|]. intros [Hi _]. rewrite drop_nil in Hi. congruence.
  - cbn [find]. destruct (starts_with sub (c :: s)) eqn:E.
    + split.
      * intros [= <-]. split; [done | lia].
      * intros [_ Hlt]. destruct i; [done|].
        specialize (Hlt 0 ltac:(lia)). simpl in Hlt. congruence.
    + destruct i as [|i].
      * split.
        -- destruct (find sub s); done.
        -- intros [Hi _]. simpl in Hi. congruence.
      * assert (Hfm : forall o : option nat, S <$> o = Some (S i) <-> o = Some i)
          by (intros [n|]; simpl; split; congruence).
        rewrite Hfm, IH. simpl. split.
        -- intros [Hi Hlt]. split; [done|]. intros [|j] Hj; [done|].
           simpl. apply Hlt. lia.
        -- intros [Hi Hlt]. split; [done|]. intros j Hj.
           apply (Hlt (S j)). lia.
Qed.

Lemma find_None sub s :
  find sub s = None <-> forall j, starts_with sub (drop j s) = false.
Proof.
  induction s as [|c s IH].
  - simpl. destruct (starts_with sub []) eqn:E.
    + split; [done|]. intros Hj. specialize (Hj 0). simpl in Hj. congruence.
    + split; [|done]. intros _ j. by rewrite drop_nil.
  - cbn [find]. destruct (starts_with sub (c :: s)) eqn:E.
    + split; [done|]. intros Hj. specialize (Hj 0). simpl in Hj. congruence.
    + assert (Hfm : forall o : option nat, S <$> o = None <-> o = None)
        by (intros [n|]; simpl; split; congruence).
      rewrite Hfm, IH. split.
      * intros Hj [|j]; [done | apply Hj].
      * intros Hj j. apply (Hj (S j)).
Qed.

Lemma starts_with_drop sub s i :
  starts_with sub (drop i s) = true ->
  s = take i s ++ sub ++ drop (i + length sub) s.
Proof.
  rewrite starts_with_prefix. intros [t Ht].
  rewrite <- drop_drop, Ht, drop_app_length, <- Ht.
  by rewrite take_drop.
Qed.

Lemma find_bound sub s i : find sub s = Some i -> i + length sub <= length s.
Proof.
  intros Hf. destruct sub as [|a sub].
  - destruct s; simpl in Hf; injection Hf as <-; simpl; lia.
  - apply find_Some in Hf as [Hi _]. apply starts_with_length in Hi.
    rewrite length_drop in Hi. simpl in *. lia.
Qed.

Lemma find_decompose sub s i :
  find sub s = Some i -> s = take i s ++ sub ++ drop (i + length sub) s.
Proof. rewrite find_Some. intros [Hi _]. by apply starts_with_drop. Qed.

(** An occurrence at [length a], none earlier. *)
Lemma find_app sub a t :
  starts_with sub t = true ->
  (forall j, j < length a -> starts_with sub (drop j (a ++ t)) = false) ->
  find sub (a ++ t) = Some (length a).
Proof.
  intros Ht Hlt. apply find_Some. split; [|done].
  by rewrite drop_app_length.
Qed.

Lemma find_at_start sub t : find sub (sub ++ t) = Some 0.
Proof. apply find_Some. split; [apply starts_with_app | lia]. Qed.

Lemma split_go_skip sep k s :
  k <= length s -> split_go sep k s = split_go sep 0 (drop k s).
Proof.
  revert k; induction s as [|c s IH]; intros [|k] Hk; simpl in *; try done; try lia.
  apply IH. lia.
Qed.

Lemma split_go_nonempty sep k s : split_go sep k s <> [].
Proof.
  revert k; induction s as [|c s IH]; intros k; simpl; [done|].
  destruct k; [|apply IH].
  destruct (starts_with sep (c :: s)); [done|].
  by destruct (split_go sep 0 s).
Qed.

(** [split] cuts at the first occurrence and goes on behind it. *)
Lemma split_find_Some sep s i :
  sep <> [] -> find sep s = Some i ->
  split sep s = take i s :: split sep (drop (i + length sep) s).
Proof.
  intros Hsep. unfold split. revert i; induction s as [|c s IH]; intros i.
  - simpl. destruct (starts_with sep []) eqn:E; [|done].
    by apply starts_with_nil_r in E.
  - cbn [find split_go]. destruct (starts_with sep (c :: s)) eqn:E.
    + intros [= <-]. simpl. f_equal.
      apply starts_with_length in E. simpl in E.
      destruct sep as [|a sep]; [done|]. simpl in *.
      rewrite Nat.sub_0_r. apply split_go_skip. lia.
    + destruct (find sep s) as [i'|] eqn:F; [|done].
      intros [= <-]. rewrite (IH i' eq_refl). done.
Qed.

Lemma split_find_None sep s : find sep s = None -> split sep s = [s].
Proof.
  unfold split. induction s as [|c s IH]; [done|].
  cbn [find split_go]. destruct (starts_with sep (c :: s)); [done|].
  destruct (find sep s); [done|]. intros _. by rewrite IH.
Qed.

Lemma split_head sep s : sep <> [] -> split sep s !! 0 = Some (before sep s).
Proof.
  intros Hsep. unfold before. destruct (find sep s) as [i|] eqn:F.
  - by rewrite (split_find_Some _ _ i).
  - by rewrite split_find_None.
Qed.

Lemma split_second sep s i :
  sep <> [] -> find sep s = Some i ->
  split sep s !! 1 = Some (before sep (drop (i + length sep) s)).
Proof.
  intros Hsep F. rewrite (split_find_Some _ _ i) by done.
  simpl. by apply split_head.
Qed.

Lemma split_second_None sep s : find sep s = None -> split sep s !! 1 = None.
Proof. intros F. by rewrite split_find_None. Qed.

Lemma starts_with_take sub s j q :
  starts_with sub (drop j (take q s)) = true -> starts_with sub (drop j s) = true.
Proof.
  rewrite !starts_with_prefix. intros Hp. etrans; [exact Hp|].
  rewrite <- (take_drop q s) at 2. rewrite drop_app. apply prefix_app_r. done.
Qed.

Lemma starts_with_take_bound sub s j q :
  sub <> [] -> starts_with sub (drop j (take q s)) = true -> j + length sub <= q.
Proof.
  intros Hsub Hp. apply starts_with_length in Hp.
  rewrite length_drop, length_take in Hp.
  destruct sub; [done|]. simpl in *. lia.
Qed.

Lemma starts_with_take_intro sub s j q :
  starts_with sub (drop j s) = true -> j + length sub <= q ->
  starts_with sub (drop j (take q s)) = true.
Proof.
  rewrite !starts_with_prefix. intros [t Ht] Hq.
  replace q with (j + (q - j)) by lia.
  rewrite <- take_drop_commute, Ht.
  rewrite take_app_ge by lia. apply prefix_app_r. done.
Qed.

Lemma find_take_None sub s i :
  sub <> [] -> find sub s = Some i -> find sub (take i s) = None.
Proof.
  intros Hsub F. apply find_None. intros j.
  destruct (starts_with sub (drop j (take i s))) eqn:E; [|done].
  pose proof (starts_with_take_bound _ _ _ _ Hsub E) as Hb.
  apply starts_with_take in E.
  apply find_Some in F as [_ Hlt].
  rewrite Hlt in E; [done|]. destruct sub; [done|]. simpl in Hb. lia.
Qed.

Lemma before_idem sub s : sub <> [] -> before sub (before sub s) = before sub s.
Proof.
  intros Hsub. unfold before at 2 3. destruct (find sub s) as [i|] eqn:F.
  - unfold before. by rewrite (find_take_None _ _ _ Hsub F).
  - unfold before. by rewrite F.
Qed.

End StrFacts.

(** ** The markdown clean-up of [code_chain] *)

Section Unwrap.
Implicit Types (code pre body tail rest : str).

Lemma TAG_FENCE : TAG = FENCE ++ lit "python".
Proof. reflexivity. Qed.

Lemma FENCE_chars : FENCE = [96; 96; 96]%N.
Proof. reflexivity. Qed.

Lemma TAG_chars : TAG = [96; 96; 96; 112; 121; 116; 104; 111; 110]%N.
Proof. reflexivity. Qed.

Lemma TAG_nonempty : TAG <> [].
Proof. done. Qed.

Lemma FENCE_nonempty : FENCE <> [].
Proof. done. Qed.

Lemma contains_true sub s : contains sub s = true <-> exists i, find sub s = Some i.
Proof. unfold contains. rewrite bool_decide_eq_true. reflexivity. Qed.

Lemma contains_false sub s : contains sub s = false <-> find sub s = None.
Proof.
  unfold contains. rewrite bool_decide_eq_false, <- eq_None_not_Some. reflexivity.
Qed.

(** An occurrence of the tagged delimiter is one of the plain delimiter. *)
Lemma find_FENCE_None_TAG s : find FENCE s = None -> find TAG s = None.
Proof.
  rewrite !find_None. intros Hf j.
  destruct (starts_with TAG (drop j s)) eqn:E; [|done].
  rewrite TAG_FENCE in E. apply starts_with_weaken in E. by rewrite Hf in E.
Qed.

Lemma fenced_part_tagged code i :
  find TAG code = Some i ->
  fenced_part code
  = Ok (before FENCE (before TAG (drop (i + length TAG) code))).
Proof.
  intros F. unfold fenced_part.
  replace (contains TAG code) with true
    by (symmetry; apply contains_true; eauto).
  unfold py_index. rewrite (split_second _ _ i TAG_nonempty F).
  by rewrite (split_head _ _ FENCE_nonempty).
Qed.

Lemma fenced_part_generic code i :
  find TAG code = None -> find FENCE code = Some i ->
  fenced_part code = Ok (before FENCE (drop (i + length FENCE) code)).
Proof.
  intros FT F. unfold fenced_part.
  replace (contains TAG code) with false
    by (symmetry; by apply contains_false).
  replace (contains FENCE code) with true
    by (symmetry; apply contains_true; eauto).
  unfold py_index. rewrite (split_second _ _ i FENCE_nonempty F).
  rewrite (split_head _ _ FENCE_nonempty).
  by rewrite (before_idem _ _ FENCE_nonempty).
Qed.

Lemma fenced_part_plain code : find FENCE code = None -> fenced_part code = Ok code.
Proof.
  intros F. unfold fenced_part.
  replace (contains TAG code) with false
    by (symmetry; by apply contains_false, find_FENCE_None_TAG).
  by replace (contains FENCE code) with false
    by (symmetry; by apply contains_false).
Qed.

(** Behind the tagged opening: the text up to the next plain delimiter,
    unless a second tagged opening starts one or two characters into it. *)
Lemma before_FENCE_TAG rest j :
  find FENCE rest = Some j ->
  find TAG rest <> Some (j + 1) -> find TAG rest <> Some (j + 2) ->
  before FENCE (before TAG rest) = take j rest.
Proof.
  intros F H1 H2. unfold before at 2.
  destruct (find TAG rest) as [q|] eqn:FT; [|unfold before; by rewrite F].
  pose proof F as F'. apply find_Some in F' as [Hj Hlt].
  pose proof FT as FT'. apply find_Some in FT' as [Hq _].
  assert (j <= q) as Hjq.
  { destruct (decide (j <= q)); [done|].
    rewrite TAG_FENCE in Hq. apply starts_with_weaken in Hq.
    rewrite Hlt in Hq; [done | lia]. }
  destruct (decide (q = j)) as [->|Hne].
  - unfold before. by rewrite (find_take_None _ _ _ FENCE_nonempty F).
  - assert (j + 3 <= q) as Hq3.
    { destruct (decide (q = j + 1)) as [->|]; [done|].
      destruct (decide (q = j + 2)) as [->|]; [done|]. lia. }
    assert (find FENCE (take q rest) = Some j) as Ft.
    { apply find_Some. split.
      - by apply starts_with_take_intro.
      - intros k Hk. destruct (starts_with FENCE (drop k (take q rest))) eqn:E; [|done].
        apply starts_with_take in E. rewrite Hlt in E; done. }
    unfold before. rewrite Ft, take_take. f_equal. lia.
Qed.

Lemma before_FENCE_TAG_None rest :
  find FENCE rest = None -> before FENCE (before TAG rest) = rest.
Proof.
  intros F. unfold before. by rewrite (find_FENCE_None_TAG _ F), F.
Qed.

Lemma lstrip_id s :
  (forall c, head s = Some c -> is_space c = false) -> lstrip s = s.
Proof. destruct s as [|c s]; [done|]. intros Hc. simpl. by rewrite (Hc c). Qed.

Lemma strip_trimmed s : trimmed s -> strip s = s.
Proof.
  intros [Hh Hl]. unfold strip, rstrip. rewrite (lstrip_id s Hh).
  rewrite lstrip_id; [apply reverse_involutive|].
  intros c. rewrite head_reverse. apply Hl.
Qed.

(** The closing delimiter appended to a text without delimiter is found at
    the end of the text, unless the text ends in a backtick. *)
Lemma find_FENCE_closing body tail :
  find FENCE body = None -> last body <> Some backtick ->
  find FENCE (body ++ FENCE ++ tail) = Some (length body).
Proof.
  intros F Hlast. apply find_app; [apply starts_with_app|].
  intros j Hj. rewrite drop_app_le by lia.
  rewrite find_None in F. specialize (F j).
  assert (last (drop j body) = last body) as Hld.
  { rewrite <- (take_drop j body) at 2. rewrite last_app.
    destruct (last (drop j body)) eqn:E; [done|].
    apply last_None in E. apply (f_equal length) in E.
    rewrite length_drop in E. simpl in E. lia. }
  rewrite FENCE_chars in F |- *.
  destruct (drop j body) as [|a [|b [|c u]]] eqn:E.
  - apply (f_equal length) in E. rewrite length_drop in E. simpl in E. lia.
  - simpl in Hld. cbn [starts_with app]. destruct (96 =? a)%N eqn:Ea; [|done].
    apply N.eqb_eq in Ea. subst a. by rewrite <- Hld in Hlast.
  - simpl in Hld. cbn [starts_with app]. destruct (96 =? a)%N; [|done].
    destruct (96 =? b)%N eqn:Eb; [|done].
    apply N.eqb_eq in Eb. subst b. by rewrite <- Hld in Hlast.
  - cbn [starts_with app] in F |- *. exact F.
Qed.

Lemma unwrap_fenced code r : fenced_part code = Ok r -> unwrap code = Ok (strip r).
Proof. unfold unwrap. by intros ->. Qed.

Lemma unwrap_tagged_block pre body tail :
  find TAG (pre ++ TAG ++ body ++ FENCE ++ tail) = Some (length pre) ->
  find FENCE (body ++ FENCE ++ tail) = Some (length body) ->
  starts_with (lit "`python") tail = false ->
  starts_with (lit "``python") tail = false ->
  unwrap (pre ++ TAG ++ body ++ FENCE ++ tail) = Ok (strip body).
Proof.
  intros FT FF H1 H2. apply unwrap_fenced.
  rewrite (fenced_part_tagged _ _ FT).
  rewrite drop_app_add, drop_app_length.
  rewrite (before_FENCE_TAG _ _ FF).
  - by rewrite take_app_length.
  - intros Hq. apply find_Some in Hq as [Hq _].
    rewrite drop_app_add, TAG_chars, FENCE_chars in Hq.
    change (lit "`python") with [96; 112; 121; 116; 104; 111; 110]%N in H1.
    cbn [starts_with drop app] in Hq, H1. rewrite H1 in Hq. by vm_compute in Hq.
  - intros Hq. apply find_Some in Hq as [Hq _].
    rewrite drop_app_add, TAG_chars, FENCE_chars in Hq.
    change (lit "``python") with [96; 96; 112; 121; 116; 104; 111; 110]%N in H2.
    cbn [starts_with drop app] in Hq, H2. rewrite H2 in Hq. by vm_compute in Hq.
Qed.

Lemma unwrap_generic_block pre body tail :
  contains TAG (pre ++ FENCE ++ body ++ FENCE ++ tail) = false ->
  find FENCE (pre ++ FENCE ++ body ++ FENCE ++ tail) = Some (length pre) ->
  find FENCE (body ++ FENCE ++ tail) = Some (length body) ->
  unwrap (pre ++ FENCE ++ body ++ FENCE ++ tail) = Ok (strip body).
Proof.
  intros CT F FF. apply contains_false in CT. apply unwrap_fenced.
  rewrite (fenced_part_generic _ _ CT F).
  rewrite drop_app_add, drop_app_length.
  unfold before. by rewrite FF, take_app_length.
Qed.

Lemma unwrap_plain code :
  contains FENCE code = false -> unwrap code = Ok (strip code).
Proof.
  intros CF. apply contains_false in CF. apply unwrap_fenced.
  by apply fenced_part_plain.
Qed.

Lemma fenced_part_total code : exists r, fenced_part code = Ok r.
Proof.
  destruct (find TAG code) as [i|] eqn:FT.
  - rewrite (fenced_part_tagged _ _ FT). eauto.
  - destruct (find FENCE code) as [i|] eqn:F.
    + rewrite (fenced_part_generic _ _ FT F). eauto.
    + rewrite (fenced_part_plain _ F). eauto.
Qed.

Lemma unwrap_total code : exists r, unwrap code = Ok r.
Proof.
  destruct (fenced_part_total code) as [r Hr].
  exists (strip r). by apply unwrap_fenced.
Qed.

End Unwrap.

(** *** The unwrapper, case by case *)

(** C5 (amended).  Every result of the unwrapper is trimmed of white space,
    in the fenced cases too.  With a tagged opening delimiter the result is
    the trimmed text between the first tagged opening and the next closing
    delimiter, whatever follows that delimiter, provided that what follows
    does not itself read [`python] or [``python] (which would make a second
    tagged opening overlap the closing delimiter).  Without a tagged opening
    but with a plain delimiter, the same holds for the plain delimiter.
    Without any delimiter the result is the trimmed text. *)
Theorem unwrap_first_block :
  (forall pre body tail : str,
      find TAG (pre ++ TAG ++ body ++ FENCE ++ tail) = Some (length pre) ->
      find FENCE (body ++ FENCE ++ tail) = Some (length body) ->
      starts_with (lit "`python") tail = false ->
      starts_with (lit "``python") tail = false ->
      unwrap (pre ++ TAG ++ body ++ FENCE ++ tail) = Ok (strip body))
  /\ (forall pre body tail : str,
      contains TAG (pre ++ FENCE ++ body ++ FENCE ++ tail) = false ->
      find FENCE (pre ++ FENCE ++ body ++ FENCE ++ tail) = Some (length pre) ->
      find FENCE (body ++ FENCE ++ tail) = Some (length body) ->
      unwrap (pre ++ FENCE ++ body ++ FENCE ++ tail) = Ok (strip body))
  /\ (forall code : str,
      contains FENCE code = false -> unwrap code = Ok (strip code)).
Proof.
  split; [|split].
  - exact unwrap_tagged_block.
  - exact unwrap_generic_block.
  - exact unwrap_plain.
Qed.

Lemma unwrap_first_block_witness :
  unwrap (lit "Code: " ++ TAG ++ (nl ++ lit "x = 1" ++ nl) ++ FENCE
          ++ lit " and ```js y```")
  = Ok (lit "x = 1")
  /\ unwrap (lit "Code: " ++ FENCE ++ (nl ++ lit "x = 1" ++ nl) ++ FENCE
             ++ lit " and ```js y```")
     = Ok (lit "x = 1")
  /\ unwrap (lit "  x = 1 " ++ nl) = Ok (lit "x = 1").
Proof.
  split; [|split].
  - apply (proj1 unwrap_first_block (lit "Code: ") (nl ++ lit "x = 1" ++ nl)
             (lit " and ```js y```")); reflexivity.
  - apply (proj1 (proj2 unwrap_first_block) (lit "Code: ") (nl ++ lit "x = 1" ++ nl)
             (lit " and ```js y```")); reflexivity.
  - apply (proj2 (proj2 unwrap_first_block) (lit "  x = 1 " ++ nl)); reflexivity.
Defined.

(** C5 as stated fails: the fenced content is not returned as it stands
    between the delimiters (it is trimmed), and a second tagged opening
    right behind the closing delimiter moves the cut. *)
Lemma unwrap_not_verbatim :
  ~ (forall pre body tail : str,
        find TAG (pre ++ TAG ++ body ++ FENCE ++ tail) = Some (length pre) ->
        find FENCE (body ++ FENCE ++ tail) = Some (length body) ->
        unwrap (pre ++ TAG ++ body ++ FENCE ++ tail) = Ok body)
  /\ unwrap (TAG ++ (nl ++ lit "x = 1" ++ nl) ++ FENCE) = Ok (lit "x = 1")
  /\ unwrap (TAG ++ lit "A" ++ FENCE ++ lit "`python B```") = Ok (lit "A`").
Proof.
  split; [|split; reflexivity].
  intros Hall.
  specialize (Hall [] (nl ++ lit "x = 1" ++ nl) [] eq_refl eq_refl).
  vm_compute in Hall. discriminate Hall.
Qed.

(** C4 (amended).  A text without the delimiter that does not end in a
    backtick, wrapped in the tagged fence, unwraps to the text trimmed of
    white space; so does the plain fence when the wrapped text shows no
    tagged opening.  The result is the text itself when it has no white
    space at either end. *)
Theorem unwrap_wrap (T : str) :
  contains FENCE T = false -> last T <> Some backtick ->
  unwrap (TAG ++ T ++ FENCE) = Ok (strip T)
  /\ (contains TAG (FENCE ++ T ++ FENCE) = false ->
      unwrap (FENCE ++ T ++ FENCE) = Ok (strip T))
  /\ (trimmed T -> strip T = T).
Proof.
  intros CF Hlast. apply contains_false in CF.
  pose proof (find_FENCE_closing T [] CF Hlast) as Hclose.
  split; [|split].
  - pose proof (unwrap_tagged_block [] T []) as Hu.
    rewrite app_nil_r in Hu, Hclose. cbn [app length] in Hu.
    apply Hu; [|done..].
    apply find_at_start.
  - intros CT. pose proof (unwrap_generic_block [] T []) as Hu.
    rewrite app_nil_r in Hu, Hclose. cbn [app length] in Hu.
    apply Hu; [done| |done].
    apply find_at_start.
  - apply strip_trimmed.
Qed.

Lemma unwrap_wrap_witness :
  unwrap (TAG ++ lit "print(1)" ++ FENCE) = Ok (strip (lit "print(1)"))
  /\ (contains TAG (FENCE ++ lit "print(1)" ++ FENCE) = false ->
      unwrap (FENCE ++ lit "print(1)" ++ FENCE) = Ok (strip (lit "print(1)")))
  /\ (trimmed (lit "print(1)") -> strip (lit "print(1)") = lit "print(1)").
Proof.
  apply (unwrap_wrap (lit "print(1)")).
  - reflexivity.
  - vm_compute. discriminate.
Defined.

(** C4 as stated fails: a text ending in a newline, or in a backtick, does
    not come back, nor does, from the plain fence, a text that starts with
    the language tag. *)
Lemma unwrap_wrap_not_exact :
  ~ (forall T : str,
        contains FENCE T = false -> unwrap (TAG ++ T ++ FENCE) = Ok T)
  /\ unwrap (TAG ++ (lit "x = 1" ++ nl) ++ FENCE) = Ok (lit "x = 1")
  /\ unwrap (TAG ++ lit "x`" ++ FENCE) = Ok (lit "x")
  /\ unwrap (FENCE ++ lit "python3 x" ++ FENCE) = Ok (lit "3 x").
Proof.
  split; [|split; [|split]; reflexivity].
  intros Hall. specialize (Hall (lit "x = 1" ++ nl) eq_refl).
  vm_compute in Hall. discriminate Hall.
Qed.

(** C10.  The clean-up never raises: [split] always has a component 0, and
    a component 1 exactly when the separator occurs, which is what the two
    containment checks establish before [[1]] is taken.  An opening
    delimiter that is never closed yields the whole text behind it (which
    [code_chain] then trims). *)
Theorem fenced_part_never_raises :
  (forall code : str, exists r, fenced_part code = Ok r /\ unwrap code = Ok (strip r))
  /\ (forall sep s : str, exists x, py_index (split sep s) 0 = Ok x)
  /\ (forall sep s : str, sep <> [] -> contains sep s = true ->
        exists x, py_index (split sep s) 1 = Ok x)
  /\ (forall sep s : str, contains sep s = false ->
        exists e, py_index (split sep s) 1 = Raise (IndexError e))
  /\ (forall pre rest : str,
        find TAG (pre ++ TAG ++ rest) = Some (length pre) ->
        contains FENCE rest = false ->
        fenced_part (pre ++ TAG ++ rest) = Ok rest)
  /\ (forall pre rest : str,
        contains TAG (pre ++ FENCE ++ rest) = false ->
        find FENCE (pre ++ FENCE ++ rest) = Some (length pre) ->
        contains FENCE rest = false ->
        fenced_part (pre ++ FENCE ++ rest) = Ok rest).
Proof.
  repeat split.
  - intros code. destruct (fenced_part_total code) as [r Hr].
    exists r. split; [done | by apply unwrap_fenced].
  - intros sep s. unfold py_index, split.
    pose proof (split_go_nonempty sep 0 s) as Hne.
    destruct (split_go sep 0 s) as [|x l]; [done|]. simpl. eauto.
  - intros sep s Hsep [i F]%contains_true.
    unfold py_index. rewrite (split_second _ _ i Hsep F). eauto.
  - intros sep s F%contains_false.
    unfold py_index. rewrite (split_second_None _ _ F). eauto.
  - intros pre rest FT CF%contains_false.
    rewrite (fenced_part_tagged _ _ FT), drop_app_add, drop_app_length.
    by rewrite before_FENCE_TAG_None.
  - intros pre rest CT%contains_false F CF%contains_false.
    rewrite (fenced_part_generic _ _ CT F), drop_app_add, drop_app_length.
    unfold before. by rewrite CF.
Qed.

Lemma fenced_part_never_raises_witness :
  (exists x, py_index (split FENCE (lit "a```b")) 1 = Ok x)
  /\ (exists e, py_index (split FENCE (lit "ab")) 1 = Raise (IndexError e))
  /\ fenced_part (lit "see " ++ TAG ++ lit " x = 1") = Ok (lit " x = 1")
  /\ fenced_part (lit "see " ++ FENCE ++ lit " x = 1") = Ok (lit " x = 1").
Proof.
  destruct fenced_part_never_raises as (_ & _ & H1 & H2 & H3 & H4).
  split; [|split; [|split]].
  - apply H1; [done | reflexivity].
  - apply H2. reflexivity.
  - apply (H3 (lit "see ") (lit " x = 1")); reflexivity.
  - apply (H4 (lit "see ") (lit " x = 1")); reflexivity.
Defined.

(** ** Quiet computations and their model calls *)

Section Quiet.
Context `{Collaborators}.

Lemma count_events_app f evs1 evs2 :
  count_events f (evs1 ++ evs2) = count_events f evs1 + count_events f evs2.
Proof. induction evs1 as [|ev evs1 IH]; simpl; [done|]. rewrite IH. lia. Qed.

Lemma quiet_step_refl w : quiet_step 0 w w.
Proof.
  split; [done.. | lia |]. exists []. by rewrite app_nil_r.
Qed.

Lemma quiet_step_trans n1 n2 w1 w2 w3 :
  quiet_step n1 w1 w2 -> quiet_step n2 w2 w3 -> quiet_step (n1 + n2) w1 w3.
Proof.
  intros [? ? ? ? ? (evs1 & ? & ? & ?)] [? ? ? ? ? (evs2 & ? & ? & ?)].
  split; [congruence.. | lia |].
  exists (evs1 ++ evs2). split; [|split].
  - rewrite app_assoc. congruence.
  - by apply Forall_app.
  - rewrite count_events_app. lia.
Qed.

Lemma quiet_step_emit ev w :
  quiet ev = true -> is_gateway ev = false -> quiet_step 0 w (emit ev w).
Proof.
  intros Hq Hg. split; [done.. | simpl; lia |].
  exists [ev]. simpl. rewrite Hg. split; [done|]. split; [|done].
  by apply Forall_singleton.
Qed.

Lemma Calls_weaken {A} n (m : M A) : Calls true n m -> Calls false n m.
Proof.
  intros Hm w. destruct (Hm w) as (k & Hk & Hle & Heq).
  exists k. split; [done|]. split; [done|]. intros _. by apply Heq.
Qed.

Lemma Calls_ret {A} (a : A) : Calls true 0 (ret a).
Proof. intros w. exists 0. split; [apply quiet_step_refl | done]. Qed.

Lemma Calls_raise {A} e : Calls true 0 (@raise A e).
Proof. intros w. exists 0. split; [apply quiet_step_refl | done]. Qed.

Lemma Calls_lift {A} (r : Result A) : Calls true 0 (lift r).
Proof. intros w. exists 0. split; [apply quiet_step_refl | done]. Qed.

Lemma Calls_print msg : Calls true 0 (print msg).
Proof. intros w. exists 0. split; [by apply quiet_step_emit | done]. Qed.

Lemma Calls_log lvl msg : Calls true 0 (log lvl msg).
Proof. intros w. exists 0. split; [by apply quiet_step_emit | done]. Qed.

Lemma Calls_getenv name : Calls true 0 (getenv name).
Proof. intros w. exists 0. split; [apply quiet_step_refl | done]. Qed.

Lemma Calls_invoke_llm tpl vars : Calls true 1 (invoke_llm tpl vars).
Proof.
  intros w. exists 1. split; [|done].
  split; [done.. | simpl; lia |]. exists [EvGateway (format_prompt tpl vars)]. simpl.
  split; [done|]. split; [|done]. by apply Forall_singleton.
Qed.

(** The model is called in [m]; what follows makes no call. *)
Lemma Calls_bind_first {A B} n (m : M A) (k : A -> M B) :
  Calls true n m -> (forall a, Calls true 0 (k a)) -> Calls true n (bind m k).
Proof.
  intros Hm Hk w. unfold bind.
  destruct (Hm w) as (k1 & Hs1 & Hle1 & Heq1).
  destruct (m w) as [[a|e] w1]; simpl in *.
  - destruct (Hk a w1) as (k2 & Hs2 & Hle2 & Heq2).
    exists (k1 + k2). split; [by eapply quiet_step_trans|].
    split; [lia|]. intros _. rewrite Heq1 by done. lia.
  - exists k1. split; [done|]. split; [done|]. intros _. by apply Heq1.
Qed.

Lemma Calls_bind {A B} n1 n2 (m : M A) (k : A -> M B) :
  Calls false n1 m -> (forall a, Calls false n2 (k a)) ->
  Calls false (n1 + n2) (bind m k).
Proof.
  intros Hm Hk w. unfold bind.
  destruct (Hm w) as (k1 & Hs1 & Hle1 & Heq1).
  destruct (m w) as [[a|e] w1]; simpl in *.
  - destruct (Hk a w1) as (k2 & Hs2 & Hle2 & Heq2).
    exists (k1 + k2). split; [by eapply quiet_step_trans|].
    split; [lia|]. intros Hok. rewrite Heq1, Heq2 by done. lia.
  - exists k1. split; [done|]. split; [lia|]. done.
Qed.

Lemma Calls_try_with {A} n (body : M A) catches handler :
  Calls true n body -> (forall e, Calls true 0 (handler e)) ->
  Calls true n (try_with body catches handler).
Proof.
  intros Hm Hh w. unfold try_with.
  destruct (Hm w) as (k1 & Hs1 & Hle1 & Heq1).
  destruct (body w) as [[a|e] w1]; simpl in *.
  - exists k1. split; [done|]. split; [done|]. intros _. by apply Heq1.
  - destruct (catches e).
    + destruct (Hh e w1) as (k2 & Hs2 & Hle2 & Heq2).
      exists (k1 + k2). split; [by eapply quiet_step_trans|].
      split; [lia|]. intros _. rewrite Heq1 by done. lia.
    + exists k1. split; [done|]. split; [done|]. intros _. by apply Heq1.
Qed.

Lemma Calls_eq {A} always n n' (m : M A) : Calls always n m -> n = n' -> Calls always n' m.
Proof. by intros Hm <-. Qed.

End Quiet.

(** Computations that make their calls whatever happens. *)
Ltac calls_exact :=
  repeat lazymatch goal with
    | |- Calls _ _ (ret _) => apply Calls_ret
    | |- Calls _ _ (raise _) => apply Calls_raise
    | |- Calls _ _ (lift _) => apply Calls_lift
    | |- Calls _ _ (print _) => apply Calls_print
    | |- Calls _ _ (log _ _) => apply Calls_log
    | |- Calls _ _ (getenv _) => apply Calls_getenv
    | |- Calls _ _ (invoke_llm _ _) => apply Calls_invoke_llm
    | |- Calls _ _ (bind _ _) => apply Calls_bind_first; [|intros ?]
    | |- Calls _ _ (try_with _ _ _) => apply Calls_try_with; [|intros ?]
    | |- Calls _ _ (if ?c then _ else _) => destruct c
    | |- Calls _ _ (match ?x with _ => _ end) => destruct x
    end.

(** Sequences of such computations and of chains already summarised by
    [known]. *)
Ltac calls_seq known :=
  repeat lazymatch goal with
    | |- Calls false _ (bind _ _) => eapply Calls_bind; [|intros ?]
    | |- Calls false _ (if ?c then _ else _) => destruct c
    | |- Calls false _ (match ?x with _ => _ end) => destruct x
    | |- Calls false _ _ =>
      first [ known | apply Calls_weaken; solve [calls_exact] ]
    end.

Section QuietChains.
Context `{Collaborators}.

Lemma Calls_create_llm : Calls true 0 create_llm.
Proof. unfold create_llm. cbv zeta. calls_exact. Qed.

Lemma Calls_invoke_json tpl vars : Calls true 1 (invoke_json tpl vars).
Proof. unfold invoke_json. calls_exact. Qed.

Lemma Calls_expect_dict v : Calls true 0 (expect_dict v).
Proof. unfold expect_dict. calls_exact. Qed.

Lemma Calls_json_chain name tpl vars done_msg defaults :
  Calls true 1 (json_chain name tpl vars done_msg defaults).
Proof.
  unfold json_chain, try_except.
  apply Calls_try_with; [|intros e; calls_exact].
  apply Calls_bind_first; [apply Calls_invoke_json|]. intros v.
  apply Calls_bind_first; [apply Calls_expect_dict|]. intros d.
  calls_exact.
Qed.

(** No chain calls the model twice, and a chain that returns has called
    it once. *)
Ltac chain_calls :=
  eapply Calls_eq;
  [ calls_seq ltac:(idtac; lazymatch goal with
                    | |- Calls _ _ create_llm => apply Calls_weaken, Calls_create_llm
                    | |- Calls _ _ (json_chain _ _ _ _ _) =>
                      apply Calls_weaken, Calls_json_chain
                    end)
  | reflexivity ].

Lemma Calls_bot_analysis d : Calls false 1 (Bot.analysis_chain d).
Proof. unfold Bot.analysis_chain. chain_calls. Qed.

Lemma Calls_bot_tools a d : Calls false 1 (Bot.tools_selection_chain a d).
Proof. unfold Bot.tools_selection_chain. chain_calls. Qed.

Lemma Calls_bot_structure a t d : Calls false 1 (Bot.structure_chain a t d).
Proof. unfold Bot.structure_chain. chain_calls. Qed.

Lemma Calls_bot_code a t st d : Calls false 1 (Bot.code_chain a t st d).
Proof. unfold Bot.code_chain. chain_calls. Qed.

Lemma Calls_bot_review c : Calls false 1 (Bot.review_chain c).
Proof. unfold Bot.review_chain. chain_calls. Qed.

Lemma Calls_post_analysis t src : Calls false 1 (Post.analysis_chain t src).
Proof. unfold Post.analysis_chain. chain_calls. Qed.

Lemma Calls_post_style a t : Calls false 1 (Post.style_selection_chain a t).
Proof. unfold Post.style_selection_chain. chain_calls. Qed.

Lemma Calls_post_structure a sty t : Calls false 1 (Post.structure_chain a sty t).
Proof. unfold Post.structure_chain. chain_calls. Qed.

Lemma Calls_post_content a sty st t src :
  Calls false 1 (Post.content_generation_chain a sty st t src).
Proof. unfold Post.content_generation_chain. cbv zeta. chain_calls. Qed.

Lemma Calls_post_review c : Calls false 1 (Post.review_chain c).
Proof. unfold Post.review_chain. chain_calls. Qed.

Ltac stage_calls :=
  eapply Calls_eq;
  [ calls_seq ltac:(idtac; lazymatch goal with
                    | |- Calls _ _ (Bot.analysis_chain _) => apply Calls_bot_analysis
                    | |- Calls _ _ (Bot.tools_selection_chain _ _) => apply Calls_bot_tools
                    | |- Calls _ _ (Bot.structure_chain _ _ _) => apply Calls_bot_structure
                    | |- Calls _ _ (Bot.code_chain _ _ _ _) => apply Calls_bot_code
                    | |- Calls _ _ (Bot.review_chain _) => apply Calls_bot_review
                    | |- Calls _ _ (Post.analysis_chain _ _) => apply Calls_post_analysis
                    | |- Calls _ _ (Post.style_selection_chain _ _) => apply Calls_post_style
                    | |- Calls _ _ (Post.structure_chain _ _ _) => apply Calls_post_structure
                    | |- Calls _ _ (Post.content_generation_chain _ _ _ _ _) =>
                      apply Calls_post_content
                    | |- Calls _ _ (Post.review_chain _) => apply Calls_post_review
                    end)
  | reflexivity ].

(** The five chains of a run: five calls when they all return, and no
    file touched either way. *)
Lemma Calls_generate_bot_stages d : Calls false 5 (Bot.generate_bot_stages d).
Proof. unfold Bot.generate_bot_stages. cbv zeta. stage_calls. Qed.

Lemma Calls_generate_post_stages t src : Calls false 5 (Post.generate_post_stages t src).
Proof. unfold Post.generate_post_stages, Post.print_cut. cbv zeta. stage_calls. Qed.

End QuietChains.

(** ** The chains, outcome by outcome *)

Section ChainOutcomes.
Context `{Collaborators}.

Lemma bind_ok {A B} (m : M A) (k : A -> M B) w a w1 :
  m w = (Ok a, w1) -> bind m k w = k a w1.
Proof. unfold bind. by intros ->. Qed.

Lemma bind_raise {A B} (m : M A) (k : A -> M B) w e w1 :
  m w = (Raise e, w1) -> bind m k w = (Raise e, w1).
Proof. unfold bind. by intros ->. Qed.

Lemma bind_log {B} lvl msg (k : unit -> M B) w :
  bind (log lvl msg) k w = k tt (emit (EvLog lvl msg) w).
Proof. reflexivity. Qed.

Lemma bind_print {B} msg (k : unit -> M B) w :
  bind (print msg) k w = k tt (emit (EvPrint msg) w).
Proof. reflexivity. Qed.

Lemma Calls_step {A} always n (m : M A) w :
  Calls always n m -> is_Ok (m w).1 = true -> quiet_step n w (m w).2.
Proof.
  intros Hm Hok. destruct (Hm w) as (k & Hs & _ & Heq).
  rewrite <- Heq; [done|]. rewrite Hok. by destruct always.
Qed.

Lemma create_llm_ok w :
  has_key w -> exists w', create_llm w = (Ok tt, w') /\ quiet_step 0 w w'.
Proof.
  intros Hkey.
  assert ((create_llm w).1 = Ok tt) as Hfst.
  { unfold create_llm, bind, getenv. cbv beta iota zeta.
    unfold has_key in Hkey. rewrite bool_decide_eq_false_2 by done.
    unfold log, ret. by destruct (negb _). }
  exists (create_llm w).2. split.
  - rewrite <- Hfst. by destruct (create_llm w).
  - apply (Calls_step true 0 create_llm w Calls_create_llm). by rewrite Hfst.
Qed.

Lemma create_llm_no_key w :
  ~ has_key w -> (create_llm w).1 = Raise (SystemExit 1).
Proof.
  intros Hkey. unfold create_llm, bind, getenv. cbv beta iota zeta.
  unfold has_key in Hkey. apply dec_stable in Hkey.
  by rewrite bool_decide_eq_true_2.
Qed.

Lemma json_chain_fst name tpl vars done_msg defaults w :
  (json_chain name tpl vars done_msg defaults w).1
  = json_outcome (gateway (calls w) (format_prompt tpl vars)) done_msg defaults.
Proof.
  unfold json_chain, try_except, try_with, invoke_json, bind, invoke_llm, json_outcome.
  cbv beta iota zeta.
  destruct (gateway (calls w) (format_prompt tpl vars)) as [text|e]; cbv beta iota.
  - destruct (json_parse text) as [v|]; [|done].
    destruct v; try done. unfold expect_dict, ret, lift. cbv beta iota.
    destruct (done_msg d) as [msg|e]; [done|]. by destruct (is_Exception e).
  - by destruct (is_Exception e).
Qed.

(** A chain run with a key is its JSON chain run a few log records later. *)
Lemma run_call_fst c w :
  has_key w ->
  exists done_msg,
    (forall d, message_ok c d <-> is_Ok (done_msg d) = true)
    /\ (forall d e, done_msg d = Raise e -> is_Exception e = true)
    /\ (run_call c w).1
       = json_outcome (gateway (calls w) (prompt_of c)) done_msg (defaults_of c).
Proof.
  intros Hkey.
  destruct c; cbn [run_call prompt_of defaults_of message_ok];
    lazymatch goal with
    | |- context [Bot.analysis_chain] => unfold Bot.analysis_chain
    | |- context [Bot.tools_selection_chain] => unfold Bot.tools_selection_chain
    | |- context [Bot.structure_chain] => unfold Bot.structure_chain
    | |- context [Bot.review_chain] => unfold Bot.review_chain
    | |- context [Post.analysis_chain] => unfold Post.analysis_chain
    | |- context [Post.style_selection_chain] => unfold Post.style_selection_chain
    | |- context [Post.structure_chain] => unfold Post.structure_chain
    | |- context [Post.review_chain] => unfold Post.review_chain
    end;
    rewrite !bind_log;
    lazymatch goal with
    | |- context [bind create_llm ?k ?w0] =>
      destruct (create_llm_ok w0 Hkey) as (w1 & E & Hq);
      rewrite (bind_ok _ _ _ _ _ E);
      pose proof (qs_calls _ _ _ Hq) as Hc; cbn [calls emit] in Hc;
      rewrite Nat.add_0_r in Hc
    end;
    lazymatch goal with
    | |- context [json_chain ?n ?t ?v ?f ?dd ?w'] =>
      exists f; rewrite json_chain_fst, Hc
    end;
    (split; [|split; [|done]]).
  all: try (intros; done).
  - intros d. destruct (dget d "headline" "N/A"); done.
  - intros d e. destruct (dget d "headline" "N/A"); try done; by intros [= <-].
Qed.

Lemma Calls_run_call c : Calls false 1 (run_call c).
Proof.
  destruct c; cbn [run_call];
    [ apply Calls_bot_analysis | apply Calls_bot_tools | apply Calls_bot_structure
    | apply Calls_bot_review | apply Calls_post_analysis | apply Calls_post_style
    | apply Calls_post_structure | apply Calls_post_review ].
Qed.

Lemma Calls_run_generation c : Calls false 1 (run_generation c).
Proof.
  destruct c; cbn [run_generation]; [apply Calls_bot_code | apply Calls_post_content].
Qed.

(** A chain that returns has made one call and touched nothing else. *)
Lemma run_call_returns c w d :
  (run_call c w).1 = Ok d ->
  exists w', run_call c w = (Ok d, w') /\ quiet_step 1 w w'.
Proof.
  intros Hfst. exists (run_call c w).2. split.
  - rewrite <- Hfst. by destruct (run_call c w).
  - apply (Calls_step false 1 _ w (Calls_run_call c)). by rewrite Hfst.
Qed.

Lemma run_call_fallback c w text :
  has_key w -> gateway (calls w) (prompt_of c) = Ok text ->
  json_parse text = None
  \/ (exists v, json_parse text = Some v /\ forall d, v <> VDict d)
  \/ (exists d, json_parse text = Some (VDict d) /\ ~ message_ok c d) ->
  (run_call c w).1 = Ok (defaults_of c).
Proof.
  intros Hkey Hreply Hbad.
  destruct (run_call_fst c w Hkey) as (done_msg & Hok & Hraise & ->).
  rewrite Hreply. unfold json_outcome.
  destruct Hbad as [-> | [(v & -> & Hv) | (d & -> & Hd)]]; [done| |].
  - destruct v; try done. by destruct (Hv d).
  - destruct (done_msg d) as [msg|e] eqn:E.
    + destruct Hd. apply Hok. by rewrite E.
    + by rewrite (Hraise d e E).
Qed.

Lemma run_call_decoded c w text d :
  has_key w -> gateway (calls w) (prompt_of c) = Ok text ->
  json_parse text = Some (VDict d) -> message_ok c d ->
  (run_call c w).1 = Ok d.
Proof.
  intros Hkey Hreply Hparse Hmsg.
  destruct (run_call_fst c w Hkey) as (done_msg & Hok & Hraise & ->).
  rewrite Hreply. unfold json_outcome. rewrite Hparse.
  apply Hok in Hmsg. by destruct (done_msg d).
Qed.

(** A failure of the model inside a JSON chain: caught with every other
    [Exception]. *)
Lemma run_call_gateway_error c w e :
  has_key w -> gateway (calls w) (prompt_of c) = Raise e ->
  (run_call c w).1 = if is_Exception e then Ok (defaults_of c) else Raise e.
Proof.
  intros Hkey Hreply.
  destruct (run_call_fst c w Hkey) as (done_msg & Hok & Hraise & ->).
  by rewrite Hreply.
Qed.

(** The generating chains have no [try]: they end as the model's call does. *)
Lemma run_generation_fst c w :
  has_key w ->
  (run_generation c w).1
  = match gateway (calls w) (generation_prompt c) with
    | Ok content =>
      match c with
      | BotCode _ _ _ _ => unwrap content
      | PostContent _ _ _ _ _ => Ok (strip content)
      end
    | Raise e => Raise e
    end.
Proof.
  intros Hkey.
  destruct c; cbn [run_generation generation_prompt];
    [unfold Bot.code_chain | unfold Post.content_generation_chain];
    rewrite !bind_log;
    lazymatch goal with
    | |- context [bind create_llm ?k ?w0] =>
      destruct (create_llm_ok w0 Hkey) as (w1 & E & Hq);
      rewrite (bind_ok _ _ _ _ _ E);
      pose proof (qs_calls _ _ _ Hq) as Hc; cbn [calls emit] in Hc;
      rewrite Nat.add_0_r in Hc
    end;
    unfold bind, invoke_llm, lift; cbv beta iota zeta; rewrite Hc;
    destruct (gateway (calls w) _) as [content|e]; cbv beta iota; try done.
  by destruct (unwrap content).
Qed.

End ChainOutcomes.

(** ** Runs that cannot fail: the model always answers *)

Section Returning.
Context `{Collaborators}.

Lemma has_key_step n w w' : quiet_step n w w' -> has_key w -> has_key w'.
Proof. intros Hq. unfold has_key. by rewrite (qs_env _ _ _ Hq). Qed.

Lemma Returns_ret {A} (Q : A -> Prop) a : Q a -> Returns Q (ret a).
Proof. intros Qa w Hkey. by exists a. Qed.

Lemma Returns_lift {A} (a : A) : Returns (fun _ => True) (lift (Ok a)).
Proof. intros w Hkey. by exists a. Qed.

Lemma Returns_print msg : Returns (fun _ => True) (print msg).
Proof. intros w Hkey. by exists tt. Qed.

Lemma Returns_log lvl msg : Returns (fun _ => True) (log lvl msg).
Proof. intros w Hkey. by exists tt. Qed.

Lemma Returns_bind {A B} (Q : A -> Prop) (Q' : B -> Prop) (m : M A) (k : A -> M B) :
  Returns Q m -> (forall a, Q a -> Returns Q' (k a)) -> Returns Q' (bind m k).
Proof.
  intros Hm Hk w Hkey. destruct (Hm w Hkey) as (a & E & Qa & Hkey1).
  unfold bind. destruct (m w) as [r w1]. simpl in *. subst r.
  by apply Hk.
Qed.

Hypothesis replies : forall n p, is_Ok (gateway n p) = true.

Lemma Returns_run_call c : Returns (message_ok c) (run_call c).
Proof.
  intros w Hkey.
  assert (exists d, (run_call c w).1 = Ok d /\ message_ok c d) as (d & Hd & Hm).
  { destruct (run_call_fst c w Hkey) as (done_msg & Hok & Hraise & ->).
    pose proof (replies (calls w) (prompt_of c)) as Hr.
    destruct (gateway (calls w) (prompt_of c)) as [text|]; [|done].
    assert (message_ok c (defaults_of c)) as Hdef by (by destruct c).
    unfold json_outcome. destruct (json_parse text) as [v|]; [|eauto].
    destruct v; eauto.
    destruct (done_msg d) as [msg|e] eqn:E.
    - exists d. split; [done|]. apply Hok. by rewrite E.
    - rewrite (Hraise d e E). eauto. }
  destruct (run_call_returns c w d Hd) as (w' & E & Hq).
  exists d. rewrite E. split; [done|]. split; [done|].
  by apply (has_key_step 1 w).
Qed.

Lemma Returns_run_generation c : Returns (fun _ => True) (run_generation c).
Proof.
  intros w Hkey.
  assert (exists a, (run_generation c w).1 = Ok a) as (a & Ha).
  { rewrite (run_generation_fst c w Hkey).
    pose proof (replies (calls w) (generation_prompt c)) as Hr.
    destruct (gateway (calls w) (generation_prompt c)) as [content|]; [|done].
    destruct c; [apply unwrap_total | eauto]. }
  exists a. split; [done|]. split; [done|].
  eapply (has_key_step 1 w); [|done].
  apply (Calls_step false 1 _ w (Calls_run_generation c)). by rewrite Ha.
Qed.

End Returning.

Ltac returns :=
  repeat lazymatch goal with
    | |- Returns _ (bind _ _) => eapply Returns_bind; [|intros ? ?]
    | |- Returns _ (print _) => apply Returns_print
    | |- Returns _ (log _ _) => apply Returns_log
    | |- Returns _ (lift (Ok _)) => apply Returns_lift
    | |- Returns _ (ret _) => by apply Returns_ret
    | |- Returns _ (if ?c then _ else _) => destruct c
    | Hr : (forall n p, is_Ok (gateway n p) = true) |- Returns _ (Bot.analysis_chain ?d) =>
      apply (Returns_run_call Hr (BotAnalysis d))
    | Hr : (forall n p, is_Ok (gateway n p) = true) |- Returns _ (Bot.tools_selection_chain ?a ?d) =>
      apply (Returns_run_call Hr (BotTools a d))
    | Hr : (forall n p, is_Ok (gateway n p) = true) |- Returns _ (Bot.structure_chain ?a ?t ?d) =>
      apply (Returns_run_call Hr (BotStructure a t d))
    | Hr : (forall n p, is_Ok (gateway n p) = true) |- Returns _ (Bot.review_chain ?c) =>
      apply (Returns_run_call Hr (BotReview c))
    | Hr : (forall n p, is_Ok (gateway n p) = true) |- Returns _ (Bot.code_chain ?a ?t ?st ?d) =>
      apply (Returns_run_generation Hr (BotCode a t st d))
    | Hr : (forall n p, is_Ok (gateway n p) = true) |- Returns _ (Post.analysis_chain ?t ?src) =>
      apply (Returns_run_call Hr (PostAnalysis t src))
    | Hr : (forall n p, is_Ok (gateway n p) = true) |- Returns _ (Post.style_selection_chain ?a ?t) =>
      apply (Returns_run_call Hr (PostStyle a t))
    | Hr : (forall n p, is_Ok (gateway n p) = true) |- Returns _ (Post.structure_chain ?a ?sty ?t) =>
      apply (Returns_run_call Hr (PostStructure a sty t))
    | Hr : (forall n p, is_Ok (gateway n p) = true) |- Returns _ (Post.review_chain ?c) =>
      apply (Returns_run_call Hr (PostReview c))
    | Hr : (forall n p, is_Ok (gateway n p) = true) |- Returns _ (Post.content_generation_chain ?a ?sty ?st ?t ?src) =>
      apply (Returns_run_generation Hr (PostContent a sty st t src))
    end.

Section ReturningRuns.
Context `{Collaborators}.
Hypothesis replies : forall n p, is_Ok (gateway n p) = true.

(** With a key and a model that answers, the five chains of a run return,
    whatever the JSON parser makes of the answers. *)
Lemma Returns_generate_bot_stages d :
  Returns (fun _ => True) (Bot.generate_bot_stages d).
Proof. unfold Bot.generate_bot_stages. cbv zeta. returns. Qed.

Lemma Returns_generate_post_stages t src :
  Returns (fun _ => True) (Post.generate_post_stages t src).
Proof.
  unfold Post.generate_post_stages, Post.print_cut. cbv zeta. returns.
  all: lazymatch goal with
       | Hs : message_ok (PostStructure _ _ _) ?st |- _ =>
         cbn [message_ok] in Hs;
         destruct (dget st "headline" "N/A"); try done;
         cbn [py_len py_slice_to]
       end.
  all: returns.
Qed.

End ReturningRuns.

(** ** Runs in two worlds: the model answers a prompt the same way each time *)

Section Deterministic.
Context `{Collaborators}.

Lemma Det_ret {A} (a : A) : Det (ret a).
Proof. by intros w1 w2 Hs. Qed.

Lemma Det_raise {A} e : Det (@raise A e).
Proof. by intros w1 w2 Hs. Qed.

Lemma Det_lift {A} (r : Result A) : Det (lift r).
Proof. by intros w1 w2 Hs. Qed.

Lemma Det_print msg : Det (print msg).
Proof. by intros w1 w2 Hs. Qed.

Lemma Det_log lvl msg : Det (log lvl msg).
Proof. by intros w1 w2 Hs. Qed.

Lemma Det_bind {A B} (m : M A) (k : A -> M B) :
  Det m -> (forall a, Det (k a)) -> Det (bind m k).
Proof.
  intros Hm Hk w1 w2 Hs. unfold bind.
  destruct (Hm w1 w2 Hs) as [Hr Hs'].
  destruct (m w1) as [r1 v1], (m w2) as [r2 v2]. simpl in *. subst r2.
  destruct r1 as [a|e]; [by apply Hk | done].
Qed.

Lemma Det_try_with {A} (body : M A) catches handler :
  Det body -> (forall e, Det (handler e)) -> Det (try_with body catches handler).
Proof.
  intros Hm Hh w1 w2 Hs. unfold try_with.
  destruct (Hm w1 w2 Hs) as [Hr Hs'].
  destruct (body w1) as [r1 v1], (body w2) as [r2 v2]. simpl in *. subst r2.
  destruct r1 as [a|e]; [done|]. destruct (catches e); [by apply Hh | done].
Qed.

Lemma Det_create_llm : Det create_llm.
Proof.
  intros w1 w2 [Hk Hf]. split.
  - destruct (decide (has_key w1)) as [Hk1|Hk1].
    + destruct (create_llm_ok w1 Hk1) as (? & -> & _).
      destruct (create_llm_ok w2 (proj1 Hk Hk1)) as (? & -> & _). done.
    + rewrite (create_llm_no_key w1 Hk1), (create_llm_no_key w2); [done|].
      by rewrite <- Hk.
  - destruct (Calls_create_llm w1) as (k1 & Hq1 & _).
    destruct (Calls_create_llm w2) as (k2 & Hq2 & _).
    unfold same_setup, has_key.
    rewrite (qs_env _ _ _ Hq1), (qs_env _ _ _ Hq2).
    by rewrite (qs_fault _ _ _ Hq1), (qs_fault _ _ _ Hq2).
Qed.

Lemma Det_open_w path : Det (open_w path).
Proof.
  intros w1 w2 [Hk Hf]. unfold open_w. cbv zeta. rewrite Hf.
  destruct (fs_fault w2) eqn:E; (split; [done|]); (split; [exact Hk | cbn; congruence]).
Qed.

Lemma Det_f_write path data : Det (f_write path data).
Proof.
  intros w1 w2 [Hk Hf]. unfold f_write. cbv zeta. rewrite Hf.
  destruct (fs_fault w2) as [|e|[|k] e] eqn:E;
    (split; [done|]); (split; [exact Hk | cbn; congruence]).
Qed.

Hypothesis fixed : forall n n' p, gateway n p = gateway n' p.

Lemma Det_invoke_llm tpl vars : Det (invoke_llm tpl vars).
Proof.
  intros w1 w2 Hs. unfold invoke_llm. split; [apply fixed | done].
Qed.

End Deterministic.

Ltac det :=
  repeat lazymatch goal with
    | |- Det (ret _) => apply Det_ret
    | |- Det (raise _) => apply Det_raise
    | |- Det (lift _) => apply Det_lift
    | |- Det (print _) => apply Det_print
    | |- Det (log _ _) => apply Det_log
    | |- Det create_llm => apply Det_create_llm
    | |- Det (open_w _) => apply Det_open_w
    | |- Det (f_write _ _) => apply Det_f_write
    | Hf : (forall n n' p, gateway n p = gateway n' p) |- Det (invoke_llm _ _) =>
      apply (Det_invoke_llm Hf)
    | |- Det (bind _ _) => apply Det_bind; [|intros ?]
    | |- Det (try_with _ _ _) => apply Det_try_with; [|intros ?]
    | |- Det (if ?c then _ else _) => destruct c
    | |- Det (match ?x with _ => _ end) => destruct x
    end.

Section DeterministicRuns.
Context `{Collaborators}.
Hypothesis fixed : forall n n' p, gateway n p = gateway n' p.

Lemma Det_json_chain name tpl vars done_msg defaults :
  Det (json_chain name tpl vars done_msg defaults).
Proof. unfold json_chain, try_except, invoke_json, expect_dict. det. Qed.

Lemma Det_generate_bot_stages d : Det (Bot.generate_bot_stages d).
Proof.
  unfold Bot.generate_bot_stages, Bot.analysis_chain, Bot.tools_selection_chain,
    Bot.structure_chain, Bot.code_chain, Bot.review_chain.
  cbv zeta. det; apply (Det_json_chain).
Qed.

Lemma Det_generate_bot_save tools code : Det (Bot.generate_bot_save tools code).
Proof. unfold Bot.generate_bot_save, try_except. cbv zeta. det. Qed.

Lemma Det_generate_bot d : Det (Bot.generate_bot d).
Proof.
  unfold Bot.generate_bot. apply Det_bind; [apply Det_generate_bot_stages|].
  intros r. apply Det_generate_bot_save.
Qed.

Lemma Det_generate_post_stages t src : Det (Post.generate_post_stages t src).
Proof.
  unfold Post.generate_post_stages, Post.print_cut, Post.analysis_chain,
    Post.style_selection_chain, Post.structure_chain,
    Post.content_generation_chain, Post.review_chain.
  cbv zeta. det; apply (Det_json_chain).
Qed.

End DeterministicRuns.

(** ** The file write at the end of a run *)

Section SavePhase.
Context `{Collaborators}.

Lemma bind_open_w_ok {B} p (k : unit -> M B) w :
  (forall e, fs_fault w <> OpenFails e) ->
  bind (open_w p) k w = k tt (truncated p (emit (EvOpen p) w)).
Proof. intros Hf. unfold bind, open_w. destruct (fs_fault w); try done. by destruct (Hf e). Qed.

Lemma bind_open_w_fail {B} p (k : unit -> M B) w e :
  fs_fault w = OpenFails e -> bind (open_w p) k w = (Raise e, emit (EvOpen p) w).
Proof. intros Hf. unfold bind, open_w. by rewrite Hf. Qed.

Lemma bind_f_write_ok {B} p d (k : unit -> M B) w :
  fs_fault w = NoFault ->
  bind (f_write p d) k w = k tt (emit (EvWrite p d) (appended p d w)).
Proof. intros Hf. unfold bind, f_write. by rewrite Hf. Qed.

Lemma bind_f_write_fail {B} p d (k : unit -> M B) w e :
  fs_fault w = WriteFails 0 e -> bind (f_write p d) k w = (Raise e, w).
Proof. intros Hf. unfold bind, f_write. by rewrite Hf. Qed.

Lemma bind_f_write_later {B} p d (k : unit -> M B) w n e :
  fs_fault w = WriteFails (S n) e ->
  bind (f_write p d) k w
  = k tt (emit (EvWrite p d) (appended p d (set_fault (WriteFails n e) w))).
Proof. intros Hf. unfold bind, f_write. by rewrite Hf. Qed.


Lemma quiet_no_open evs :
  Forall (fun ev => quiet ev = true) evs -> count_events is_open evs = 0.
Proof.
  induction 1 as [|ev evs Hq _ IH]; [done|].
  simpl. rewrite IH. by destruct ev.
Qed.

Lemma OnlyReturns_ret {A} (a : A) : OnlyReturns a (ret a).
Proof. intros w c [= <-]. done. Qed.

Lemma OnlyReturns_bind {A B} (b : B) (m : M A) (k : A -> M B) :
  (forall a, OnlyReturns b (k a)) -> OnlyReturns b (bind m k).
Proof.
  intros Hk w c. unfold bind. destruct (m w) as [[a|e] w1]; [apply Hk | done].
Qed.

Ltac in_events :=
  cbn [app]; repeat first [ apply list_elem_of_here | apply list_elem_of_further ].

Ltac trace_leaf :=
  cbn [trace emit appended truncated set_files set_fault snd fst files fs_fault];
  rewrite <- ?app_assoc; eexists; split; [reflexivity|];
  cbn [app count_events is_open is_gateway];
  split; [reflexivity|]; split; [reflexivity|].

Lemma generate_bot_save_spec tools code w :
  exists evs,
    trace (Bot.generate_bot_save tools code w).2 = trace w ++ evs
    /\ count_events is_open evs = 1
    /\ count_events is_gateway evs = 0
    /\ (forall c, (Bot.generate_bot_save tools code w).1 = Ok c -> c = code)
    /\ (fs_fault w = NoFault ->
        files (Bot.generate_bot_save tools code w).2
        = <[Bot.output_file := code]> (files w))
    /\ (forall e, refuses 1 (fs_fault w) e -> is_Exception e = true ->
          (Bot.generate_bot_save tools code w).1 = Ok code
          /\ EvLog ERROR (lit "Ошибка при сохранении файла: " ++ exn_str e) ∈ evs
          /\ EvPrint (nl ++ lit "❌ Ошибка при сохранении файла: " ++ exn_str e) ∈ evs).
Proof.
  unfold Bot.generate_bot_save.
  set (persist := try_except _ _).
  assert (exists evs, trace (persist w).2 = trace w ++ evs
     /\ count_events is_open evs = 1 /\ count_events is_gateway evs = 0
     /\ (fs_fault w = NoFault ->
         (persist w).1 = Ok true
         /\ files (persist w).2 = <[Bot.output_file := code]> (files w))
     /\ (forall e, refuses 1 (fs_fault w) e -> is_Exception e = true ->
         (persist w).1 = Ok false
         /\ EvLog ERROR (lit "Ошибка при сохранении файла: " ++ exn_str e) ∈ evs
         /\ EvPrint (nl ++ lit "❌ Ошибка при сохранении файла: " ++ exn_str e) ∈ evs))
    as (evs1 & Ht1 & Ho1 & Hg1 & Hok1 & Hfail1).
  { subst persist. unfold try_except, try_with.
    destruct (fs_fault w) as [|e|[|k] e] eqn:F.
    - rewrite bind_open_w_ok by (intros e; rewrite F; done).
      rewrite bind_f_write_ok by exact F.
      rewrite bind_log. unfold ret. cbv beta iota.
      trace_leaf. split.
      + intros _. split; [done|].
        rewrite lookup_insert_eq. cbn [default app]. by rewrite insert_insert_eq.
      + intros e [?|(k & ? & ?)]; done.
    - rewrite (bind_open_w_fail _ _ _ e) by exact F.
      destruct (is_Exception e) eqn:E.
      + rewrite bind_log, bind_print. unfold ret. trace_leaf. split; [done|].
        intros e' [[= <-]|(k & ? & ?)] _; [|done].
        split; [done|]. split; in_events.
      + trace_leaf. split; [done|].
        intros e' [[= <-]|(k & ? & ?)]; [congruence|done].
    - rewrite bind_open_w_ok by (intros e'; rewrite F; done).
      rewrite (bind_f_write_fail _ _ _ _ e) by exact F.
      destruct (is_Exception e) eqn:E.
      + rewrite bind_log, bind_print. unfold ret. trace_leaf. split; [done|].
        intros e' [?|(k & ? & [= <- <-])] _; [done|].
        split; [done|]. split; in_events.
      + trace_leaf. split; [done|].
        intros e' [?|(k & ? & [= <- <-])]; [done|congruence].
    - rewrite bind_open_w_ok by (intros e'; rewrite F; done).
      rewrite (bind_f_write_later _ _ _ _ k e) by exact F.
      rewrite bind_log. unfold ret. cbv beta iota.
      trace_leaf. split; [done|].
      intros e' [?|(k' & ? & [= <- <-])]; [done|lia]. }
  destruct (persist w) as [[[|]|e] w1] eqn:E;
    [rewrite (bind_ok _ _ _ _ _ E) .. | rewrite (bind_raise _ _ _ _ _ E)];
    cbn [negb fst snd] in *.
  - (* saved *)
    match goal with |- context [trace (?t w1).2] => set (tail := t) end.
    assert (Calls true 0 tail) as Hc by (subst tail; cbv zeta; calls_exact).
    assert (OnlyReturns code tail) as Hr
      by (subst tail; cbv zeta; repeat (apply OnlyReturns_bind; intros ?);
          apply OnlyReturns_ret).
    destruct (Hc w1) as (k & Hq & Hk & _). assert (k = 0) as -> by lia.
    destruct (qs_trace _ _ _ Hq) as (evs2 & Ht2 & Hq2 & Hg2).
    exists (evs1 ++ evs2). rewrite Ht2, Ht1, app_assoc, !count_events_app.
    rewrite Ho1, Hg1, Hg2, (quiet_no_open _ Hq2).
    split; [done|]. split; [done|]. split; [done|]. split; [apply Hr|].
    split.
    + intros Hf. rewrite (qs_files _ _ _ Hq). by apply Hok1.
    + intros e He Hx. by destruct (Hfail1 e He Hx) as [? _].
  - (* not saved *)
    exists evs1. split; [done|]. split; [done|]. split; [done|].
    split; [by intros c [= <-]|]. split.
    + intros Hf. by destruct (Hok1 Hf).
    + intros e He Hx. destruct (Hfail1 e He Hx) as (_ & ? & ?). done.
  - exists evs1. split; [done|]. split; [done|]. split; [done|].
    split; [done|]. split.
    + intros Hf. by destruct (Hok1 Hf).
    + intros e' He Hx. by destruct (Hfail1 e' He Hx).
Qed.

Lemma bind_now {B} (k : DateTime -> M B) w : bind now k w = k (clock w) w.
Proof. reflexivity. Qed.

Ltac write_step F :=
  first
    [ rewrite bind_f_write_ok by exact F
    | erewrite bind_f_write_later by (first [exact F | reflexivity])
    | erewrite bind_f_write_fail by (first [exact F | reflexivity]) ].

Lemma generate_post_save_spec topic post_content w :
  exists evs,
    trace (Post.generate_post_save topic post_content w).2 = trace w ++ evs
    /\ count_events is_open evs = 1
    /\ count_events is_gateway evs = 0
    /\ (forall c, (Post.generate_post_save topic post_content w).1 = Ok c ->
           c = post_content)
    /\ (fs_fault w = NoFault ->
        files (Post.generate_post_save topic post_content w).2
        = <[Post.output_file := concat (Post.header topic (clock w)) ++ post_content]>
            (files w))
    /\ (forall e, refuses 4 (fs_fault w) e -> is_Exception e = true ->
          (Post.generate_post_save topic post_content w).1 = Ok post_content
          /\ EvLog ERROR (lit "Ошибка при сохранении файла: " ++ exn_str e) ∈ evs
          /\ EvPrint (nl ++ lit "❌ Ошибка при сохранении файла: " ++ exn_str e) ∈ evs).
Proof.
  unfold Post.generate_post_save.
  set (persist := try_except _ _).
  assert (exists evs, trace (persist w).2 = trace w ++ evs
     /\ count_events is_open evs = 1 /\ count_events is_gateway evs = 0
     /\ (fs_fault w = NoFault ->
         (persist w).1 = Ok true
         /\ files (persist w).2
            = <[Post.output_file := concat (Post.header topic (clock w)) ++ post_content]>
                (files w))
     /\ (forall e, refuses 4 (fs_fault w) e -> is_Exception e = true ->
         (persist w).1 = Ok false
         /\ EvLog ERROR (lit "Ошибка при сохранении файла: " ++ exn_str e) ∈ evs
         /\ EvPrint (nl ++ lit "❌ Ошибка при сохранении файла: " ++ exn_str e) ∈ evs))
    as (evs1 & Ht1 & Ho1 & Hg1 & Hok1 & Hfail1).
  { subst persist. unfold try_except, try_with.
    destruct (fs_fault w) as [|e|k e] eqn:F.
    - rewrite bind_open_w_ok by (intros e; rewrite F; done).
      write_step F. rewrite bind_now. do 3 write_step F.
      rewrite bind_log. unfold ret. cbv beta iota.
      trace_leaf. split.
      + intros _. split; [done|].
        rewrite !lookup_insert_eq.
        cbn [default from_option id app clock emit appended truncated set_files].
        rewrite !insert_insert_eq. f_equal.
        unfold Post.header. cbn [concat]. by rewrite app_nil_r, <- !app_assoc.
      + intros e [?|(k & ? & ?)]; done.
    - rewrite (bind_open_w_fail _ _ _ e) by exact F.
      destruct (is_Exception e) eqn:E.
      + rewrite bind_log, bind_print. unfold ret. trace_leaf. split; [done|].
        intros e' [[= <-]|(k & ? & ?)] _; [|done].
        split; [done|]. split; in_events.
      + trace_leaf. split; [done|].
        intros e' [[= <-]|(k & ? & ?)]; [congruence|done].
    - rewrite bind_open_w_ok by (intros e'; rewrite F; done).
      destruct k as [|[|[|[|k]]]];
        repeat first [ write_step F | rewrite bind_now ].
      5: { rewrite bind_log. unfold ret. cbv beta iota.
           trace_leaf. split; [done|].
           intros e' [?|(k' & ? & [= <- <-])]; [done|lia]. }
      all: destruct (is_Exception e) eqn:E;
        [ rewrite bind_log, bind_print; unfold ret; trace_leaf; (split; [done|]);
          intros e' [?|(k' & ? & [= <- <-])] _; [done|];
          split; [done|]; split; in_events
        | trace_leaf; (split; [done|]);
          intros e' [?|(k' & ? & [= <- <-])]; [done|congruence] ]. }
  destruct (persist w) as [[[|]|e] w1] eqn:E;
    [rewrite (bind_ok _ _ _ _ _ E) .. | rewrite (bind_raise _ _ _ _ _ E)];
    cbn [negb fst snd] in *.
  - (* saved *)
    match goal with |- context [trace (?t w1).2] => set (tail := t) end.
    assert (Calls true 0 tail) as Hc by (subst tail; cbv zeta; calls_exact).
    assert (OnlyReturns post_content tail) as Hr
      by (subst tail; cbv zeta; repeat (apply OnlyReturns_bind; intros ?);
          apply OnlyReturns_ret).
    destruct (Hc w1) as (k & Hq & Hk & _). assert (k = 0) as -> by lia.
    destruct (qs_trace _ _ _ Hq) as (evs2 & Ht2 & Hq2 & Hg2).
    exists (evs1 ++ evs2). rewrite Ht2, Ht1, app_assoc, !count_events_app.
    rewrite Ho1, Hg1, Hg2, (quiet_no_open _ Hq2).
    split; [done|]. split; [done|]. split; [done|]. split; [apply Hr|].
    split.
    + intros Hf. rewrite (qs_files _ _ _ Hq). by apply Hok1.
    + intros e He Hx. by destruct (Hfail1 e He Hx) as [? _].
  - (* not saved *)
    exists evs1. split; [done|]. split; [done|]. split; [done|].
    split; [by intros c [= <-]|]. split.
    + intros Hf. by destruct (Hok1 Hf).
    + intros e He Hx. destruct (Hfail1 e He Hx) as (_ & ? & ?). done.
  - exists evs1. split; [done|]. split; [done|]. split; [done|].
    split; [done|]. split.
    + intros Hf. by destruct (Hok1 Hf).
    + intros e' He Hx. by destruct (Hfail1 e' He Hx).
Qed.
End SavePhase.

(** ** The claims about the chains *)

Section ChainClaims.
Context `{Collaborators}.

Lemma fields_are_strings_message_ok c d : fields_are_strings c d -> message_ok c d.
Proof.
  intros Hf. destruct c; try done. cbn [message_ok]. unfold dget, dict_get.
  destruct (d !! lit "headline") as [v|] eqn:E; [|done].
  destruct (Hf (lit "headline") v) as [s ->]; [vm_compute; eauto | done | done].
Qed.

(** C2.  A JSON chain whose model answer cannot be decoded (the parser
    raises, or hands back something that is not a record, or a record the
    chain cannot read) returns its declared default mapping: the failure
    stays inside the chain, which has called the model once and touched
    no file.  So, with a key and a model that answers, the five chains of
    a run all return, whatever the parser makes of the answers. *)
Theorem decode_failure_gives_defaults :
  (forall (c : StructuredCall) (w : World) (text : str),
      has_key w ->
      gateway (calls w) (prompt_of c) = Ok text ->
      json_parse text = None
      \/ (exists v, json_parse text = Some v /\ forall d, v <> VDict d)
      \/ (exists d, json_parse text = Some (VDict d) /\ ~ message_ok c d) ->
      exists w', run_call c w = (Ok (defaults_of c), w') /\ quiet_step 1 w w')
  /\ ((forall n p, is_Ok (gateway n p) = true) ->
      forall w, has_key w ->
        (forall d, is_Ok (Bot.generate_bot_stages d w).1 = true)
        /\ (forall t src, is_Ok (Post.generate_post_stages t src w).1 = true)).
Proof.
  split.
  - intros c w text Hkey Hreply Hbad. apply run_call_returns.
    by apply (run_call_fallback c w text).
  - intros Hreplies w Hkey. split.
    + intros d.
      destruct (Returns_generate_bot_stages Hreplies d w Hkey) as (a & -> & _). done.
    + intros t src.
      destruct (Returns_generate_post_stages Hreplies t src w Hkey) as (a & -> & _). done.
Qed.

(** C6.  A JSON chain whose model answer decodes to a record with string
    fields returns that record as it is: no default replaces a key the
    record has, none fills a key it lacks; a missing key gets its fallback
    only where a caller reads it with [.get]. *)
Theorem decoded_fields_kept (c : StructuredCall) (w : World) (text : str) (d : dict) :
  has_key w ->
  gateway (calls w) (prompt_of c) = Ok text ->
  json_parse text = Some (VDict d) ->
  fields_are_strings c d ->
  (exists w', run_call c w = (Ok d, w') /\ quiet_step 1 w w')
  /\ (forall k dflt, d !! lit k = None -> dict_get d k dflt = dflt)
  /\ (forall k v dflt, d !! lit k = Some v -> dict_get d k dflt = v).
Proof.
  intros Hkey Hreply Hparse Hfields. split; [|split].
  - apply run_call_returns.
    apply (run_call_decoded c w text d); try done.
    by apply fields_are_strings_message_ok.
  - intros k dflt Hk. unfold dict_get. by rewrite Hk.
  - intros k v dflt Hk. unfold dict_get. by rewrite Hk.
Qed.

End ChainClaims.

Lemma decode_failure_gives_defaults_witness :
  (exists w',
      @run_call (stub None (lit "sorry")) (BotTools ∅ (lit "ping bot")) world0
      = (Ok Bot.tools_defaults, w')
      /\ quiet_step 1 world0 w')
  /\ (forall d, is_Ok (@Bot.generate_bot_stages (stub None (lit "sorry")) d world0).1 = true)
  /\ (forall t src,
        is_Ok (@Post.generate_post_stages (stub None (lit "sorry")) t src world0).1 = true).
Proof.
  split.
  - apply (proj1 (@decode_failure_gives_defaults (stub None (lit "sorry")))
             (BotTools ∅ (lit "ping bot")) world0 (lit "sorry")).
    + by vm_compute.
    + reflexivity.
    + left. reflexivity.
  - apply (proj2 (@decode_failure_gives_defaults (stub None (lit "sorry")))).
    + intros n p. reflexivity.
    + by vm_compute.
Defined.

Lemma decoded_fields_kept_witness :
  (exists w',
      @run_call (stub None (lit "{}")) (PostStructure ∅ ∅ (lit "AI")) world0
      = (Ok {[ lit "headline" := VStr (lit "Hi") ]}, w')
      /\ quiet_step 1 world0 w')
  /\ (forall k dflt,
        ({[ lit "headline" := VStr (lit "Hi") ]} : dict) !! lit k = None ->
        dict_get {[ lit "headline" := VStr (lit "Hi") ]} k dflt = dflt)
  /\ (forall k v dflt,
        ({[ lit "headline" := VStr (lit "Hi") ]} : dict) !! lit k = Some v ->
        dict_get {[ lit "headline" := VStr (lit "Hi") ]} k dflt = v).
Proof.
  apply (@decoded_fields_kept (stub None (lit "{}"))
           (PostStructure ∅ ∅ (lit "AI")) world0 (lit "{}")).
  - by vm_compute.
  - reflexivity.
  - reflexivity.
  - intros k v _ Hk. apply lookup_singleton_Some in Hk as [_ <-]. eauto.
Defined.

(** ** The claims about a whole run *)

Section RunClaims.
Context `{Collaborators}.

Lemma stages_frame {A} n (m : M A) w :
  Calls false n m ->
  files (m w).2 = files w /\ fs_fault (m w).2 = fs_fault w
  /\ clock (m w).2 = clock w
  /\ exists evs, trace (m w).2 = trace w ++ evs
                 /\ Forall (fun ev => quiet ev = true) evs
                 /\ count_events is_gateway evs <= n
                 /\ (is_Ok (m w).1 = true -> count_events is_gateway evs = n).
Proof.
  intros Hm. destruct (Hm w) as (k & Hq & Hk & Heq).
  destruct (qs_trace _ _ _ Hq) as (evs & Ht & Hquiet & Hg).
  split; [apply (qs_files _ _ _ Hq)|]. split; [apply (qs_fault _ _ _ Hq)|].
  split; [apply (qs_clock _ _ _ Hq)|].
  exists evs. split; [done|]. split; [done|]. split; [lia|].
  intros Hok. rewrite Hg. by apply Heq.
Qed.

(** C7.  When the file system refuses the save with an [Exception], at the
    [open] or at a write, the run still returns the artifact its chains
    produced, after logging and printing the error. *)
Theorem save_failure_returns_artifact :
  (forall d w tools code e,
      (Bot.generate_bot_stages d w).1 = Ok (tools, code) ->
      refuses 1 (fs_fault w) e -> is_Exception e = true ->
      (Bot.generate_bot d w).1 = Ok code
      /\ EvLog ERROR (lit "Ошибка при сохранении файла: " ++ exn_str e)
         ∈ trace (Bot.generate_bot d w).2
      /\ EvPrint (nl ++ lit "❌ Ошибка при сохранении файла: " ++ exn_str e)
         ∈ trace (Bot.generate_bot d w).2)
  /\ (forall t src w post_content e,
      (Post.generate_post_stages t src w).1 = Ok post_content ->
      refuses 4 (fs_fault w) e -> is_Exception e = true ->
      (Post.generate_post t src w).1 = Ok post_content
      /\ EvLog ERROR (lit "Ошибка при сохранении файла: " ++ exn_str e)
         ∈ trace (Post.generate_post t src w).2
      /\ EvPrint (nl ++ lit "❌ Ошибка при сохранении файла: " ++ exn_str e)
         ∈ trace (Post.generate_post t src w).2).
Proof.
  split.
  - intros d w tools code e Hst Href Hexn.
    destruct (stages_frame 5 _ w (Calls_generate_bot_stages d)) as (_ & Hf & _).
    unfold Bot.generate_bot.
    destruct (Bot.generate_bot_stages d w) as [r w1] eqn:E.
    cbn [fst snd] in *. subst r. rewrite (bind_ok _ _ _ _ _ E). cbn [fst snd].
    destruct (generate_bot_save_spec tools code w1)
      as (evs & Ht & _ & _ & _ & _ & Hfail).
    rewrite Hf in Hfail. destruct (Hfail e Href Hexn) as (Hr & Hlog & Hprint).
    rewrite Ht. split; [done|]. split; apply elem_of_app; by right.
  - intros t src w post_content e Hst Href Hexn.
    destruct (stages_frame 5 _ w (Calls_generate_post_stages t src)) as (_ & Hf & _).
    unfold Post.generate_post.
    destruct (Post.generate_post_stages t src w) as [r w1] eqn:E.
    cbn [fst snd] in *. subst r. rewrite (bind_ok _ _ _ _ _ E).
    destruct (generate_post_save_spec t post_content w1)
      as (evs & Ht & _ & _ & _ & _ & Hfail).
    rewrite Hf in Hfail. destruct (Hfail e Href Hexn) as (Hr & Hlog & Hprint).
    rewrite Ht. split; [done|]. split; apply elem_of_app; by right.
Qed.

(** C8.  The events of a run are those of its chains, none of which
    touches a file, followed by those of the save.  The save opens the
    output file once and calls the model no more; it takes place only when
    all five chains, the review last, have made their call and returned.
    After a save without fault the output file holds what the run wrote and
    nothing of what it held before. *)
Theorem saved_once_after_review :
  (forall d w, exists evs1 evs2,
      trace (Bot.generate_bot d w).2 = trace w ++ evs1 ++ evs2
      /\ Forall (fun ev => quiet ev = true) evs1
      /\ count_events is_open evs2 <= 1
      /\ count_events is_gateway evs2 = 0
      /\ (evs2 <> [] -> count_events is_gateway evs1 = 5)
      /\ (forall code, fs_fault w = NoFault ->
            (Bot.generate_bot d w).1 = Ok code ->
            files (Bot.generate_bot d w).2 = <[Bot.output_file := code]> (files w)))
  /\ (forall t src w, exists evs1 evs2,
      trace (Post.generate_post t src w).2 = trace w ++ evs1 ++ evs2
      /\ Forall (fun ev => quiet ev = true) evs1
      /\ count_events is_open evs2 <= 1
      /\ count_events is_gateway evs2 = 0
      /\ (evs2 <> [] -> count_events is_gateway evs1 = 5)
      /\ (forall post_content, fs_fault w = NoFault ->
            (Post.generate_post t src w).1 = Ok post_content ->
            files (Post.generate_post t src w).2
            = <[Post.output_file := concat (Post.header t (clock w)) ++ post_content]>
                (files w))).
Proof.
  split.
  - intros d w.
    destruct (stages_frame 5 _ w (Calls_generate_bot_stages d))
      as (Hfiles & Hfault & _ & evs1 & Ht1 & Hq1 & _ & Hg1).
    unfold Bot.generate_bot.
    destruct (Bot.generate_bot_stages d w) as [[[tools code]|e] w1] eqn:E;
      cbn [fst snd] in *.
    + rewrite (bind_ok _ _ _ _ _ E). cbn [fst snd].
      destruct (generate_bot_save_spec tools code w1)
        as (evs2 & Ht2 & Ho2 & Hg2 & Hret & Hok & _).
      exists evs1, evs2. rewrite Ht2, Ht1, <- app_assoc.
      split; [done|]. split; [done|]. split; [lia|]. split; [done|].
      split; [intros _; by apply Hg1|].
      intros c Hnf Hc. apply Hret in Hc as ->.
      rewrite Hok, Hfiles; [done | congruence].
    + rewrite (bind_raise _ _ _ _ _ E). cbn [fst snd].
      exists evs1, []. rewrite app_nil_r.
      split; [done|]. split; [done|]. split; [simpl; lia|]. by split.
  - intros t src w.
    destruct (stages_frame 5 _ w (Calls_generate_post_stages t src))
      as (Hfiles & Hfault & Hclock & evs1 & Ht1 & Hq1 & _ & Hg1).
    unfold Post.generate_post.
    destruct (Post.generate_post_stages t src w) as [[post_content|e] w1] eqn:E;
      cbn [fst snd] in *.
    + rewrite (bind_ok _ _ _ _ _ E).
      destruct (generate_post_save_spec t post_content w1)
        as (evs2 & Ht2 & Ho2 & Hg2 & Hret & Hok & _).
      exists evs1, evs2. rewrite Ht2, Ht1, <- app_assoc.
      split; [done|]. split; [done|]. split; [lia|]. split; [done|].
      split; [intros _; by apply Hg1|].
      intros c Hnf Hc. apply Hret in Hc as ->.
      rewrite Hok, Hfiles, Hclock; [done | congruence].
    + rewrite (bind_raise _ _ _ _ _ E). cbn [fst snd].
      exists evs1, []. rewrite app_nil_r.
      split; [done|]. split; [done|]. split; [simpl; lia|]. by split.
Qed.

Lemma generate_bot_file d w tools code :
  (Bot.generate_bot_stages d w).1 = Ok (tools, code) ->
  fs_fault w = NoFault ->
  files (Bot.generate_bot d w).2 !! Bot.output_file = Some code.
Proof.
  intros Hst Hnf.
  destruct (stages_frame 5 _ w (Calls_generate_bot_stages d)) as (_ & Hf & _).
  unfold Bot.generate_bot.
  destruct (Bot.generate_bot_stages d w) as [r w1] eqn:E.
  cbn [fst snd] in *. subst r. rewrite (bind_ok _ _ _ _ _ E). cbn [fst snd].
  destruct (generate_bot_save_spec tools code w1) as (_ & _ & _ & _ & _ & Hok & _).
  rewrite Hok by congruence. apply lookup_insert_eq.
Qed.

Lemma generate_post_file t src w post_content :
  (Post.generate_post_stages t src w).1 = Ok post_content ->
  fs_fault w = NoFault ->
  files (Post.generate_post t src w).2 !! Post.output_file
  = Some (concat (Post.header t (clock w)) ++ post_content).
Proof.
  intros Hst Hnf.
  destruct (stages_frame 5 _ w (Calls_generate_post_stages t src))
    as (_ & Hf & Hclock & _).
  unfold Post.generate_post.
  destruct (Post.generate_post_stages t src w) as [r w1] eqn:E.
  cbn [fst snd] in *. subst r. rewrite (bind_ok _ _ _ _ _ E).
  destruct (generate_post_save_spec t post_content w1)
    as (_ & _ & _ & _ & _ & Hok & _).
  rewrite Hok by congruence. by rewrite lookup_insert_eq, Hclock.
Qed.

(** C9.  After a save without fault the output file of the post run is a
    header, made of the topic line, the line with the time of generation
    and a rule, followed by the post; the output file of the bot run is
    the unwrapped code and nothing else. *)
Theorem saved_file_contents :
  (forall d w tools code,
      (Bot.generate_bot_stages d w).1 = Ok (tools, code) ->
      fs_fault w = NoFault ->
      files (Bot.generate_bot d w).2 !! Bot.output_file = Some code)
  /\ (forall t src w post_content,
      (Post.generate_post_stages t src w).1 = Ok post_content ->
      fs_fault w = NoFault ->
      files (Post.generate_post t src w).2 !! Post.output_file
      = Some (lit "# ТЕМА: " ++ t ++ nl
              ++ lit "# Дата генерации: " ++ strftime (clock w) ++ nl
              ++ Post.bar ++ nl ++ nl
              ++ post_content)).
Proof.
  split; [exact generate_bot_file|].
  intros t src w post_content Hst Hnf.
  rewrite (generate_post_file t src w post_content Hst Hnf). f_equal.
  unfold Post.header. cbn [concat]. by rewrite app_nil_r, <- !app_assoc.
Qed.

End RunClaims.

Section TwoRuns.
Context `{Collaborators}.

Lemma generate_post_save_returns t post_content w :
  fs_fault w = NoFault ->
  (Post.generate_post_save t post_content w).1 = Ok post_content.
Proof.
  intros Hnf. unfold Post.generate_post_save.
  erewrite bind_ok; cycle 1.
  { unfold try_except, try_with.
    rewrite bind_open_w_ok by (intros e; rewrite Hnf; done).
    repeat first [ rewrite bind_f_write_ok by exact Hnf | rewrite bind_now ].
    rewrite bind_log. reflexivity. }
  cbn [negb]. by rewrite !bind_print.
Qed.

(** C3 (amended).  With a model that answers and answers a prompt the same
    way at every call, two runs on the same brief, each with a key and a
    file system without fault, return the same artifact.  The bot runs
    leave the same output file.  The post runs leave output files that
    consist of the header for the time each run read, followed by the same
    post: they are the same file when the two runs read the same time. *)
Theorem runs_agree (w1 w2 : World) :
  (forall n n' p, gateway n p = gateway n' p) ->
  (forall n p, is_Ok (gateway n p) = true) ->
  has_key w1 -> has_key w2 ->
  fs_fault w1 = NoFault -> fs_fault w2 = NoFault ->
  (forall d,
      (Bot.generate_bot d w1).1 = (Bot.generate_bot d w2).1
      /\ files (Bot.generate_bot d w1).2 !! Bot.output_file
         = files (Bot.generate_bot d w2).2 !! Bot.output_file)
  /\ (forall t src,
      (Post.generate_post t src w1).1 = (Post.generate_post t src w2).1
      /\ exists post_content,
          (Post.generate_post t src w1).1 = Ok post_content
          /\ files (Post.generate_post t src w1).2 !! Post.output_file
             = Some (concat (Post.header t (clock w1)) ++ post_content)
          /\ files (Post.generate_post t src w2).2 !! Post.output_file
             = Some (concat (Post.header t (clock w2)) ++ post_content)
          /\ (clock w1 = clock w2 ->
              files (Post.generate_post t src w1).2 !! Post.output_file
              = files (Post.generate_post t src w2).2 !! Post.output_file)).
Proof.
  intros Hfixed Hreplies Hk1 Hk2 Hf1 Hf2.
  assert (same_setup w1 w2) as Hs by (split; [tauto | congruence]).
  split.
  - intros d. split; [apply (Det_generate_bot Hfixed d w1 w2 Hs)|].
    destruct (Det_generate_bot_stages Hfixed d w1 w2 Hs) as [Hr _].
    destruct (Returns_generate_bot_stages Hreplies d w1 Hk1) as ([tools code] & E1 & _).
    rewrite E1 in Hr. symmetry in Hr.
    by rewrite (generate_bot_file d w1 tools code), (generate_bot_file d w2 tools code).
  - intros t src.
    destruct (Det_generate_post_stages Hfixed t src w1 w2 Hs) as [Hr _].
    destruct (Returns_generate_post_stages Hreplies t src w1 Hk1)
      as (post_content & E1 & _).
    rewrite E1 in Hr. symmetry in Hr.
    rewrite (generate_post_file t src w1 post_content E1 Hf1).
    rewrite (generate_post_file t src w2 post_content Hr Hf2).
    assert (forall v, fs_fault v = NoFault ->
              (Post.generate_post_stages t src v).1 = Ok post_content ->
              (Post.generate_post t src v).1 = Ok post_content) as Hrun.
    { intros v Hv Hst. unfold Post.generate_post.
      destruct (stages_frame 5 _ v (Calls_generate_post_stages t src)) as (_ & Hf & _).
      destruct (Post.generate_post_stages t src v) as [r v1] eqn:Ev.
      cbn [fst snd] in *. subst r. rewrite (bind_ok _ _ _ _ _ Ev).
      apply generate_post_save_returns. congruence. }
    rewrite (Hrun w1 Hf1 E1), (Hrun w2 Hf2 Hr).
    split; [done|]. exists post_content. split; [done|]. split; [done|].
    split; [done|]. by intros ->.
Qed.

End TwoRuns.

(** *** The start of [main] *)

Section Main.
Context `{Collaborators}.


End Main.

Section GatewayFailure.
Context `{Collaborators}.

Lemma stages_raise_bot d w e w1 :
  Bot.generate_bot_stages d w = (Raise e, w1) ->
  Bot.generate_bot d w = (Raise e, w1)
  /\ files w1 = files w
  /\ exists evs, trace w1 = trace w ++ evs /\ Forall (fun ev => quiet ev = true) evs.
Proof.
  intros E. unfold Bot.generate_bot. rewrite (bind_raise _ _ _ _ _ E).
  destruct (stages_frame 5 _ w (Calls_generate_bot_stages d))
    as (Hfiles & _ & _ & evs & Ht & Hq & _).
  rewrite E in Hfiles, Ht. eauto.
Qed.

Lemma stages_raise_post t src w e w1 :
  Post.generate_post_stages t src w = (Raise e, w1) ->
  Post.generate_post t src w = (Raise e, w1)
  /\ files w1 = files w
  /\ exists evs, trace w1 = trace w ++ evs /\ Forall (fun ev => quiet ev = true) evs.
Proof.
  intros E. unfold Post.generate_post. rewrite (bind_raise _ _ _ _ _ E).
  destruct (stages_frame 5 _ w (Calls_generate_post_stages t src))
    as (Hfiles & _ & _ & evs & Ht & Hq & _).
  rewrite E in Hfiles, Ht. eauto.
Qed.

(** X1.  A failure of the model call in the generating chain, which has
    no [try], leaves [code_chain] and [content_generation_chain] as it came,
    after a single call and with no file touched.  A run whose chains raise
    ends with that exception before the output file is opened.  No chain
    calls the model twice: there is no retry. *)
Theorem generation_failure_is_fatal :
  (forall c w e,
      has_key w -> gateway (calls w) (generation_prompt c) = Raise e ->
      (run_generation c w).1 = Raise e
      /\ files (run_generation c w).2 = files w
      /\ calls (run_generation c w).2 <= calls w + 1)
  /\ (forall d w e w1,
      Bot.generate_bot_stages d w = (Raise e, w1) ->
      Bot.generate_bot d w = (Raise e, w1)
      /\ files w1 = files w
      /\ exists evs, trace w1 = trace w ++ evs
                     /\ Forall (fun ev => quiet ev = true) evs)
  /\ (forall t src w e w1,
      Post.generate_post_stages t src w = (Raise e, w1) ->
      Post.generate_post t src w = (Raise e, w1)
      /\ files w1 = files w
      /\ exists evs, trace w1 = trace w ++ evs
                     /\ Forall (fun ev => quiet ev = true) evs)
  /\ (forall c, Calls false 1 (run_call c))
  /\ (forall c, Calls false 1 (run_generation c)).
Proof.
  split; [|split; [|split; [|split]]].
  - intros c w e Hkey Hreply.
    rewrite (run_generation_fst c w Hkey), Hreply. split; [done|].
    destruct (Calls_run_generation c w) as (k & Hq & Hk & _).
    rewrite (qs_files _ _ _ Hq), (qs_calls _ _ _ Hq). split; [done | lia].
  - exact stages_raise_bot.
  - exact stages_raise_post.
  - exact Calls_run_call.
  - exact Calls_run_generation.
Qed.

End GatewayFailure.

(** ** The claims on a stub *)

Lemma generation_failure_is_fatal_witness :
  (@run_generation (stub (Some 0) (lit "{}")) (BotCode ∅ ∅ ∅ (lit "ping bot")) world0).1
  = Raise (GatewayError (lit "connection refused"))
  /\ (exists w1,
        @Bot.generate_bot (stub (Some 3) (lit "{}")) (lit "ping bot") world0
        = (Raise (GatewayError (lit "connection refused")), w1)
        /\ files w1 = files world0)
  /\ (exists w1,
        @Post.generate_post (stub (Some 3) (lit "{}")) (lit "AI") [] world0
        = (Raise (GatewayError (lit "connection refused")), w1)
        /\ files w1 = files world0).
Proof.
  split; [|split].
  - apply (proj1 (@generation_failure_is_fatal (stub (Some 0) (lit "{}")))
             (BotCode ∅ ∅ ∅ (lit "ping bot")) world0).
    + by vm_compute.
    + reflexivity.
  - edestruct (proj1 (proj2 (@generation_failure_is_fatal (stub (Some 3) (lit "{}"))))
                 (lit "ping bot") world0) as (Hrun & Hfiles & _).
    + vm_compute. reflexivity.
    + eexists. split; [exact Hrun | exact Hfiles].
  - edestruct (proj1 (proj2 (proj2 (@generation_failure_is_fatal (stub (Some 3) (lit "{}")))))
                 (lit "AI") [] world0) as (Hrun & Hfiles & _).
    + vm_compute. reflexivity.
    + eexists. split; [exact Hrun | exact Hfiles].
Defined.

(** C1 (defect of the code).  The claim wants a failed model call to end
    the run; in the JSON chains it does not.  [chain.invoke] stands inside
    their [try ... except Exception], and the handler, written for answers
    that cannot be decoded (it logs a parsing error), returns the default
    mapping.  Here the third call of a run fails with a connection error:
    [structure_chain] logs it as a parsing error and returns its defaults,
    the run calls the model twice more, replaces the output file of an
    earlier run and returns, and [main] ends normally; the post run does
    the same.  One call later the same failure meets the generating chain,
    which has no [try], and is fatal as the claim says: the run raises, the
    earlier file stays and [main] exits with status 1. *)
Theorem gateway_failure_absorbed :
  ~ (forall (C : Collaborators) (c : StructuredCall) (w : World) (e : exn),
        has_key w -> gateway (calls w) (prompt_of c) = Raise e ->
        (run_call c w).1 = Raise e)
  /\ ((@Bot.generate_bot (stub (Some 2) (lit "{}")) (lit "ping bot") world0_rerun).1
      = Ok (lit "print(1)")
      /\ files (@Bot.generate_bot (stub (Some 2) (lit "{}")) (lit "ping bot") world0_rerun).2
           !! Bot.output_file
         = Some (lit "print(1)")
      /\ calls (@Bot.generate_bot (stub (Some 2) (lit "{}")) (lit "ping bot") world0_rerun).2
         = 5
      /\ warnings
           (trace (@Bot.generate_bot (stub (Some 2) (lit "{}")) (lit "ping bot")
                     world0_rerun).2)
         = [lit "Ошибка парсинга в structure_chain: connection refused. Используются значения по умолчанию"]
      /\ (@Bot.main (stub (Some 2) (lit "{}")) [lit "script_bot.py"; lit "ping bot"]
            world0_rerun).1
         = Ok tt)
  /\ ((@Post.generate_post (stub (Some 2) (lit "{}")) (lit "AI") [] world0_rerun).1
      = Ok (lit "Hello")
      /\ files (@Post.generate_post (stub (Some 2) (lit "{}")) (lit "AI") [] world0_rerun).2
           !! Post.output_file
         = Some (concat (Post.header (lit "AI") (clock world0_rerun)) ++ lit "Hello")
      /\ (@Post.main (stub (Some 2) (lit "{}")) [lit "script_post.py"; lit "AI"]
            world0_rerun).1
         = Ok tt)
  /\ ((@Bot.generate_bot (stub (Some 3) (lit "{}")) (lit "ping bot") world0_rerun).1
      = Raise (GatewayError (lit "connection refused"))
      /\ files (@Bot.generate_bot (stub (Some 3) (lit "{}")) (lit "ping bot") world0_rerun).2
           !! Bot.output_file
         = Some (lit "old bot")
      /\ (@Bot.main (stub (Some 3) (lit "{}")) [lit "script_bot.py"; lit "ping bot"]
            world0_rerun).1
         = Raise (SystemExit 1)).
Proof.
  split; [|split; [|split]].
  - intros Hall.
    specialize (Hall (stub (Some 0) (lit "{}")) (BotAnalysis (lit "ping bot")) world0
                  (GatewayError (lit "connection refused"))).
    assert (@has_key world0) as Hkey by (by vm_compute).
    specialize (Hall Hkey eq_refl). apply (f_equal is_Ok) in Hall.
    vm_compute in Hall. discriminate Hall.
  - split; [|split; [|split; [|split]]]; vm_compute; reflexivity.
  - split; [|split]; vm_compute; reflexivity.
  - split; [|split]; vm_compute; reflexivity.
Qed.

Lemma runs_agree_witness :
  (forall d,
      (@Bot.generate_bot (stub None (lit "{}")) d world0).1
      = (@Bot.generate_bot (stub None (lit "{}")) d world0_later).1
      /\ files (@Bot.generate_bot (stub None (lit "{}")) d world0).2 !! Bot.output_file
         = files (@Bot.generate_bot (stub None (lit "{}")) d world0_later).2
             !! Bot.output_file)
  /\ (forall t src,
      (@Post.generate_post (stub None (lit "{}")) t src world0).1
      = (@Post.generate_post (stub None (lit "{}")) t src world0_later).1
      /\ exists post_content,
          (@Post.generate_post (stub None (lit "{}")) t src world0).1 = Ok post_content
          /\ files (@Post.generate_post (stub None (lit "{}")) t src world0).2
               !! Post.output_file
             = Some (concat (Post.header t (clock world0)) ++ post_content)
          /\ files (@Post.generate_post (stub None (lit "{}")) t src world0_later).2
               !! Post.output_file
             = Some (concat (Post.header t (clock world0_later)) ++ post_content)
          /\ (clock world0 = clock world0_later ->
              files (@Post.generate_post (stub None (lit "{}")) t src world0).2
                !! Post.output_file
              = files (@Post.generate_post (stub None (lit "{}")) t src world0_later).2
                  !! Post.output_file)).
Proof.
  apply (@runs_agree (stub None (lit "{}")) world0 world0_later).
  - intros n n' p. reflexivity.
  - intros n p. reflexivity.
  - by vm_compute.
  - by vm_compute.
  - reflexivity.
  - reflexivity.
Defined.

(** C3 as stated fails for the post run: two runs a second apart leave
    different output files. *)
Lemma post_files_differ :
  ~ (forall (C : Collaborators) (w1 w2 : World) (t src : str),
        (forall n n' p, gateway n p = gateway n' p) ->
        (forall n p, is_Ok (gateway n p) = true) ->
        has_key w1 -> has_key w2 ->
        fs_fault w1 = NoFault -> fs_fault w2 = NoFault ->
        files (Post.generate_post t src w1).2 !! Post.output_file
        = files (Post.generate_post t src w2).2 !! Post.output_file).
Proof.
  intros Hall.
  specialize (Hall (stub None (lit "{}")) world0 world0_later (lit "AI") []).
  assert (@has_key world0) as Hk1 by (by vm_compute).
  assert (@has_key world0_later) as Hk2 by (by vm_compute).
  specialize (Hall (fun _ _ _ => eq_refl) (fun _ _ => eq_refl) Hk1 Hk2 eq_refl eq_refl).
  revert Hall.
  lazymatch goal with
  | |- ?P -> False => apply (proj1 (bool_decide_eq_false P))
  end.
  vm_compute. reflexivity.
Qed.

Lemma save_failure_returns_artifact_witness :
  ((@Bot.generate_bot (stub None (lit "{}")) (lit "ping bot") world0_readonly).1
   = Ok (lit "print(1)")
   /\ EvLog ERROR (lit "Ошибка при сохранении файла: "
                   ++ exn_str (OSError (lit "Permission denied")))
      ∈ trace (@Bot.generate_bot (stub None (lit "{}")) (lit "ping bot") world0_readonly).2
   /\ EvPrint (nl ++ lit "❌ Ошибка при сохранении файла: "
               ++ exn_str (OSError (lit "Permission denied")))
      ∈ trace (@Bot.generate_bot (stub None (lit "{}")) (lit "ping bot") world0_readonly).2)
  /\ ((@Post.generate_post (stub None (lit "{}")) (lit "AI") [] world0_disk_full).1
      = Ok (lit "Hello")
      /\ EvLog ERROR (lit "Ошибка при сохранении файла: "
                      ++ exn_str (OSError (lit "No space left on device")))
         ∈ trace (@Post.generate_post (stub None (lit "{}")) (lit "AI") [] world0_disk_full).2
      /\ EvPrint (nl ++ lit "❌ Ошибка при сохранении файла: "
                  ++ exn_str (OSError (lit "No space left on device")))
         ∈ trace (@Post.generate_post (stub None (lit "{}")) (lit "AI") [] world0_disk_full).2).
Proof.
  split.
  - eapply (proj1 (@save_failure_returns_artifact (stub None (lit "{}")))
              (lit "ping bot") world0_readonly).
    + vm_compute. reflexivity.
    + left. reflexivity.
    + reflexivity.
  - apply (proj2 (@save_failure_returns_artifact (stub None (lit "{}")))
             (lit "AI") [] world0_disk_full).
    + vm_compute. reflexivity.
    + right. exists 2. split; [lia | reflexivity].
    + reflexivity.
Defined.

Lemma saved_once_after_review_witness :
  (exists evs1 evs2,
      trace (@Bot.generate_bot (stub None (lit "{}")) (lit "ping bot") world0).2
      = trace world0 ++ evs1 ++ evs2
      /\ Forall (fun ev => quiet ev = true) evs1
      /\ count_events is_open evs2 <= 1
      /\ count_events is_gateway evs2 = 0
      /\ (evs2 <> [] -> count_events is_gateway evs1 = 5)
      /\ (forall code, fs_fault world0 = NoFault ->
            (@Bot.generate_bot (stub None (lit "{}")) (lit "ping bot") world0).1 = Ok code ->
            files (@Bot.generate_bot (stub None (lit "{}")) (lit "ping bot") world0).2
            = <[Bot.output_file := code]> (files world0)))
  /\ (exists evs1 evs2,
      trace (@Post.generate_post (stub None (lit "{}")) (lit "AI") [] world0).2
      = trace world0 ++ evs1 ++ evs2
      /\ Forall (fun ev => quiet ev = true) evs1
      /\ count_events is_open evs2 <= 1
      /\ count_events is_gateway evs2 = 0
      /\ (evs2 <> [] -> count_events is_gateway evs1 = 5)
      /\ (forall post_content, fs_fault world0 = NoFault ->
            (@Post.generate_post (stub None (lit "{}")) (lit "AI") [] world0).1
            = Ok post_content ->
            files (@Post.generate_post (stub None (lit "{}")) (lit "AI") [] world0).2
            = <[Post.output_file :=
                  concat (Post.header (lit "AI") (clock world0)) ++ post_content]>
                (files world0))).
Proof.
  split.
  - exact (proj1 (@saved_once_after_review (stub None (lit "{}"))) (lit "ping bot") world0).
  - exact (proj2 (@saved_once_after_review (stub None (lit "{}"))) (lit "AI") [] world0).
Defined.

Lemma saved_file_contents_witness :
  files (@Bot.generate_bot (stub None (lit "{}")) (lit "ping bot") world0).2
    !! Bot.output_file
  = Some (lit "print(1)")
  /\ files (@Post.generate_post (stub None (lit "{}")) (lit "AI") [] world0).2
       !! Post.output_file
     = Some (lit "# ТЕМА: " ++ lit "AI" ++ nl
             ++ lit "# Дата генерации: " ++ strftime (clock world0) ++ nl
             ++ Post.bar ++ nl ++ nl
             ++ lit "Hello").
Proof.
  split.
  - eapply (proj1 (@saved_file_contents (stub None (lit "{}"))) (lit "ping bot") world0).
    + vm_compute. reflexivity.
    + reflexivity.
  - apply (proj2 (@saved_file_contents (stub None (lit "{}"))) (lit "AI") [] world0).
    + vm_compute. reflexivity.
    + reflexivity.
Defined.

(** ** Further properties of the two scripts *)

Section StripFacts.
Implicit Types (s t a b sub : str).

Lemma lstrip_split s :
  exists a, s = a ++ lstrip s /\ Forall (fun c => is_space c = true) a.
Proof.
  induction s as [|c s (a & Ha & Hsp)]; [by exists []|].
  simpl. destruct (is_space c) eqn:E.
  - exists (c :: a). split; [by rewrite <- app_comm_cons, <- Ha | by constructor].
  - by exists [].
Qed.

Lemma lstrip_head s c : head (lstrip s) = Some c -> is_space c = false.
Proof.
  induction s as [|c' s IH]; [done|].
  simpl. destruct (is_space c') eqn:E; [done|]. by intros [= <-].
Qed.

Lemma rstrip_split s :
  exists b, s = rstrip s ++ b /\ Forall (fun c => is_space c = true) b.
Proof.
  unfold rstrip. destruct (lstrip_split (reverse s)) as (a & Ha & Hsp).
  exists (reverse a). split; [|by apply Forall_reverse].
  rewrite <- reverse_app, <- Ha. by rewrite reverse_involutive.
Qed.

Lemma rstrip_last s c : last (rstrip s) = Some c -> is_space c = false.
Proof. unfold rstrip. rewrite last_reverse. apply lstrip_head. Qed.

Lemma rstrip_head s c : head (rstrip s) = Some c -> head s = Some c.
Proof.
  destruct (rstrip_split s) as (b & Hb & _). rewrite Hb at 2.
  by destruct (rstrip s).
Qed.

Lemma strip_is_trimmed s : trimmed (strip s).
Proof.
  unfold strip. split.
  - intros c Hc. by apply rstrip_head, lstrip_head in Hc.
  - apply rstrip_last.
Qed.

(** [strip] removes white space at the two ends and nothing else. *)
Lemma strip_split s :
  exists a b, s = a ++ strip s ++ b
              /\ Forall (fun c => is_space c = true) a
              /\ Forall (fun c => is_space c = true) b.
Proof.
  destruct (lstrip_split s) as (a & Ha & Hsa).
  destruct (rstrip_split (lstrip s)) as (b & Hb & Hsb).
  exists a, b. unfold strip. by rewrite <- Hb.
Qed.

Lemma strip_idem s : strip (strip s) = strip s.
Proof. apply strip_trimmed, strip_is_trimmed. Qed.

(** A text without [sub] has no part with [sub]. *)
Lemma find_None_infix sub a s b : find sub (a ++ s ++ b) = None -> find sub s = None.
Proof.
  rewrite !find_None. intros Hn j.
  destruct (starts_with sub (drop j s)) eqn:E; [|done].
  destruct (decide (j <= length s)) as [Hj|Hj].
  - specialize (Hn (length a + j)).
    rewrite <- drop_drop, drop_app_length in Hn.
    rewrite drop_app_le in Hn by done.
    apply starts_with_prefix in E.
    assert (sub `prefix_of` drop j s ++ b) as Hp
      by (etrans; [exact E | by apply prefix_app_r]).
    apply starts_with_prefix in Hp. congruence.
  - rewrite drop_ge in E by lia. apply starts_with_nil_r in E. subst sub.
    specialize (Hn 0). by destruct (drop 0 (a ++ s ++ b)).
Qed.

Lemma find_None_strip sub s : find sub s = None -> find sub (strip s) = None.
Proof.
  destruct (strip_split s) as (a & b & Hs & _). intros Hn.
  rewrite Hs in Hn. by apply find_None_infix in Hn.
Qed.

Lemma find_before sub s : sub <> [] -> find sub (before sub s) = None.
Proof.
  intros Hsub. unfold before. destruct (find sub s) as [i|] eqn:F; [|done].
  by apply find_take_None.
Qed.

Lemma fenced_part_no_fence code r : fenced_part code = Ok r -> find FENCE r = None.
Proof.
  destruct (find TAG code) as [i|] eqn:FT.
  - rewrite (fenced_part_tagged _ _ FT). intros [= <-].
    apply find_before, FENCE_nonempty.
  - destruct (find FENCE code) as [i|] eqn:F.
    + rewrite (fenced_part_generic _ _ FT F). intros [= <-].
      apply find_before, FENCE_nonempty.
    + rewrite (fenced_part_plain _ F). by intros [= <-].
Qed.

Lemma unwrap_clean code r :
  unwrap code = Ok r -> trimmed r /\ contains FENCE r = false.
Proof.
  unfold unwrap. destruct (fenced_part code) as [r'|e] eqn:E; [|done].
  intros [= <-]. split; [apply strip_is_trimmed|].
  apply contains_false, find_None_strip. by apply (fenced_part_no_fence code).
Qed.

End StripFacts.

Section Inversion.
Context `{Collaborators}.

Lemma bind_inv {A B} (m : M A) (k : A -> M B) w b w' :
  bind m k w = (Ok b, w') -> exists a w1, m w = (Ok a, w1) /\ k a w1 = (Ok b, w').
Proof.
  unfold bind. destruct (m w) as [[a|e] w1]; [|done]. intros Hk. by exists a, w1.
Qed.

Lemma ret_inv {A} (a b : A) w w' : ret a w = (Ok b, w') -> b = a /\ w' = w.
Proof. by intros [= <- <-]. Qed.

Lemma quiet_run {A} (m : M A) w a w' :
  Calls true 0 m -> m w = (Ok a, w') -> quiet_step 0 w w'.
Proof.
  intros Hc E. replace w' with (m w).2 by (by rewrite E).
  apply (Calls_step true 0 m w Hc). by rewrite E.
Qed.



Lemma sent_refl w : sent [] w w.
Proof. exists []. by rewrite app_nil_r. Qed.



End Inversion.

(** Takes a run [H : bind m k w = (Ok b, w')] apart into the runs of its
    steps. *)
Ltac run_inv H :=
  lazymatch type of H with
  | bind _ _ _ = (Ok _, _) =>
    let a := fresh "a" in
    let w1 := fresh "w" in
    let Hm := fresh "Hm" in
    apply bind_inv in H as (a & w1 & Hm & H); cbv beta in H; run_inv H
  | _ => idtac
  end.

(** Replaces the runs of steps that call no model by what they leave
    unchanged. *)
Ltac quiet_runs :=
  repeat match goal with
    | Hm : ret _ _ = (Ok _, _) |- _ =>
      let Hp := fresh in
      apply ret_inv in Hm as [Hp ?]; first [ injection Hp as ? ? | idtac ]; subst
    | Hm : ?m ?w = (Ok _, _) |- _ =>
      apply quiet_run in Hm; [|first [ exact Calls_create_llm | solve [calls_exact] ]]
    | H1 : quiet_step 0 ?w1 ?w2, H2 : quiet_step 0 ?w2 ?w3 |- _ =>
      pose proof (quiet_step_trans 0 0 _ _ _ H1 H2 : quiet_step 0 w1 w3); clear H1 H2
    end.

Section StagesInversion.
Context `{Collaborators}.

Lemma bot_stages_inv d w tools code w' :
  Bot.generate_bot_stages d w = (Ok (tools, code), w') ->
  exists analysis structure review w1 w1' w2 w2' w3 w3' w4 w4' w5 w5',
    quiet_step 0 w w1 /\ Bot.analysis_chain d w1 = (Ok analysis, w1')
    /\ quiet_step 0 w1' w2 /\ Bot.tools_selection_chain analysis d w2 = (Ok tools, w2')
    /\ quiet_step 0 w2' w3 /\ Bot.structure_chain analysis tools d w3 = (Ok structure, w3')
    /\ quiet_step 0 w3' w4 /\ Bot.code_chain analysis tools structure d w4 = (Ok code, w4')
    /\ quiet_step 0 w4' w5 /\ Bot.review_chain code w5 = (Ok review, w5')
    /\ quiet_step 0 w5' w'.
Proof.
  unfold Bot.generate_bot_stages. cbv zeta. intros E.
  run_inv E. quiet_runs.
  do 13 eexists.
  repeat lazymatch goal with |- _ /\ _ => split end; eassumption.
Qed.

Lemma post_stages_inv t src w post_content w' :
  Post.generate_post_stages t src w = (Ok post_content, w') ->
  exists analysis style structure review w1 w1' w2 w2' w3 w3' w4 w4' w5 w5',
    quiet_step 0 w w1 /\ Post.analysis_chain t src w1 = (Ok analysis, w1')
    /\ quiet_step 0 w1' w2 /\ Post.style_selection_chain analysis t w2 = (Ok style, w2')
    /\ quiet_step 0 w2' w3 /\ Post.structure_chain analysis style t w3 = (Ok structure, w3')
    /\ quiet_step 0 w3' w4
    /\ Post.content_generation_chain analysis style structure t src w4
       = (Ok post_content, w4')
    /\ quiet_step 0 w4' w5 /\ Post.review_chain post_content w5 = (Ok review, w5')
    /\ quiet_step 0 w5' w'.
Proof.
  unfold Post.generate_post_stages, Post.print_cut. cbv zeta. intros E.
  run_inv E. quiet_runs.
  do 14 eexists.
  repeat lazymatch goal with |- _ /\ _ => split end; eassumption.
Qed.

End StagesInversion.

Section NoKey.
Context `{Collaborators}.

Lemma no_key_emit ev w : ~ has_key w -> ~ has_key (emit ev w).
Proof. done. Qed.





Lemma ExitsWithoutKey_try_with {A} (body : M A) catches handler :
  ExitsWithoutKey body -> catches (SystemExit 1) = false ->
  ExitsWithoutKey (try_with body catches handler).
Proof.
  intros Hm Hc w Hkey. destruct (Hm w Hkey) as [E Hq]. unfold try_with.
  destruct (body w) as [r w1]. simpl in *. subst r. by rewrite Hc.
Qed.

End NoKey.


Section NoKeyRuns.
Context `{Collaborators}.








End NoKeyRuns.

Section MainClaims.
Context `{Collaborators}.





End MainClaims.



Section SaveOutcomes.
Context `{Collaborators}.









End SaveOutcomes.



Section UnwrapInvariants.
Implicit Types (code r s sub : str).

Lemma before_prefix sub s : exists t, s = before sub s ++ t.
Proof.
  unfold before. destruct (find sub s) as [i|].
  - exists (drop i s). by rewrite take_drop.
  - exists []. by rewrite app_nil_r.
Qed.

(** The clean-up only cuts: what it keeps stands in the text as it is. *)
Lemma fenced_part_infix code r :
  fenced_part code = Ok r -> exists a b, code = a ++ r ++ b.
Proof.
  destruct (find TAG code) as [i|] eqn:FT.
  - rewrite (fenced_part_tagged _ _ FT). intros Hr.
    assert (r = before FENCE (before TAG (drop (i + length TAG) code))) as ->
      by congruence.
    destruct (before_prefix TAG (drop (i + length TAG) code)) as [t1 H1].
    destruct (before_prefix FENCE (before TAG (drop (i + length TAG) code))) as [t2 H2].
    exists (take (i + length TAG) code), (t2 ++ t1).
    rewrite (app_assoc (before FENCE _) t2 t1), <- H2, <- H1. by rewrite take_drop.
  - destruct (find FENCE code) as [i|] eqn:F.
    + rewrite (fenced_part_generic _ _ FT F). intros Hr.
      assert (r = before FENCE (drop (i + length FENCE) code)) as -> by congruence.
      destruct (before_prefix FENCE (drop (i + length FENCE) code)) as [t1 H1].
      exists (take (i + length FENCE) code), t1.
      rewrite <- H1. by rewrite take_drop.
    + rewrite (fenced_part_plain _ F). intros [= <-].
      exists [], []. by rewrite app_nil_r.
Qed.

Lemma unwrap_infix code r : unwrap code = Ok r -> exists a b, code = a ++ r ++ b.
Proof.
  unfold unwrap. destruct (fenced_part code) as [r'|e] eqn:E; [|done].
  intros [= <-]. destruct (fenced_part_infix _ _ E) as (a & b & ->).
  destruct (strip_split r') as (a' & b' & Hr & _).
  exists (a ++ a'), (b' ++ b). rewrite Hr at 1. by rewrite <- !app_assoc.
Qed.

(** X6.  What [code_chain] makes of a model answer, whatever the answer: the
    clean-up always gives a result; the result has no white space at either
    end, holds no fence delimiter, and is a part of the answer, cut out of
    it and not changed. *)
Theorem unwrap_result_clean (code : str) :
  exists r, unwrap code = Ok r
            /\ trimmed r
            /\ contains FENCE r = false
            /\ exists a b, code = a ++ r ++ b.
Proof.
  destruct (unwrap_total code) as [r Hr]. exists r.
  destruct (unwrap_clean code r Hr) as [Ht Hf].
  split; [done|]. split; [done|]. split; [done|]. by apply unwrap_infix.
Qed.

End UnwrapInvariants.

Section ArtifactInvariants.
Context `{Collaborators}.

Lemma lift_inv {A} (r : Result A) w a w' : lift r w = (Ok a, w') -> r = Ok a.
Proof. by intros [= -> _]. Qed.

Lemma invoke_llm_inv tpl vars w content w' :
  invoke_llm tpl vars w = (Ok content, w') ->
  gateway (calls w) (format_prompt tpl vars) = Ok content.
Proof. by intros [= -> _]. Qed.

(** The code a returning [code_chain] gives is the unwrapped answer of
    the model. *)
Lemma code_chain_inv a t st d w code w' :
  Bot.code_chain a t st d w = (Ok code, w') ->
  exists content w0,
    quiet_step 0 w w0
    /\ gateway (calls w0) (generation_prompt (BotCode a t st d)) = Ok content
    /\ unwrap content = Ok code.
Proof.
  unfold Bot.code_chain. intros E. run_inv E.
  lazymatch goal with
  | Hl : lift _ _ = (Ok _, _) |- _ => apply lift_inv in Hl
  end.
  lazymatch goal with
  | Hi : invoke_llm _ _ _ = (Ok _, _) |- _ => apply invoke_llm_inv in Hi
  end.
  quiet_runs. eauto.
Qed.

Lemma content_generation_chain_inv a sty st t src w post w' :
  Post.content_generation_chain a sty st t src w = (Ok post, w') ->
  exists content w0,
    quiet_step 0 w w0
    /\ gateway (calls w0) (generation_prompt (PostContent a sty st t src)) = Ok content
    /\ post = strip content.
Proof.
  unfold Post.content_generation_chain. cbv zeta. intros E. run_inv E.
  lazymatch goal with
  | Hi : invoke_llm _ _ _ = (Ok _, _) |- _ => apply invoke_llm_inv in Hi
  end.
  quiet_runs. eauto.
Qed.

End ArtifactInvariants.

Section Prompts.
Context `{Collaborators}.




End Prompts.

Section RunInvariants.
Context `{Collaborators}.

Lemma generate_bot_returns_inv d w code :
  (Bot.generate_bot d w).1 = Ok code ->
  exists tools w1, Bot.generate_bot_stages d w = (Ok (tools, code), w1).
Proof.
  unfold Bot.generate_bot.
  destruct (Bot.generate_bot_stages d w) as [[[tools code']|e] w1] eqn:E.
  - rewrite (bind_ok _ _ _ _ _ E). cbn [fst snd]. intros Hc.
    destruct (generate_bot_save_spec tools code' w1) as (_ & _ & _ & _ & Hret & _).
    apply Hret in Hc as ->. eauto.
  - by rewrite (bind_raise _ _ _ _ _ E).
Qed.

Lemma generate_post_returns_inv t src w post_content :
  (Post.generate_post t src w).1 = Ok post_content ->
  exists w1, Post.generate_post_stages t src w = (Ok post_content, w1).
Proof.
  unfold Post.generate_post.
  destruct (Post.generate_post_stages t src w) as [[post'|e] w1] eqn:E.
  - rewrite (bind_ok _ _ _ _ _ E). intros Hc.
    destruct (generate_post_save_spec t post' w1) as (_ & _ & _ & _ & Hret & _).
    apply Hret in Hc as ->. eauto.
  - by rewrite (bind_raise _ _ _ _ _ E).
Qed.

(** X7.  The artifact a run returns is clean.  The code of a bot run has no
    white space at either end and holds no fence delimiter, and after a
    save without fault it is what the output file holds; the post of a
    post run has no white space at either end. *)
Theorem artifact_is_clean :
  (forall d w code,
      (Bot.generate_bot d w).1 = Ok code ->
      trimmed code /\ contains FENCE code = false
      /\ (fs_fault w = NoFault ->
          files (Bot.generate_bot d w).2 !! Bot.output_file = Some code))
  /\ (forall t src w post_content,
      (Post.generate_post t src w).1 = Ok post_content -> trimmed post_content).
Proof.
  split.
  - intros d w code Hrun.
    destruct (generate_bot_returns_inv d w code Hrun) as (tools & w1 & E).
    destruct (bot_stages_inv d w tools code w1 E)
      as (a & st & rv & v1 & v1' & v2 & v2' & v3 & v3' & v4 & v4' & v5 & v5'
          & _ & _ & _ & _ & _ & _ & _ & Hcode & _).
    destruct (code_chain_inv _ _ _ _ _ _ _ Hcode) as (content & v0 & _ & _ & Hu).
    destruct (unwrap_clean content code Hu) as [Ht Hf].
    split; [done|]. split; [done|]. intros Hnf.
    apply (generate_bot_file d w tools code); [by rewrite E | done].
  - intros t src w post_content Hrun.
    destruct (generate_post_returns_inv t src w post_content Hrun) as (w1 & E).
    destruct (post_stages_inv t src w post_content w1 E)
      as (a & sty & st & rv & v1 & v1' & v2 & v2' & v3 & v3' & v4 & v4' & v5 & v5'
          & _ & _ & _ & _ & _ & _ & _ & Hpost & _).
    destruct (content_generation_chain_inv _ _ _ _ _ _ _ _ Hpost)
      as (content & v0 & _ & _ & ->).
    apply strip_is_trimmed.
Qed.


End RunInvariants.

Lemma artifact_is_clean_witness :
  (trimmed (lit "print(1)") /\ contains FENCE (lit "print(1)") = false
   /\ (fs_fault world0 = NoFault ->
       files (@Bot.generate_bot (stub None (lit "{}")) (lit "ping bot") world0).2
         !! Bot.output_file = Some (lit "print(1)")))
  /\ trimmed (lit "Hello").
Proof.
  split.
  - apply (proj1 (@artifact_is_clean (stub None (lit "{}"))) (lit "ping bot") world0).
    vm_compute. reflexivity.
  - apply (proj2 (@artifact_is_clean (stub None (lit "{}"))) (lit "AI") [] world0).
    vm_compute. reflexivity.
Defined.


Section Completion.
Context `{Collaborators}.






End Completion.


Section Warnings.
Context `{Collaborators}.

Lemma ok_pair_inv {A} (a b : A) (w w' : World) :
  (Ok a, w) = (Ok b, w') -> a = b /\ w = w'.
Proof. by intros [= -> ->]. Qed.

Lemma run_result {A} (m : M A) w a : (m w).1 = Ok a -> m w = (Ok a, (m w).2).
Proof. destruct (m w) as [r w']. by intros [= ->]. Qed.

Lemma warnings_app evs1 evs2 : warnings (evs1 ++ evs2) = warnings evs1 ++ warnings evs2.
Proof. apply omap_app. Qed.

Lemma warned_trans ws1 ws2 w1 w2 w3 :
  warned ws1 w1 w2 -> warned ws2 w2 w3 -> warned (ws1 ++ ws2) w1 w3.
Proof.
  intros (evs1 & E1 & P1) (evs2 & E2 & P2). exists (evs1 ++ evs2).
  rewrite warnings_app, P1, P2, E2, E1. by rewrite app_assoc.
Qed.

Lemma warned_log lvl msg w a w' :
  log lvl msg w = (Ok a, w') -> lvl <> WARNING -> warned [] w w'.
Proof. intros [= _ <-] Hl. exists [EvLog lvl msg]. split; [done|]. by destruct lvl. Qed.

Lemma warned_create_llm w a w' : create_llm w = (Ok a, w') -> warned [] w w'.
Proof.
  unfold create_llm, bind, getenv. cbv beta iota zeta.
  destruct (bool_decide _); [done|].
  destruct (negb _); unfold log, ret; cbv beta iota; intros [= _ <-].
  - eexists [_; _]. cbn [trace emit]. by rewrite <- app_assoc.
  - by eexists [_].
Qed.

(** A JSON chain that returns has read the record it returns and logged no
    warning, or returns its defaults and has logged the one warning of its
    [except] branch. *)
Lemma json_chain_warned name tpl vars done_msg defaults w d w' :
  json_chain name tpl vars done_msg defaults w = (Ok d, w') ->
  (warned [] w w' /\ exists text, json_parse text = Some (VDict d))
  \/ (d = defaults /\ exists detail, warned [fallback_warning name detail] w w').
Proof.
  unfold json_chain, try_except, try_with, invoke_json, bind, invoke_llm.
  cbv beta iota zeta.
  assert (forall e,
            warned [fallback_warning name (exn_str e)] w
              (emit (EvLog WARNING
                       (lit "Ошибка парсинга в " ++ lit name ++ lit ": " ++ exn_str e
                        ++ lit ". Используются значения по умолчанию"))
                 (emit (EvGateway (format_prompt tpl vars)) (count_call w)))) as Hfall.
  { intros e. unfold fallback_warning.
    exists [EvGateway (format_prompt tpl vars);
            EvLog WARNING
              (lit "Ошибка парсинга в " ++ lit name ++ lit ": " ++ exn_str e
               ++ lit ". Используются значения по умолчанию")].
    cbn [trace emit count_call]. rewrite <- app_assoc. split; reflexivity. }
  destruct (gateway (calls w) (format_prompt tpl vars)) as [text|e]; cbv beta iota.
  - destruct (json_parse text) as [v|] eqn:P; cbv beta iota.
    + destruct v as [| | | | | |r]; unfold expect_dict, ret, raise, lift, log;
        cbv beta iota; cbn [is_Exception];
        try (intros [<- <-]%ok_pair_inv; right; split; [done|]; eexists (exn_str _); apply Hfall).
      destruct (done_msg r) as [msg|e]; cbv beta iota.
      * intros [<- <-]%ok_pair_inv. left. split; [|eauto].
        eexists [_; _]. cbn [trace emit count_call]. rewrite <- app_assoc.
        split; reflexivity.
      * destruct (is_Exception e); [|done].
        intros [<- <-]%ok_pair_inv. right. split; [done|]. eexists (exn_str _). apply Hfall.
    + unfold raise, log, ret. cbv beta iota. cbn [is_Exception].
      intros [<- <-]%ok_pair_inv. right. split; [done|]. eexists (exn_str _). apply Hfall.
  - destruct (is_Exception e); [|done]. unfold log, ret. cbv beta iota.
    intros [<- <-]%ok_pair_inv. right. split; [done|]. eexists (exn_str _). apply Hfall.
Qed.

(** X10.  No silent fallback.  A JSON chain that returns gives either a
    record the parser read, and then it has logged no warning, or its
    default mapping, and then it has logged exactly one warning, which
    names the chain and says that the defaults are used.  The warning calls
    whatever was caught a parsing error, a failed model call included. *)
Theorem fallback_is_logged (c : StructuredCall) (w w' : World) (d : dict) :
  run_call c w = (Ok d, w') ->
  (warned [] w w' /\ exists text, json_parse text = Some (VDict d))
  \/ (d = defaults_of c
      /\ exists detail, warned [fallback_warning (name_of c) detail] w w').
Proof.
  destruct c; cbn [run_call defaults_of name_of];
    [ unfold Bot.analysis_chain | unfold Bot.tools_selection_chain
    | unfold Bot.structure_chain | unfold Bot.review_chain
    | unfold Post.analysis_chain | unfold Post.style_selection_chain
    | unfold Post.structure_chain | unfold Post.review_chain ];
    intros E; run_inv E;
    repeat match goal with
      | Hm : log _ _ _ = (Ok _, _) |- _ => apply warned_log in Hm; [|done]
      | Hm : create_llm _ = (Ok _, _) |- _ => apply warned_create_llm in Hm
      | H1 : warned [] ?w1 ?w2, H2 : warned [] ?w2 ?w3 |- _ =>
        pose proof (warned_trans [] [] _ _ _ H1 H2 : warned [] w1 w3); clear H1 H2
      end;
    apply json_chain_warned in E;
    lazymatch goal with
    | Hp : warned [] _ _ |- _ =>
      destruct E as [[Hw Hd] | [-> (detail & Hw)]];
        [ left; split; [exact (warned_trans [] [] _ _ _ Hp Hw) | exact Hd]
        | right; split; [done|]; exists detail;
          exact (warned_trans [] [_] _ _ _ Hp Hw) ]
    end.
Qed.

End Warnings.

Lemma fallback_is_logged_witness :
  (warned [] world0
     (@run_call (stub (Some 0) (lit "{}")) (BotAnalysis (lit "ping bot")) world0).2
   /\ exists text,
        @json_parse (stub (Some 0) (lit "{}")) text = Some (VDict Bot.analysis_defaults))
  \/ (Bot.analysis_defaults = defaults_of (BotAnalysis (lit "ping bot"))
      /\ exists detail,
           warned [fallback_warning (name_of (BotAnalysis (lit "ping bot"))) detail]
             world0
             (@run_call (stub (Some 0) (lit "{}")) (BotAnalysis (lit "ping bot")) world0).2).
Proof.
  apply (@fallback_is_logged (stub (Some 0) (lit "{}")) (BotAnalysis (lit "ping bot")) world0).
  apply run_result. vm_compute. reflexivity.
Defined.

(** ** The menu of common_prompts.py *)

Section MenuFacts.
Implicit Types (s a ws : str) (ls : list str).

Lemma lstrip_spaces ws s :
  Forall (fun c => is_space c = true) ws -> lstrip (ws ++ s) = lstrip s.
Proof. induction 1 as [|c ws Hc _ IH]; [done|]. simpl. by rewrite Hc. Qed.

Lemma rstrip_app_spaces s ws :
  Forall (fun c => is_space c = true) ws -> rstrip (s ++ ws) = rstrip s.
Proof.
  intros Hws. unfold rstrip. rewrite reverse_app, lstrip_spaces; [done|].
  by apply Forall_reverse.
Qed.

Lemma lstrip_nil_spaces s : lstrip s = [] <-> Forall (fun c => is_space c = true) s.
Proof.
  induction s as [|c s IH]; [done|]. simpl. destruct (is_space c) eqn:E.
  - rewrite IH. split; [by constructor | by inversion 1].
  - split; [done|]. inversion 1. congruence.
Qed.

Lemma lstrip_app_keep a ws : lstrip a <> [] -> lstrip (a ++ ws) = lstrip a ++ ws.
Proof.
  induction a as [|c a IH]; [done|]. simpl. destruct (is_space c); [apply IH | done].
Qed.

(** White space added at the end goes with the white space at the end. *)
Lemma strip_app_spaces a ws :
  Forall (fun c => is_space c = true) ws -> strip (a ++ ws) = strip a.
Proof.
  intros Hws. unfold strip. destruct (decide (lstrip a = [])) as [Ha|Ha].
  - rewrite Ha. apply lstrip_nil_spaces in Ha.
    assert (lstrip (a ++ ws) = []) as -> by (by apply lstrip_nil_spaces, Forall_app).
    done.
  - rewrite (lstrip_app_keep _ _ Ha). by apply rstrip_app_spaces.
Qed.

Lemma strip_nil_spaces s : strip s = [] <-> Forall (fun c => is_space c = true) s.
Proof.
  split.
  - intros Hs. destruct (strip_split s) as (a & b & E & Ha & Hb).
    rewrite Hs in E. rewrite E. by apply Forall_app.
  - intros Hs. unfold strip. by rewrite (proj2 (lstrip_nil_spaces s) Hs).
Qed.

Lemma replace_char_app (x y : N) s t :
  Menu.replace_char x y (s ++ t) = Menu.replace_char x y s ++ Menu.replace_char x y t.
Proof. apply fmap_app. Qed.

Lemma replace_char_spaces ws :
  Forall (fun c => is_space c = true) ws ->
  Forall (fun c => is_space c = true) (Menu.replace_char 65533 32 ws).
Proof.
  intros Hws. unfold Menu.replace_char. apply Forall_fmap.
  eapply Forall_impl; [exact Hws|]. intros c Hc. simpl.
  by destruct (c =? 65533)%N.
Qed.

Lemma replace_char_gone s : 65533%N ∉ Menu.replace_char 65533 32 s.
Proof.
  unfold Menu.replace_char. intros (c & Hc & _)%list_elem_of_fmap.
  destruct (c =? 65533)%N eqn:E; [done|]. apply N.eqb_neq in E. done.
Qed.

Lemma join_snoc sep ls l :
  ls <> [] -> Menu.join sep (ls ++ [l]) = Menu.join sep ls ++ sep ++ l.
Proof.
  induction ls as [|x ls IH]; [done|]. intros _.
  destruct ls as [|y ls]; [done|].
  change (Menu.join sep ((x :: y :: ls) ++ [l]))
    with (x ++ sep ++ Menu.join sep ((y :: ls) ++ [l])).
  rewrite IH by done. cbn [Menu.join]. by rewrite <- !app_assoc.
Qed.

(** Blank lines at the end of the input add white space only. *)
Lemma join_blank_end ls l :
  Menu.blank l = true ->
  exists ws, Forall (fun c => is_space c = true) ws
             /\ Menu.join nl (ls ++ [l]) = Menu.join nl ls ++ ws.
Proof.
  intros Hb. apply bool_decide_eq_true, strip_nil_spaces in Hb.
  destruct ls as [|x ls].
  - exists l. by split.
  - exists (nl ++ l). split; [by apply Forall_app; split; [repeat constructor|] |].
    by apply join_snoc.
Qed.

Lemma drop_blank_end_snoc ls l :
  Menu.drop_blank_end (ls ++ [l])
  = if Menu.blank l then Menu.drop_blank_end ls else ls ++ [l].
Proof.
  unfold Menu.drop_blank_end. rewrite reverse_snoc. simpl.
  destruct (Menu.blank l); [done|]. by rewrite reverse_cons, reverse_involutive.
Qed.

(** Dropping the blank lines at the end changes nothing in what is
    returned. *)
Lemma strip_join_drop_blank_end ls :
  strip (Menu.replace_char 65533 32 (Menu.join nl (Menu.drop_blank_end ls)))
  = strip (Menu.replace_char 65533 32 (Menu.join nl ls)).
Proof.
  induction ls as [|l ls IH] using rev_ind; [done|].
  rewrite drop_blank_end_snoc. destruct (Menu.blank l) eqn:Hb; [|done].
  destruct (join_blank_end ls l Hb) as (ws & Hws & ->).
  rewrite replace_char_app, strip_app_spaces; [done|].
  by apply replace_char_spaces.
Qed.

End MenuFacts.

Section MenuClaims.
Implicit Types (ls lines : list str) (out : list str).

Lemma join_blank ls :
  Forall (fun l => Menu.blank l = true) ls ->
  Forall (fun c => is_space c = true) (Menu.join nl ls).
Proof.
  induction 1 as [|l ls Hl _ IH]; [done|].
  apply bool_decide_eq_true, strip_nil_spaces in Hl.
  destruct ls as [|l' ls]; [done|].
  change (Menu.join nl (l :: l' :: ls)) with (l ++ nl ++ Menu.join nl (l' :: ls)).
  apply Forall_app. split; [done|]. apply Forall_app. split; [by repeat constructor | done].
Qed.

(** The loop takes typed lines one by one; a file is looked for on the
    first line only. *)
Lemma input_loop_lines read first_line lines ls tail out :
  Forall (fun l => ~ ends_input l) ls ->
  (first_line = true -> forall l, head ls = Some l -> ~ names_file l) ->
  exists out',
    Menu.input_loop read first_line lines ((Menu.Line <$> ls) ++ tail) out
    = Menu.input_loop read (first_line && bool_decide (ls = [])) (lines ++ ls) tail out'.
Proof.
  intros Hls. revert first_line lines out.
  induction Hls as [|l ls Hl _ IH]; intros first_line lines out Hfile.
  - exists out. rewrite app_nil_r, andb_true_r. done.
  - cbn [fmap list_fmap app Menu.input_loop].
    unfold ends_input in Hl. apply not_true_is_false in Hl. rewrite Hl.
    assert (first_line && starts_with (lit "file:") (strip l) = false) as ->.
    { destruct first_line; [|done]. apply not_true_is_false, (Hfile eq_refl). done. }
    cbv zeta.
    edestruct (IH false (lines ++ [l])) as (out' & ->); [done|].
    exists out'. rewrite <- app_assoc. cbn [andb app].
    by rewrite andb_false_r.
Qed.

(** X11.  Text typed into [get_multiline_input].  Lines typed up to a line
    that reads END (in any case, with white space around it) or up to the
    end of the input are joined by newlines; the replacement character is
    turned into a space and the white space at both ends is removed.  The
    blank lines dropped at the end make no difference to the result.  It
    has no white space at either end and no replacement character, it is
    empty when only blank lines were typed, and the input behind the END
    line is left unread. *)
Theorem typed_input_collected (read : str -> Menu.Read) (prompt : str)
    (ls : list str) (tail : list Menu.Input) (out : list str) :
  Forall (fun l => ~ ends_input l) ls ->
  (forall l, head ls = Some l -> ~ names_file l) ->
  tail = [] \/ (exists e rest, tail = Menu.Line e :: rest /\ ends_input e) ->
  (Menu.get_multiline_input read prompt ((Menu.Line <$> ls) ++ tail) out).1.1
  = Ok (strip (Menu.replace_char 65533 32 (Menu.join nl ls)))
  /\ (Menu.get_multiline_input read prompt ((Menu.Line <$> ls) ++ tail) out).1.2
     = tl tail
  /\ trimmed (strip (Menu.replace_char 65533 32 (Menu.join nl ls)))
  /\ (65533%N ∉ strip (Menu.replace_char 65533 32 (Menu.join nl ls)))
  /\ (Forall (fun l => Menu.blank l = true) ls ->
      strip (Menu.replace_char 65533 32 (Menu.join nl ls)) = []).
Proof.
  intros Hls Hfile Htail.
  assert (forall out0, exists out',
            Menu.input_loop read true [] ((Menu.Line <$> ls) ++ tail) out0
            = (Menu.Collected ls, tl tail, out')) as Hloop.
  { intros out0.
    destruct (input_loop_lines read true [] ls tail out0 Hls) as (out' & ->);
      [by intros _|].
    cbn [app]. destruct Htail as [-> | (e & rest & -> & He)].
    - by exists out'.
    - exists out'. cbn [Menu.input_loop tl]. unfold ends_input in He. by rewrite He. }
  unfold Menu.get_multiline_input. cbv zeta.
  edestruct Hloop as (out' & ->). cbn [fst snd].
  rewrite strip_join_drop_blank_end.
  split; [done|]. split; [done|]. split; [apply strip_is_trimmed|]. split.
  - intros Hin.
    destruct (strip_split (Menu.replace_char 65533 32 (Menu.join nl ls)))
      as (a & b & E & _).
    apply (replace_char_gone (Menu.join nl ls)). rewrite E.
    apply elem_of_app. right. apply elem_of_app. by left.
  - intros Hblank. apply strip_nil_spaces, replace_char_spaces. by apply join_blank.
Qed.

(** X12.  The two ways out of the typing loop.  A first line that reads
    [file:path] makes [get_multiline_input] return the content of that
    file, with the white space at its ends removed and nothing else touched
    (a replacement character stays), and read no further line.  Ctrl-C
    after any number of typed lines ends the process with status 0. *)
Theorem input_shortcuts (read : str -> Menu.Read) (prompt : str) (out : list str) :
  (forall l rest content,
      ~ ends_input l -> names_file l ->
      read (strip (drop 5 (strip l))) = Menu.Content content ->
      (Menu.get_multiline_input read prompt (Menu.Line l :: rest) out).1
      = (Ok (strip content), rest))
  /\ (forall ls rest,
      Forall (fun l => ~ ends_input l) ls ->
      (forall l, head ls = Some l -> ~ names_file l) ->
      (Menu.get_multiline_input read prompt ((Menu.Line <$> ls) ++ Menu.CtrlC :: rest) out).1
      = (Raise (SystemExit 0), rest)).
Proof.
  split.
  - intros l rest content Hend Hfile Hread.
    unfold Menu.get_multiline_input. cbv zeta. cbn [Menu.input_loop].
    unfold ends_input in Hend. apply not_true_is_false in Hend. rewrite Hend.
    unfold names_file in Hfile. rewrite Hfile. cbn [andb]. by rewrite Hread.
  - intros ls rest Hls Hfile.
    unfold Menu.get_multiline_input. cbv zeta.
    edestruct (input_loop_lines read true [] ls (Menu.CtrlC :: rest)) as (out' & ->);
      [done | by intros _ |].
    done.
Qed.

(** X13.  [get_prompt] counts from 1 and never raises: it gives the prompt
    at that place when the index lies between 1 and the number of prompts,
    and nothing otherwise; an index of 0 or below does not count from the
    end, as a list index would. *)
Theorem get_prompt_bounds (prompts : list dict) (index : Z) :
  Menu.get_prompt prompts index
  = Ok (if (1 <=? index)%Z then prompts !! Z.to_nat (index - 1) else None)
  /\ ((exists p, Menu.get_prompt prompts index = Ok (Some p))
      <-> (1 <= index <= Z.of_nat (length prompts))%Z).
Proof.
  assert (Menu.get_prompt prompts index
          = Ok (if (1 <=? index)%Z then prompts !! Z.to_nat (index - 1) else None)) as E.
  { unfold Menu.get_prompt, Menu.py_list_index. cbv zeta.
    destruct (Z.ltb_spec 0 index) as [Hpos|Hpos]; cbn [andb].
    - replace (1 <=? index)%Z with true by (symmetry; apply Z.leb_le; lia).
      destruct (Z.leb_spec index (Z.of_nat (length prompts))) as [Hle|Hgt].
      + destruct (Z.ltb_spec (index - 1) 0) as [?|_]; [lia|].
        destruct (Z.ltb_spec (index - 1) 0) as [?|_]; [lia|].
        destruct (prompts !! Z.to_nat (index - 1)) eqn:L; [done|].
        apply lookup_ge_None in L. lia.
      + symmetry. f_equal. apply lookup_ge_None. lia.
    - replace (1 <=? index)%Z with false by (symmetry; apply Z.leb_gt; lia). done. }
  split; [exact E|]. rewrite E. split.
  - intros (p & [= Hp]). destruct (Z.leb_spec 1 index) as [H1|H1]; [|done].
    apply lookup_lt_Some in Hp. lia.
  - intros [H1 H2]. replace (1 <=? index)%Z with true by (symmetry; apply Z.leb_le; lia).
    destruct (lookup_lt_is_Some_2 prompts (Z.to_nat (index - 1))) as [p Hp]; [lia|].
    exists p. by rewrite Hp.
Qed.

End MenuClaims.

Lemma typed_input_collected_witness :
  (Menu.get_multiline_input (fun _ => Menu.FileNotFound) (lit "Describe the bot:")
     ((Menu.Line <$> [lit "  echo bot"; lit "answers /start"; []; lit "  "])
      ++ [Menu.Line (lit " end "); Menu.Line (lit "y")]) []).1.1
  = Ok (strip (Menu.replace_char 65533 32
                 (Menu.join nl [lit "  echo bot"; lit "answers /start"; []; lit "  "])))
  /\ (Menu.get_multiline_input (fun _ => Menu.FileNotFound) (lit "Describe the bot:")
        ((Menu.Line <$> [lit "  echo bot"; lit "answers /start"; []; lit "  "])
         ++ [Menu.Line (lit " end "); Menu.Line (lit "y")]) []).1.2
     = [Menu.Line (lit "y")].
Proof.
  destruct (typed_input_collected (fun _ => Menu.FileNotFound) (lit "Describe the bot:")
              [lit "  echo bot"; lit "answers /start"; []; lit "  "]
              [Menu.Line (lit " end "); Menu.Line (lit "y")] [])
    as (Hr & Hrest & _).
  - repeat constructor; intros Hend; vm_compute in Hend; discriminate Hend.
  - intros l [= <-] Hfile. vm_compute in Hfile. discriminate Hfile.
  - right. exists (lit " end "), [Menu.Line (lit "y")]. split; reflexivity.
  - split; [exact Hr | exact Hrest].
Defined.

Lemma input_shortcuts_witness :
  (Menu.get_multiline_input
     (fun path => if bool_decide (path = lit "brief.txt")
                  then Menu.Content (lit " ping bot" ++ nl) else Menu.FileNotFound)
     (lit "Describe the bot:") [Menu.Line (lit "file: brief.txt"); Menu.Line (lit "y")] []).1
  = (Ok (strip (lit " ping bot" ++ nl)), [Menu.Line (lit "y")])
  /\ (Menu.get_multiline_input (fun _ => Menu.FileNotFound) (lit "Describe the bot:")
        ((Menu.Line <$> [lit "echo bot"]) ++ Menu.CtrlC :: [Menu.Line (lit "y")]) []).1
     = (Raise (SystemExit 0), [Menu.Line (lit "y")]).
Proof.
  split.
  - apply (proj1 (input_shortcuts
                    (fun path => if bool_decide (path = lit "brief.txt")
                                 then Menu.Content (lit " ping bot" ++ nl)
                                 else Menu.FileNotFound)
                    (lit "Describe the bot:") [])).
    + intros Hend. vm_compute in Hend. discriminate Hend.
    + reflexivity.
    + reflexivity.
  - apply (proj2 (input_shortcuts (fun _ => Menu.FileNotFound)
                    (lit "Describe the bot:") []) [lit "echo bot"]).
    + repeat constructor; intros Hend; vm_compute in Hend; discriminate Hend.
    + intros l [= <-] Hfile. vm_compute in Hfile. discriminate Hfile.
Defined.
